(** * RepoPulse: the metrics aggregation pipeline

    A shallow embedding of [src/lib/github.ts] and [src/lib/metrics.ts],
    followed by the properties of the health score, the release rollups,
    the median, the retrying HTTP client and the orchestrator.

    Conventions of the embedding.
    - A JavaScript [number] is an exact rational ([Q]); NaN, the infinities
      and the rounding of IEEE doubles are outside the model.  Functions of
      [Math] are written out on [Q].
    - A [Promise] that rejects and a [throw] are the same thing: a
      computation that ends in [Thrown].
    - [new Date(s).getTime()] is a parameter [getTime : string -> Z]
      (milliseconds since the epoch); [Date.now()] is passed explicitly. *)

From Stdlib Require Import ZArith QArith Qround Qminmax Qabs Lia.
From Stdlib Require Import Sorted Permutation.
From stdpp Require Import base strings pretty gmap.

Set Implicit Arguments.
Local Open Scope Q_scope.

(* ===================================================================== *)
(** ** JavaScript numbers *)
(* ===================================================================== *)

Module JS.

(** [a < b] on numbers. *)
Definition ltb (a b : Q) : bool := negb (Qle_bool b a).
(** [a <= b], [a >= b], [a > b]. *)
Definition leb (a b : Q) : bool := Qle_bool a b.
Definition geb (a b : Q) : bool := Qle_bool b a.
Definition gtb (a b : Q) : bool := negb (Qle_bool a b).

(** [Math.floor]. *)
Definition Math_floor (x : Q) : Q := inject_Z (Qfloor x).

(** [Math.round]: the nearest integer, a tie going up. *)
Definition Math_round (x : Q) : Q := inject_Z (Qfloor (x + (1 # 2))).

Definition Math_min (a b : Q) : Q := Qmin a b.
Definition Math_max (a b : Q) : Q := Qmax a b.

(** [Math.pow(2, i)] for a loop counter [i]. *)
Definition Math_pow2 (i : nat) : Q := inject_Z (2 ^ Z.of_nat i).

(** [xs.length] as a number. *)
Definition length {A} (xs : list A) : Q := inject_Z (Z.of_nat (List.length xs)).

(** [xs.sort(cmp)] for a comparator given as the test [cmp(a, b) <= 0].
    The sort of an array is stable, so its result is the one of a stable
    insertion sort. *)
Section Sort.
Context {A : Type} (le : A -> A -> bool).

Fixpoint insert (x : A) (l : list A) : list A :=
  match l with
  | [] => [x]
  | y :: l' => if le x y then x :: y :: l' else y :: insert x l'
  end.

Fixpoint sort (l : list A) : list A :=
  match l with
  | [] => []
  | x :: l' => insert x (sort l')
  end.
End Sort.

(** A number that is an integer, as a template literal prints it. *)
Definition show_int (x : Q) : string := pretty (Qfloor x).

(** [x || d] on a number: zero is falsy. *)
Definition num_or (x d : Q) : Q := if Qeq_bool x 0 then d else x.

(** [s || d] on a string that may be [null]: the empty string is falsy. *)
Definition str_or (s : option string) (d : string) : string :=
  match s with
  | Some x => if String.eqb x EmptyString then d else x
  | None => d
  end.

End JS.

(* ===================================================================== *)
(** ** Effects: emitted events and exceptions *)
(* ===================================================================== *)

Module Eff.

(** How a call ends: with a value, or by throwing. *)
Inductive Outcome (A : Type) : Type :=
| Returned (a : A)
| Thrown (error : string).
Arguments Returned {A} a.
Arguments Thrown {A} error.

(** A computation: the events it emitted, in order, and how it ended. *)
Definition M (E A : Type) : Type := (list E * Outcome A)%type.

Definition ret {E A} (a : A) : M E A := ([], Returned a).
Definition throw {E A} (error : string) : M E A := ([], Thrown error).
Definition emit {E} (e : E) : M E unit := ([e], Returned tt).
(** An awaited call whose outcome is given. *)
Definition await {E A} (o : Outcome A) : M E A := ([], o).

Definition bind {E A B} (m : M E A) (k : A -> M E B) : M E B :=
  match m with
  | (es, Returned a) => let (es', r) := k a in (es ++ es', r)
  | (es, Thrown error) => (es, Thrown error)
  end.

(** [try { m } catch (error) { h error }]. *)
Definition try_catch {E A} (m : M E A) (h : string -> M E A) : M E A :=
  match m with
  | (es, Returned a) => (es, Returned a)
  | (es, Thrown error) => let (es', r) := h error in (es ++ es', r)
  end.

Definition events {E A} (m : M E A) : list E := fst m.
Definition outcome {E A} (m : M E A) : Outcome A := snd m.

Declare Scope eff_scope.
Delimit Scope eff_scope with eff.
Notation "'let*' x ':=' m 'in' k" := (bind m (fun x => k))
  (at level 10, x pattern, m at level 100, k at level 200) : eff_scope.
Notation "m ;; k" := (bind m (fun _ => k))
  (at level 100, k at level 200, right associativity) : eff_scope.

End Eff.

(* ===================================================================== *)
(** ** [src/lib/github.ts]: the GitHub API client *)
(* ===================================================================== *)

Module GitHub.
Import Eff.
Local Open Scope eff_scope.
Local Open Scope string_scope.

(** *** Responses and payloads *)

(** A [Response] whose parsed JSON body has type [B].  The status is the
    integer status code of HTTP. *)
Record Response (B : Type) : Type := mkResponse {
  status : Z;
  statusText : string;
  json : B
}.
Arguments mkResponse {B} status statusText json.
Arguments status {B} r.
Arguments statusText {B} r.
Arguments json {B} r.

(** [response.ok]: a status in the range 200-299. *)
Definition ok {B} (response : Response B) : bool :=
  ((200 <=? status response) && (status response <=? 299))%Z.

(** The outcome of one [fetchWithRetry] call: a response, or the network
    error it rethrows. *)
Definition Reply (B : Type) : Type := Outcome (Response B).

Record License := { license_name : string; spdx_id : string }.

Record GitHubRepository := {
  repo_id : Q;
  repo_name : string;
  full_name : string;
  owner_login : string;
  description : option string;
  stargazers_count : Q;
  forks_count : Q;
  open_issues_count : Q;
  watchers_count : Q;
  subscribers_count : Q;
  repo_created_at : string;
  updated_at : string;
  license : option License
}.

Inductive IssueState := open | closed.

(** An item of the issues endpoint; [pull_request] tells whether the item
    carries the pull-request marker. *)
Record GitHubIssue := {
  number : Q;
  title : string;
  state : IssueState;
  created_at : string;
  issue_updated_at : string;
  closed_at : option string;
  comments : Q;
  timeline_url : string;
  pull_request : bool
}.

Record CommitAuthor := { author_name : string; email : string; date : string }.
Record CommitInfo := { commit_author : CommitAuthor; message : string }.
Record UserRef := { login : string }.

Record GitHubCommit := {
  sha : string;
  commit : CommitInfo;
  author : option UserRef
}.

Record CommentUser := { user_login : string; user_type : string }.

Record GitHubIssueComment := {
  comment_id : Q;
  user : CommentUser;
  comment_created_at : string;
  body : string
}.

Record GitHubReleaseAsset := {
  asset_id : Q;
  asset_name : string;
  size : Q;
  download_count : Q;
  browser_download_url : string;
  content_type : string;
  asset_created_at : string
}.

Record GitHubRelease := {
  release_id : Q;
  tag_name : string;
  name : option string;
  published_at : string;
  prerelease : bool;
  draft : bool;
  release_body : option string;
  assets : list GitHubReleaseAsset;
  release_author : UserRef
}.

(** *** fetchWithRetry *)

(** What the retrying client does to the outside: a request, or a pause of
    [ms] milliseconds. *)
Inductive NetEvent :=
| Request (url : string) (attempt : nat)
| Sleep (ms : Q).

(** The statuses that are retried. *)
Definition retryable (st : Z) : bool :=
  ((st =? 403) || (st =? 502) || (st =? 503) || (st =? 504) || (500 <=? st))%Z.

(** [Math.min(1000 * Math.pow(2, i), 8000)]. *)
Definition backoff (i : nat) : Q := JS.Math_min (1000 * JS.Math_pow2 i) 8000.

Section FetchWithRetry.
Context {B : Type}.
(** [fetch i]: what the [i]-th call of [fetch(url, options)] does. *)
Variable fetch : nat -> Outcome (Response B).
Variable url : string.
Variable retries : nat.

(** The body of [for (let i = 0; i <= retries; i++)], with [todo] the
    number of values of [i] still to run. *)
Fixpoint fetchWithRetry_from (todo i : nat) : M NetEvent (Response B) :=
  match todo with
  | O => throw "Max retries reached"
  | S todo' =>
      emit (Request url i) ;;
      match fetch i with
      | Returned response =>
          if retryable (status response) && (i <? retries)%nat then
            emit (Sleep (backoff i)) ;;
            fetchWithRetry_from todo' (S i)
          else ret response
      | Thrown error =>
          if (i =? retries)%nat then throw error
          else
            emit (Sleep (backoff i)) ;;
            fetchWithRetry_from todo' (S i)
      end
  end.

Definition fetchWithRetry : M NetEvent (Response B) :=
  fetchWithRetry_from (S retries) 0.
End FetchWithRetry.

(** The retry budget when the caller gives none. *)
Definition default_retries : nat := 3.

(** *** The fetchers

    Each fetcher is given the outcomes of its [fetchWithRetry] calls, in
    the order it makes them.  A paginated fetcher is given the outcomes of
    its successive page requests as a list; past the end of the list the
    server has nothing left and answers with an empty page. *)

Definition dquote : string := String (Ascii.ascii_of_nat 34) EmptyString.

Section Fetchers.
(** The events of the caller, emitted through progress callbacks. *)
Context {E : Type}.
(** [new Date(s).getTime()]. *)
Variable getTime : string -> Z.

Definition fetchRepository (reply : Reply GitHubRepository)
    (owner repo : string) : M E GitHubRepository :=
  let* response := await reply in
  if negb (ok response) then
    if (status response =? 404)%Z then
      throw ("Repository " ++ dquote ++ owner ++ "/" ++ repo ++ dquote ++
             " not found. Please check the repository name and make sure it exists.")
    else if (status response =? 403)%Z then
      throw ("Access denied to repository " ++ dquote ++ owner ++ "/" ++ repo ++ dquote ++
             ". The repository might be private or you've hit the rate limit.")
    else
      throw ("Failed to fetch repository " ++ dquote ++ owner ++ "/" ++ repo ++ dquote ++
             ": " ++ pretty (status response) ++ " " ++ statusText response)
  else ret (json response).

(** The loop of [fetchIssues], from the accumulated [issues] on. *)
Fixpoint fetchIssues_from (pages : list (Reply (list GitHubIssue)))
    (perPage : Q) (onProgress : Q -> Q -> M E unit)
    (issues : list GitHubIssue) : M E (list GitHubIssue) :=
  if negb (JS.ltb (JS.length issues) 500) then ret issues
  else
    match pages with
    | [] => ret issues
    | reply :: pages' =>
        let* response := await reply in
        if negb (ok response) then
          if (status response =? 404)%Z then ret issues
          else throw ("Failed to fetch issues: " ++ pretty (status response) ++
                      " " ++ statusText response)
        else
          let data := json response in
          if Qeq_bool (JS.length data) 0 then ret issues
          else
            let actualIssues := List.filter (fun issue => negb (pull_request issue)) data in
            let issues := (issues ++ actualIssues)%list in
            onProgress (JS.length issues) 500 ;;
            if JS.ltb (JS.length data) perPage then ret issues
            else fetchIssues_from pages' perPage onProgress issues
    end.

Definition fetchIssues (pages : list (Reply (list GitHubIssue)))
    (perPage : Q) (onProgress : Q -> Q -> M E unit) : M E (list GitHubIssue) :=
  fetchIssues_from pages perPage onProgress [].

Definition fetchIssueComments (reply : Reply (list GitHubIssueComment))
    : M E (list GitHubIssueComment) :=
  try_catch
    (let* response := await reply in
     if negb (ok response) then
       if (status response =? 504)%Z || (500 <=? status response)%Z then ret []
       else throw ("Failed to fetch issue comments: " ++ pretty (status response))
     else ret (json response))
    (fun _ => ret []).

(** The loop of [fetchCommits]; [perPage] is the constant 100. *)
Fixpoint fetchCommits_from (pages : list (Reply (list GitHubCommit)))
    (onProgress : Q -> Q -> M E unit)
    (commits : list GitHubCommit) : M E (list GitHubCommit) :=
  let perPage := 100 in
  if negb (JS.ltb (JS.length commits) 1000) then ret commits
  else
    match pages with
    | [] => ret commits
    | reply :: pages' =>
        let* response := await reply in
        if negb (ok response) then
          if (status response =? 504)%Z || (500 <=? status response)%Z then ret commits
          else throw ("Failed to fetch commits: " ++ pretty (status response))
        else
          let data := json response in
          if Qeq_bool (JS.length data) 0 then ret commits
          else
            let commits := (commits ++ data)%list in
            onProgress (JS.length commits) 1000 ;;
            if JS.ltb (JS.length data) perPage then ret commits
            else fetchCommits_from pages' onProgress commits
    end.

Definition fetchCommits (pages : list (Reply (list GitHubCommit)))
    (onProgress : Q -> Q -> M E unit) : M E (list GitHubCommit) :=
  fetchCommits_from pages onProgress [].

(** The loop of [fetchReleases]. *)
Fixpoint fetchReleases_from (pages : list (Reply (list GitHubRelease)))
    (limit : Q) (onProgress : Q -> Q -> M E unit)
    (releases : list GitHubRelease) : M E (list GitHubRelease) :=
  let perPage := 100 in
  if negb (JS.ltb (JS.length releases) limit) then ret releases
  else
    match pages with
    | [] => ret releases
    | reply :: pages' =>
        let* response := await reply in
        if negb (ok response) then
          if (status response =? 504)%Z || (500 <=? status response)%Z then ret releases
          else throw ("Failed to fetch releases: " ++ pretty (status response))
        else
          let data := json response in
          if Qeq_bool (JS.length data) 0 then ret releases
          else
            let validReleases := List.filter (fun release => negb (draft release)) data in
            let releases := (releases ++ validReleases)%list in
            onProgress (JS.length releases) limit ;;
            if JS.ltb (JS.length data) perPage then ret releases
            else fetchReleases_from pages' limit onProgress releases
    end.

Definition fetchReleases (pages : list (Reply (list GitHubRelease)))
    (limit : Q) (onProgress : Q -> Q -> M E unit) : M E (list GitHubRelease) :=
  fetchReleases_from pages limit onProgress [].

(** [Record<string, number>], as the list of its entries. *)
Definition Languages : Type := list (string * Q).

Definition fetchLanguages (reply : Reply Languages) : M E Languages :=
  let* response := await reply in
  if negb (ok response) then
    throw ("Failed to fetch languages: " ++ pretty (status response))
  else ret (json response).

(** The body of a search: its [total_count]. *)
Definition fetchOpenPullRequestsCount (reply : Reply Q) : M E Q :=
  let* response := await reply in
  if negb (ok response) then
    throw ("Failed to fetch PRs: " ++ pretty (status response))
  else ret (JS.num_or (json response) 0).

Record PRStats := { merged : Q; closed_unmerged : Q; mergeRate : Q }.

Definition fetchPRStats (mergedReply closedReply : Reply Q) : M E PRStats :=
  try_catch
    (let* mergedResponse := await mergedReply in
     let mergedData := if ok mergedResponse then json mergedResponse else 0 in
     let* closedResponse := await closedReply in
     let closedData := if ok closedResponse then json closedResponse else 0 in
     let merged := JS.num_or mergedData 0 in
     let closed := JS.num_or closedData 0 in
     let total := merged + closed in
     let mergeRate := if JS.gtb total 0 then (merged / total) * 100 else 0 in
     ret {| merged := merged; closed_unmerged := closed; mergeRate := mergeRate |})
    (fun _ => ret {| merged := 0; closed_unmerged := 0; mergeRate := 0 |}).

Record StarGrowth := { starsPerMonth : Q; recentGrowth : Q }.

(** The body of the stargazers request: the [starred_at] of each entry. *)
Definition fetchStarGrowth (now : Z) (reply : Reply (list string)) : M E StarGrowth :=
  try_catch
    (let* response := await reply in
     if negb (ok response) then ret {| starsPerMonth := 0; recentGrowth := 0 |}
     else
       let stargazers := json response in
       if Qeq_bool (JS.length stargazers) 0 then
         ret {| starsPerMonth := 0; recentGrowth := 0 |}
       else
         let thirtyDaysAgo := (now - 30 * 24 * 60 * 60 * 1000)%Z in
         let recentStars :=
           JS.length (List.filter (fun s => (thirtyDaysAgo <? getTime s)%Z) stargazers) in
         ret {| starsPerMonth := recentStars; recentGrowth := recentStars |})
    (fun _ => ret {| starsPerMonth := 0; recentGrowth := 0 |}).

Record CodeFrequency := { additions : Q; deletions : Q; totalChanges : Q }.

(** The polling loop of [fetchCodeFrequency]: [polls k] is the outcome of
    the request made when [attempts] is [k]; [todo] counts the values of
    [attempts] still below [maxAttempts]. *)
Fixpoint codeFrequency_poll {B} (polls : nat -> Reply B) (todo attempts : nat)
    : M E (option (Response B)) :=
  match todo with
  | O => ret None
  | S todo' =>
      let* response := await (polls attempts) in
      if (status response =? 202)%Z then
        if (S attempts <? 3)%nat then codeFrequency_poll polls todo' (S attempts)
        else ret (Some response)
      else ret (Some response)
  end.

(** [data.slice(-12)]. *)
Definition last12 {A} (data : list A) : list A :=
  skipn (List.length data - 12) data.

(** The body of the statistics request: [None] when it is not an array,
    otherwise the weekly triples (week, additions, deletions). *)
Definition fetchCodeFrequency (polls : nat -> Reply (option (list (Q * Q * Q))))
    : M E CodeFrequency :=
  let zero := {| additions := 0; deletions := 0; totalChanges := 0 |} in
  try_catch
    (let* response := codeFrequency_poll polls 3 0 in
     match response with
     | None => ret zero
     | Some response =>
         if negb (ok response) || (status response =? 202)%Z then ret zero
         else
           match json response with
           | None => ret zero
           | Some data =>
               if Qeq_bool (JS.length data) 0 then ret zero
               else
                 let recentWeeks := last12 data in
                 let '(additions, deletions) :=
                   fold_left
                     (fun '(additions, deletions) '(_, a, d) =>
                        (additions + a, deletions + Qabs d))
                     recentWeeks (0, 0) in
                 ret {| additions := additions; deletions := deletions;
                        totalChanges := additions + deletions |}
           end
     end)
    (fun _ => ret zero).
End Fetchers.

End GitHub.

(* ===================================================================== *)
(** ** [src/lib/metrics.ts]: the metrics and the orchestrator *)
(* ===================================================================== *)

(** An entry of [ReleaseStats.assets]. *)
Module ReleaseAsset.
Record t := { name : string; size : Q; downloads : Q }.
End ReleaseAsset.

Module ReleaseStats.
Record t := {
  tag : string;
  name : string;
  publishedAt : string;
  daysAgo : Q;
  totalDownloads : Q;
  assetsCount : Q;
  isPrerelease : bool;
  assets : list ReleaseAsset.t
}.
End ReleaseStats.

(** The record [calculateReleaseStats] returns. *)
Module Rollup.
Record t := {
  releases : list ReleaseStats.t;
  totalReleases : Q;
  releasesLast90Days : Q;
  totalDownloads : Q;
  averageDownloadsPerRelease : Q;
  latestRelease : option ReleaseStats.t
}.
End Rollup.

(** [Omit<RepositoryMetrics, 'healthScore'>]. *)
Module MetricsData.
Record t := {
  owner : string;
  name : string;
  fullName : string;
  description : option string;
  stars : Q;
  forks : Q;
  openIssues : Q;
  medianIssueResponseTime : option Q;
  openIssuesCount : Q;
  closedIssuesCount : Q;
  totalCommitsLast90Days : Q;
  topContributorRatio : Q;
  releases : list ReleaseStats.t;
  totalReleases : Q;
  releasesLast90Days : Q;
  totalDownloads : Q;
  averageDownloadsPerRelease : Q;
  latestRelease : option ReleaseStats.t;
  watchers : Q;
  lastCommitDate : string;
  openPullRequests : Q;
  license : option string;
  languages : GitHub.Languages;
  starsPerMonth : Q;
  recentStarGrowth : Q;
  prMergeRate : Q;
  codeAdditions : Q;
  codeDeletions : Q;
  totalCodeChanges : Q
}.
End MetricsData.

(** [RepositoryMetrics]: the fields of [MetricsData.t] and the score. *)
Module RepositoryMetrics.
Record t := {
  data : MetricsData.t;
  healthScore : Q
}.
End RepositoryMetrics.

Module Metrics.
Import Eff.
Local Open Scope eff_scope.

Record AnalysisStatus := {
  step : string;
  message : string;
  progress : Q
}.

(** *** calculateMedian *)

Definition calculateMedian (values : list Q) : option Q :=
  if Qeq_bool (JS.length values) 0 then None
  else
    let sorted := JS.sort Qle_bool values in
    let middle := (List.length sorted / 2)%nat in
    if (List.length sorted mod 2 =? 0)%nat then
      Some ((nth (middle - 1) sorted 0 + nth middle sorted 0) / 2)
    else Some (nth middle sorted 0).

(** *** calculateIssueResponseTime, calculateMedianIssueResponseTime *)

Section ResponseTime.
Context {E : Type}.
Variable getTime : string -> Z.
(** [commentsOf n]: the outcome of the comments request of issue [n]. *)
Variable commentsOf : Q -> GitHub.Reply (list GitHub.GitHubIssueComment).

Definition calculateIssueResponseTime (issue : GitHub.GitHubIssue) : M E (option Q) :=
  try_catch
    (let* comments := GitHub.fetchIssueComments (commentsOf (GitHub.number issue)) in
     if Qeq_bool (JS.length comments) 0 then ret None
     else
       match List.find
               (fun comment =>
                  String.eqb (GitHub.user_type (GitHub.user comment)) "User")
               comments with
       | None => ret None
       | Some firstResponse =>
           let issueCreated := getTime (GitHub.created_at issue) in
           let firstResponseTime := getTime (GitHub.comment_created_at firstResponse) in
           ret (Some (inject_Z (firstResponseTime - issueCreated) / (1000 * 60 * 60)))
       end)
    (fun _ => ret None).

(** The [for (const issue of closedIssues)] loop; the pause of 200 ms
    after each issue has no effect on the result. *)
Fixpoint collectResponseTimes (closedIssues : list GitHub.GitHubIssue)
    (responseTimes : list Q) : M E (list Q) :=
  match closedIssues with
  | [] => ret responseTimes
  | issue :: rest =>
      let* responseTime := calculateIssueResponseTime issue in
      let responseTimes :=
        match responseTime with
        | Some t => responseTimes ++ [t]
        | None => responseTimes
        end in
      collectResponseTimes rest responseTimes
  end.

Definition is_closed (st : GitHub.IssueState) : bool :=
  match st with GitHub.closed => true | GitHub.open => false end.
Definition is_open (st : GitHub.IssueState) : bool :=
  match st with GitHub.open => true | GitHub.closed => false end.

Definition calculateMedianIssueResponseTime (issues : list GitHub.GitHubIssue)
    : M E (option Q) :=
  let closedIssues :=
    firstn 5
      (JS.sort
         (fun a b =>
            (getTime (GitHub.created_at b) <=? getTime (GitHub.created_at a))%Z)
         (List.filter
            (fun issue =>
               is_closed (GitHub.state issue) && JS.gtb (GitHub.comments issue) 0)
            issues)) in
  if Qeq_bool (JS.length closedIssues) 0 then ret None
  else
    let* responseTimes := collectResponseTimes closedIssues [] in
    ret (calculateMedian responseTimes).
End ResponseTime.

(** *** calculateTopContributorRatio *)

Definition calculateTopContributorRatio (commits : list GitHub.GitHubCommit) : Q :=
  if Qeq_bool (JS.length commits) 0 then 0
  else
    let contributorCounts : gmap string Q :=
      fold_left
        (fun (contributorCounts : gmap string Q) commit =>
           let author :=
             JS.str_or (option_map GitHub.login (GitHub.author commit))
                       (GitHub.email (GitHub.commit_author (GitHub.commit commit))) in
           <[ author := default 0 (contributorCounts !! author) + 1 ]> contributorCounts)
        commits ∅ in
    let maxCommits :=
      map_fold
        (fun _ count maxCommits => if JS.gtb count maxCommits then count else maxCommits)
        0 contributorCounts in
    (maxCommits / JS.length commits) * 100.

(** *** calculateReleaseStats *)

Section ReleaseStats.
Variable getTime : string -> Z.

Definition releaseStat (now : Z) (release : GitHub.GitHubRelease) : ReleaseStats.t :=
  let totalDownloads :=
    fold_left (fun sum asset => sum + GitHub.download_count asset)
              (GitHub.assets release) 0 in
  let daysAgo :=
    JS.Math_floor (inject_Z (now - getTime (GitHub.published_at release))
                   / (1000 * 60 * 60 * 24)) in
  {| ReleaseStats.tag := GitHub.tag_name release;
     ReleaseStats.name :=
       JS.str_or (GitHub.name release) (GitHub.tag_name release);
     ReleaseStats.publishedAt := GitHub.published_at release;
     ReleaseStats.daysAgo := daysAgo;
     ReleaseStats.totalDownloads := totalDownloads;
     ReleaseStats.assetsCount := JS.length (GitHub.assets release);
     ReleaseStats.isPrerelease := GitHub.prerelease release;
     ReleaseStats.assets :=
       map (fun asset =>
              {| ReleaseAsset.name := GitHub.asset_name asset;
                 ReleaseAsset.size := GitHub.size asset;
                 ReleaseAsset.downloads := GitHub.download_count asset |})
           (GitHub.assets release) |}.

Definition calculateReleaseStats (now : Z) (releases : list GitHub.GitHubRelease)
    : Rollup.t :=
  let ninetyDaysAgo := (now - 90 * 24 * 60 * 60 * 1000)%Z in
  let releaseStats := map (releaseStat now) releases in
  let recentReleases :=
    List.filter
      (fun r =>
         let publishedAt := getTime (ReleaseStats.publishedAt r) in
         (ninetyDaysAgo <=? publishedAt)%Z && negb (ReleaseStats.isPrerelease r))
      releaseStats in
  let totalDownloads :=
    fold_left (fun sum r => sum + ReleaseStats.totalDownloads r) releaseStats 0 in
  let nonPrereleases :=
    List.filter (fun r => negb (ReleaseStats.isPrerelease r)) releaseStats in
  {| Rollup.releases := releaseStats;
     Rollup.totalReleases := JS.length nonPrereleases;
     Rollup.releasesLast90Days := JS.length recentReleases;
     Rollup.totalDownloads := totalDownloads;
     Rollup.averageDownloadsPerRelease :=
       if JS.gtb (JS.length nonPrereleases) 0
       then JS.Math_round (totalDownloads / JS.length nonPrereleases)
       else 0;
     Rollup.latestRelease :=
       if JS.gtb (JS.length nonPrereleases) 0 then head nonPrereleases else None |}.
End ReleaseStats.

(** *** calculateHealthScore *)

(** 1. Response Time Score (20 points). *)
Definition responseTimeScore (medianIssueResponseTime : option Q) : Q :=
  match medianIssueResponseTime with
  | Some t =>
      if JS.ltb t 24 then 20
      else if JS.ltb t 48 then 16
      else if JS.ltb t 72 then 12
      else if JS.ltb t 168 then 8
      else 4
  | None => 10
  end.

(** 2. Issue Resolution Score (20 points). *)
Definition issueResolutionScore (openIssuesCount closedIssuesCount : Q) : Q :=
  let totalIssues := openIssuesCount + closedIssuesCount in
  if JS.gtb totalIssues 0 then
    let closedRatio := closedIssuesCount / totalIssues in
    JS.Math_round (closedRatio * 20)
  else 10.

(** 3. Commit Activity Score (20 points). *)
Definition commitActivityScore (totalCommitsLast90Days : Q) : Q :=
  if JS.geb totalCommitsLast90Days 100 then 20
  else if JS.geb totalCommitsLast90Days 50 then 16
  else if JS.geb totalCommitsLast90Days 20 then 12
  else if JS.geb totalCommitsLast90Days 10 then 8
  else JS.Math_round ((totalCommitsLast90Days / 10) * 8).

(** 4. Bus Factor Score (20 points). *)
Definition busFactorScore (topContributorRatio : Q) : Q :=
  if JS.ltb topContributorRatio 40 then 20
  else if JS.ltb topContributorRatio 50 then 16
  else if JS.ltb topContributorRatio 60 then 12
  else if JS.ltb topContributorRatio 70 then 8
  else 4.

(** 5. Release Activity Score (20 points). *)
Definition releaseActivityScore (latestRelease : option ReleaseStats.t) : Q :=
  match latestRelease with
  | Some latest =>
      let daysAgo := ReleaseStats.daysAgo latest in
      if JS.leb daysAgo 30 then 20
      else if JS.leb daysAgo 60 then 16
      else if JS.leb daysAgo 90 then 12
      else if JS.leb daysAgo 180 then 8
      else 4
  | None => 4
  end.

(** The sum [score] just before the final clamp. *)
Definition rawHealthScore (metrics : MetricsData.t) : Q :=
  let score := 0 in
  let score := score + responseTimeScore (MetricsData.medianIssueResponseTime metrics) in
  let score := score + issueResolutionScore (MetricsData.openIssuesCount metrics)
                                            (MetricsData.closedIssuesCount metrics) in
  let score := score + commitActivityScore (MetricsData.totalCommitsLast90Days metrics) in
  let score := score + busFactorScore (MetricsData.topContributorRatio metrics) in
  let score := score + releaseActivityScore (MetricsData.latestRelease metrics) in
  score.

Definition calculateHealthScore (metrics : MetricsData.t) : Q :=
  JS.Math_min 100 (JS.Math_max 0 (rawHealthScore metrics)).

(** *** analyzeRepository *)

(** Everything outside the program that one run of [analyzeRepository]
    meets: the outcome of each request, in the order of the run, and the
    two readings of the clock. *)
Record World := {
  repositoryReply : GitHub.Reply GitHub.GitHubRepository;
  issuePages : list (GitHub.Reply (list GitHub.GitHubIssue));
  (** the [fetch] of the closed-issue search, made without retry *)
  closedSearch : GitHub.Reply Q;
  commitPages : list (GitHub.Reply (list GitHub.GitHubCommit));
  releasePages : list (GitHub.Reply (list GitHub.GitHubRelease));
  commentsOf : Q -> GitHub.Reply (list GitHub.GitHubIssueComment);
  releaseStatsNow : Z;
  languagesReply : GitHub.Reply GitHub.Languages;
  openPullRequestsReply : GitHub.Reply Q;
  starGrowthNow : Z;
  stargazersReply : GitHub.Reply (list string);
  mergedPRsReply : GitHub.Reply Q;
  unmergedPRsReply : GitHub.Reply Q;
  codeFrequencyPolls : nat -> GitHub.Reply (option (list (Q * Q * Q)))
}.

Section Orchestrator.
Variable getTime : string -> Z.
Variable w : World.
Local Open Scope string_scope.

(** [onProgress?.({ step, message, progress })] with a callback given. *)
Definition onProgress (step message : string) (progress : Q) : M AnalysisStatus unit :=
  emit {| step := step; message := message; progress := progress |}.

Definition analyzeRepository (owner repo : string)
    : M AnalysisStatus RepositoryMetrics.t :=
  onProgress "init" "Starting analysis..." 0 ;;

  let* repository :=
    try_catch
      (onProgress "repo" "Fetching repository info..." 10 ;;
       let* repository := GitHub.fetchRepository (repositoryReply w) owner repo in
       onProgress "repo" "✓ Repository info fetched" 15 ;;
       ret repository)
      (fun error => throw ("Failed to fetch repository: " ++ error)) in

  let* issues :=
    try_catch
      (onProgress "issues" "Fetching issues..." 20 ;;
       let* issues :=
         GitHub.fetchIssues (issuePages w) 100
           (fun current total =>
              let progressPercent := 20 + JS.Math_floor ((current / total) * 10) in
              onProgress "issues"
                ("Fetching issues (" ++ JS.show_int current ++ ")...")
                progressPercent) in
       onProgress "issues"
         ("✓ Fetched " ++ JS.show_int (JS.length issues) ++ " issues") 30 ;;
       ret issues)
      (fun _ =>
         onProgress "issues" "⚠ Failed to fetch issues" 30 ;;
         ret []) in

  let* (openIssuesCount, closedIssuesCount) :=
    try_catch
      (onProgress "issue-counts" "Getting issue statistics..." 32 ;;
       let* closedResponse := await (closedSearch w) in
       if GitHub.ok closedResponse then
         ret (GitHub.open_issues_count repository, GitHub.json closedResponse)
       else ret (GitHub.open_issues_count repository, 0))
      (fun _ =>
         ret (JS.length (List.filter (fun i => is_open (GitHub.state i)) issues),
              JS.length (List.filter (fun i => is_closed (GitHub.state i)) issues))) in

  let* commits :=
    try_catch
      (onProgress "commits" "Fetching commits..." 40 ;;
       let* commits :=
         GitHub.fetchCommits (commitPages w)
           (fun current total =>
              let progressPercent := 40 + JS.Math_floor ((current / total) * 15) in
              onProgress "commits"
                ("Fetching commits (" ++ JS.show_int current ++ ")...")
                progressPercent) in
       onProgress "commits"
         ("✓ Fetched " ++ JS.show_int (JS.length commits) ++ " commits") 55 ;;
       ret commits)
      (fun _ =>
         onProgress "commits" "⚠ Failed to fetch commits" 55 ;;
         ret []) in

  let* releases :=
    try_catch
      (onProgress "releases" "Fetching releases..." 55 ;;
       let* releases :=
         GitHub.fetchReleases (releasePages w) 1000
           (fun current total =>
              let progressPercent := 55 + JS.Math_floor ((current / total) * 10) in
              onProgress "releases"
                ("Fetching releases (" ++ JS.show_int current ++ ")...")
                progressPercent) in
       onProgress "releases"
         ("✓ Fetched " ++ JS.show_int (JS.length releases) ++ " releases") 65 ;;
       ret releases)
      (fun _ =>
         onProgress "releases" "⚠ Failed to fetch releases" 65 ;;
         ret []) in

  let* medianIssueResponseTime :=
    if JS.gtb (JS.length issues) 0 then
      try_catch
        (onProgress "response-time" "Calculating response times..." 70 ;;
         let* medianIssueResponseTime :=
           calculateMedianIssueResponseTime getTime (commentsOf w) issues in
         onProgress "response-time" "✓ Response time calculated" 85 ;;
         ret medianIssueResponseTime)
        (fun _ =>
           onProgress "response-time" "⚠ Response time calculation failed" 85 ;;
           ret None)
    else ret None in

  let totalCommitsLast90Days := JS.length commits in
  let topContributorRatio := calculateTopContributorRatio commits in
  let releaseStats := calculateReleaseStats getTime (releaseStatsNow w) releases in

  (* a variable assigned inside a [try] block keeps its value when a
     later statement of the block throws *)
  let* (languages, openPullRequests) :=
    try_catch
      (onProgress "additional" "Fetching additional data..." 87 ;;
       let* languages := GitHub.fetchLanguages (languagesReply w) in
       try_catch
         (let* openPullRequests :=
            GitHub.fetchOpenPullRequestsCount (openPullRequestsReply w) in
          ret (languages, openPullRequests))
         (fun _ => ret (languages, 0)))
      (fun _ => ret ([], 0)) in

  let noStarGrowth := {| GitHub.starsPerMonth := 0; GitHub.recentGrowth := 0 |} in
  let noPRStats :=
    {| GitHub.merged := 0; GitHub.closed_unmerged := 0; GitHub.mergeRate := 0 |} in
  let noCodeFreq :=
    {| GitHub.additions := 0; GitHub.deletions := 0; GitHub.totalChanges := 0 |} in
  let* (starGrowth, prStats, codeFreq) :=
    try_catch
      (onProgress "analytics" "Analyzing star growth..." 90 ;;
       let* starGrowth :=
         GitHub.fetchStarGrowth getTime (starGrowthNow w) (stargazersReply w) in
       try_catch
         (onProgress "analytics" "Calculating PR merge rate..." 93 ;;
          let* prStats :=
            GitHub.fetchPRStats (mergedPRsReply w) (unmergedPRsReply w) in
          try_catch
            (onProgress "analytics" "Analyzing code frequency..." 96 ;;
             let* codeFreq := GitHub.fetchCodeFrequency (codeFrequencyPolls w) in
             ret (starGrowth, prStats, codeFreq))
            (fun _ => ret (starGrowth, prStats, noCodeFreq)))
         (fun _ => ret (starGrowth, noPRStats, noCodeFreq)))
      (fun _ => ret (noStarGrowth, noPRStats, noCodeFreq)) in

  let metricsData :=
    {| MetricsData.owner := owner;
       MetricsData.name := GitHub.repo_name repository;
       MetricsData.fullName := GitHub.full_name repository;
       MetricsData.description := GitHub.description repository;
       MetricsData.stars := GitHub.stargazers_count repository;
       MetricsData.forks := GitHub.forks_count repository;
       MetricsData.openIssues := GitHub.open_issues_count repository;
       MetricsData.medianIssueResponseTime := medianIssueResponseTime;
       MetricsData.openIssuesCount := openIssuesCount;
       MetricsData.closedIssuesCount := closedIssuesCount;
       MetricsData.totalCommitsLast90Days := totalCommitsLast90Days;
       MetricsData.topContributorRatio := topContributorRatio;
       MetricsData.watchers := JS.num_or (GitHub.subscribers_count repository) 0;
       MetricsData.lastCommitDate :=
         match commits with
         | first :: _ => GitHub.date (GitHub.commit_author (GitHub.commit first))
         | [] => GitHub.updated_at repository
         end;
       MetricsData.openPullRequests := openPullRequests;
       MetricsData.license :=
         match GitHub.license repository with
         | Some l =>
             if String.eqb (GitHub.license_name l) EmptyString then None
             else Some (GitHub.license_name l)
         | None => None
         end;
       MetricsData.languages := languages;
       MetricsData.starsPerMonth := GitHub.starsPerMonth starGrowth;
       MetricsData.recentStarGrowth := GitHub.recentGrowth starGrowth;
       MetricsData.prMergeRate := GitHub.mergeRate prStats;
       MetricsData.codeAdditions := GitHub.additions codeFreq;
       MetricsData.codeDeletions := GitHub.deletions codeFreq;
       MetricsData.totalCodeChanges := GitHub.totalChanges codeFreq;
       MetricsData.releases := Rollup.releases releaseStats;
       MetricsData.totalReleases := Rollup.totalReleases releaseStats;
       MetricsData.releasesLast90Days := Rollup.releasesLast90Days releaseStats;
       MetricsData.totalDownloads := Rollup.totalDownloads releaseStats;
       MetricsData.averageDownloadsPerRelease :=
         Rollup.averageDownloadsPerRelease releaseStats;
       MetricsData.latestRelease := Rollup.latestRelease releaseStats |} in

  onProgress "calculating" "Calculating health score..." 98 ;;
  let healthScore := calculateHealthScore metricsData in
  onProgress "complete" "✓ Analysis complete!" 100 ;;

  ret {| RepositoryMetrics.data := metricsData;
         RepositoryMetrics.healthScore := healthScore |}.
End Orchestrator.

(** *** getHealthScoreInterpretation *)

Record Interpretation := {
  label : string;
  description : string;
  color : string
}.

Definition getHealthScoreInterpretation (score : Q) : Interpretation :=
  if JS.geb score 80 then
    {| label := "Excellent";
       description := "This project is very healthy with active maintenance and community engagement.";
       color := "green" |}
  else if JS.geb score 60 then
    {| label := "Good";
       description := "This project is generally well-maintained with room for improvement.";
       color := "blue" |}
  else if JS.geb score 40 then
    {| label := "Fair";
       description := "This project shows some signs of maintenance but may have concerns.";
       color := "yellow" |}
  else
    {| label := "Needs Attention";
       description := "This project may have maintenance or community engagement concerns.";
       color := "red" |}.

End Metrics.

(* ===================================================================== *)
(** * Specification-side vocabulary *)
(* ===================================================================== *)

Module Spec.

(** A number that is an integer. *)
Definition is_integer (x : Q) : Prop := exists z : Z, x = inject_Z z.

(** The sum of a list of numbers. *)
Definition Qsum (xs : list Q) : Q := fold_right Qplus 0 xs.

(** The download count of a release: the sum over its assets. *)
Definition downloadsOf (release : GitHub.GitHubRelease) : Q :=
  Qsum (map GitHub.download_count (GitHub.assets release)).

(** The releases that are not prereleases. *)
Definition nonPrereleases (releases : list GitHub.GitHubRelease)
    : list GitHub.GitHubRelease :=
  List.filter (fun release => negb (GitHub.prerelease release)) releases.

(** The average of the releases that are not prereleases, following the
    words of the specification: the downloads of the non-prerelease releases over
    their number, rounded to the nearest integer, and 0 when there is no
    such release. *)
Definition nonPrereleaseAverage (releases : list GitHub.GitHubRelease) : Q :=
  match nonPrereleases releases with
  | [] => 0
  | _ :: _ =>
      JS.Math_round (Qsum (map downloadsOf (nonPrereleases releases))
                     / JS.length (nonPrereleases releases))
  end.

(** The middle of a sorted list, following the words of the specification:
    the middle element for an odd length, the average of the two middle
    elements for an even length. *)
Definition middleOf (sorted : list Q) : Q :=
  let n := List.length sorted in
  if Nat.even n then (nth (n / 2 - 1) sorted 0 + nth (n / 2) sorted 0) / 2
  else nth (n / 2) sorted 0.

(** Every attempt of a request is answered with status 503. *)
Definition always503 {B} (fetch : nat -> Eff.Outcome (GitHub.Response B)) : Prop :=
  forall i : nat, exists response : GitHub.Response B,
    fetch i = Eff.Returned response /\ GitHub.status response = 503%Z.

(** The requests among the events of the retrying client. *)
Definition is_request (e : GitHub.NetEvent) : bool :=
  match e with
  | GitHub.Request _ _ => true
  | GitHub.Sleep _ => false
  end.

(** The pauses among the events of the retrying client, in order. *)
Definition pauses (es : list GitHub.NetEvent) : list Q :=
  flat_map (fun e => match e with
                     | GitHub.Request _ _ => []
                     | GitHub.Sleep ms => [ms]
                     end) es.

(** A list of numbers that never decreases. *)
Definition nonDecreasing (xs : list Q) : Prop := Sorted Qle xs.

End Spec.

(* ===================================================================== *)
(** * Vocabulary for runs: progress, results and failed steps *)
(* ===================================================================== *)

Module Logic.
Import Eff Metrics.

(** [chain lo xs hi]: lo <= x1 <= ... <= xn <= hi. *)
Fixpoint chain (lo : Q) (xs : list Q) (hi : Q) : Prop :=
  match xs with
  | [] => lo <= hi
  | x :: xs' => lo <= x /\ chain x xs' hi
  end.

(** The callback that records the count it is given. *)
Definition record (current total : Q) : M Q unit := emit current.

(** The callback that does nothing: no callback given. *)
Definition quiet (current total : Q) : M unit unit := ret tt.

(** A page of at most 100 items, which is what [per_page=100] asks for. *)
Definition wellSized {B} (reply : GitHub.Reply (list B)) : Prop :=
  match reply with
  | Returned response => (List.length (GitHub.json response) <= 100)%nat
  | Thrown _ => True
  end.

(** A page of the issues endpoint without pull requests. *)
Definition pullRequestFree (reply : GitHub.Reply (list GitHub.GitHubIssue)) : Prop :=
  match reply with
  | Returned response =>
      Forall (fun issue => GitHub.pull_request issue = false) (GitHub.json response)
  | Thrown _ => True
  end.

(** The progress values of a run climb from [lo] to [hi]. *)
Definition climbs {A} (lo hi : Q) (m : M Metrics.AnalysisStatus A) : Prop :=
  chain lo (map Metrics.progress (events m)) hi.

(** A run that returns, with a result that satisfies [P]. *)
Definition returns {E A} (m : M E A) (P : A -> Prop) : Prop :=
  match outcome m with
  | Returned a => P a
  | Thrown _ => False
  end.

(** A run that, when it returns, has reported 100 percent last. *)
Definition finishes {A} (m : M Metrics.AnalysisStatus A) : Prop :=
  forall a, outcome m = Returned a ->
    exists es e, events m = es ++ [e] /\ Metrics.progress e = 100.

(** [base + Math.floor((current / total) * span)]. *)
Definition interpolate (base span total current : Q) : Q :=
  base + JS.Math_floor ((current / total) * span).

(** A run that emits nothing. *)
Definition silent {E A} (m : M E A) : Prop := events m = [].

(** The fetches of a run that end by throwing, the run left aside: each
    fetcher is called here without a progress callback. *)
Definition issuesFetchFails (w : World) : Prop :=
  exists error, outcome (GitHub.fetchIssues (issuePages w) 100 quiet) = Thrown error.
Definition commitsFetchFails (w : World) : Prop :=
  exists error, outcome (GitHub.fetchCommits (commitPages w) quiet) = Thrown error.
Definition releasesFetchFails (w : World) : Prop :=
  exists error, outcome (GitHub.fetchReleases (releasePages w) 1000 quiet) = Thrown error.
Definition languagesFetchFails (w : World) : Prop :=
  exists error,
    outcome (GitHub.fetchLanguages (E:=unit) (languagesReply w)) = Thrown error.
Definition openPullRequestsFetchFails (w : World) : Prop :=
  exists error,
    outcome (GitHub.fetchOpenPullRequestsCount (E:=unit) (openPullRequestsReply w))
    = Thrown error.

(** What a returned record owes to the repository and to the failed steps. *)
Definition degraded (w : World) (owner : string)
    (repository : GitHub.GitHubRepository) (metrics : RepositoryMetrics.t) : Prop :=
  let d := RepositoryMetrics.data metrics in
  MetricsData.owner d = owner
  /\ MetricsData.name d = GitHub.repo_name repository
  /\ MetricsData.fullName d = GitHub.full_name repository
  /\ MetricsData.stars d = GitHub.stargazers_count repository
  /\ RepositoryMetrics.healthScore metrics = calculateHealthScore d
  /\ (issuesFetchFails w -> MetricsData.medianIssueResponseTime d = None)
  /\ (commitsFetchFails w ->
      MetricsData.totalCommitsLast90Days d = 0
      /\ MetricsData.topContributorRatio d = 0
      /\ MetricsData.lastCommitDate d = GitHub.updated_at repository)
  /\ (releasesFetchFails w ->
      MetricsData.releases d = []
      /\ MetricsData.totalReleases d = 0
      /\ MetricsData.releasesLast90Days d = 0
      /\ MetricsData.totalDownloads d = 0
      /\ MetricsData.averageDownloadsPerRelease d = 0
      /\ MetricsData.latestRelease d = None)
  /\ (languagesFetchFails w ->
      MetricsData.languages d = [] /\ MetricsData.openPullRequests d = 0)
  /\ (openPullRequestsFetchFails w -> MetricsData.openPullRequests d = 0).

End Logic.

(* ===================================================================== *)
(** * Concrete inputs *)
(* ===================================================================== *)

Module Examples.
Import Eff.
Local Open Scope string_scope.

(** A release published ten days before the analysis. *)
Definition tenDaysOld : ReleaseStats.t :=
  {| ReleaseStats.tag := "v1.0.0";
     ReleaseStats.name := "v1.0.0";
     ReleaseStats.publishedAt := "2024-01-01T00:00:00Z";
     ReleaseStats.daysAgo := 10;
     ReleaseStats.totalDownloads := 0;
     ReleaseStats.assetsCount := 0;
     ReleaseStats.isPrerelease := false;
     ReleaseStats.assets := [] |}.

(** The metrics of the end-to-end scenario, with the median response time
    left open. *)
Definition scenario (median : option Q) : MetricsData.t :=
  {| MetricsData.owner := "octo";
     MetricsData.name := "pulse";
     MetricsData.fullName := "octo/pulse";
     MetricsData.description := None;
     MetricsData.stars := 120;
     MetricsData.forks := 0;
     MetricsData.openIssues := 5;
     MetricsData.medianIssueResponseTime := median;
     MetricsData.openIssuesCount := 5;
     MetricsData.closedIssuesCount := 45;
     MetricsData.totalCommitsLast90Days := 30;
     MetricsData.topContributorRatio := (18 / 30) * 100;
     MetricsData.releases := [tenDaysOld];
     MetricsData.totalReleases := 1;
     MetricsData.releasesLast90Days := 1;
     MetricsData.totalDownloads := 0;
     MetricsData.averageDownloadsPerRelease := 0;
     MetricsData.latestRelease := Some tenDaysOld;
     MetricsData.watchers := 0;
     MetricsData.lastCommitDate := "2024-01-10T00:00:00Z";
     MetricsData.openPullRequests := 0;
     MetricsData.license := None;
     MetricsData.languages := [];
     MetricsData.starsPerMonth := 0;
     MetricsData.recentStarGrowth := 0;
     MetricsData.prMergeRate := 0;
     MetricsData.codeAdditions := 0;
     MetricsData.codeDeletions := 0;
     MetricsData.totalCodeChanges := 0 |}.

Definition asset (downloads : Q) : GitHub.GitHubReleaseAsset :=
  {| GitHub.asset_id := 1;
     GitHub.asset_name := "pulse.tar.gz";
     GitHub.size := 1024;
     GitHub.download_count := downloads;
     GitHub.browser_download_url := "https://example.org/pulse.tar.gz";
     GitHub.content_type := "application/gzip";
     GitHub.asset_created_at := "2024-01-01T00:00:00Z" |}.

(** A release with one asset. *)
Definition release (tag : string) (prerelease : bool) (downloads : Q)
    : GitHub.GitHubRelease :=
  {| GitHub.release_id := 1;
     GitHub.tag_name := tag;
     GitHub.name := None;
     GitHub.published_at := "2024-01-01T00:00:00Z";
     GitHub.prerelease := prerelease;
     GitHub.draft := false;
     GitHub.release_body := None;
     GitHub.assets := [asset downloads];
     GitHub.release_author := {| GitHub.login := "octo" |} |}.

(** A prerelease downloaded ten times and a release never downloaded. *)
Definition betaAndStable : list GitHub.GitHubRelease :=
  [release "v2.0.0-beta" true 10; release "v1.0.0" false 0].

(** The rollup of the specification: downloads 10, 5 and 0, the second
    being a prerelease. *)
Definition tenFiveZero : list GitHub.GitHubRelease :=
  [release "v3" false 10; release "v3-rc" true 5; release "v2" false 0].

(** A clock for the examples: every date is the epoch. *)
Definition epoch (_ : string) : Z := 0%Z.

(** A repository of the scenario. *)
Definition repository : GitHub.GitHubRepository :=
  {| GitHub.repo_id := 1;
     GitHub.repo_name := "pulse";
     GitHub.full_name := "octo/pulse";
     GitHub.owner_login := "octo";
     GitHub.description := None;
     GitHub.stargazers_count := 120;
     GitHub.forks_count := 7;
     GitHub.open_issues_count := 5;
     GitHub.watchers_count := 120;
     GitHub.subscribers_count := 9;
     GitHub.repo_created_at := "2023-01-01T00:00:00Z";
     GitHub.updated_at := "2024-01-10T00:00:00Z";
     GitHub.license := None |}.

(** An item of the issues endpoint, an issue or a pull request. *)
Definition issueItem (pull_request : bool) : GitHub.GitHubIssue :=
  {| GitHub.number := 1;
     GitHub.title := "item";
     GitHub.state := GitHub.open;
     GitHub.created_at := "2024-01-01T00:00:00Z";
     GitHub.issue_updated_at := "2024-01-01T00:00:00Z";
     GitHub.closed_at := None;
     GitHub.comments := 0;
     GitHub.timeline_url := "";
     GitHub.pull_request := pull_request |}.

(** A full page of the issues endpoint: one pull request and 99 issues. *)
Definition page99 : GitHub.Reply (list GitHub.GitHubIssue) :=
  Returned (GitHub.mkResponse 200 "OK" (issueItem true :: repeat (issueItem false) 99)).

(** A world given by its answers on the repository, the issues and the
    commits; there are no releases and every other request fails on the
    network. *)
Definition world (repositoryReply : GitHub.Reply GitHub.GitHubRepository)
    (issuePages : list (GitHub.Reply (list GitHub.GitHubIssue)))
    (commitPages : list (GitHub.Reply (list GitHub.GitHubCommit)))
    : Metrics.World :=
  {| Metrics.repositoryReply := repositoryReply;
     Metrics.issuePages := issuePages;
     Metrics.closedSearch := Thrown "Failed to fetch";
     Metrics.commitPages := commitPages;
     Metrics.releasePages := [];
     Metrics.commentsOf := fun _ => Thrown "Failed to fetch";
     Metrics.releaseStatsNow := 0;
     Metrics.languagesReply := Thrown "Failed to fetch";
     Metrics.openPullRequestsReply := Thrown "Failed to fetch";
     Metrics.starGrowthNow := 0;
     Metrics.stargazersReply := Thrown "Failed to fetch";
     Metrics.mergedPRsReply := Thrown "Failed to fetch";
     Metrics.unmergedPRsReply := Thrown "Failed to fetch";
     Metrics.codeFrequencyPolls := fun _ => Thrown "Failed to fetch" |}.

(** The repository does not exist. *)
Definition notFound : Metrics.World :=
  world (Returned (GitHub.mkResponse 404 "Not Found" repository)) [] [].

(** The repository is found and the commits request is refused. *)
Definition commitsRefused : Metrics.World :=
  world (Returned (GitHub.mkResponse 200 "OK" repository)) []
        [Returned (GitHub.mkResponse 403 "Forbidden" [])].

(** The repository is found and the issues endpoint serves two full pages. *)
Definition twoPages : Metrics.World :=
  world (Returned (GitHub.mkResponse 200 "OK" repository)) [page99; page99] [].

(** The repository is found and the issues endpoint serves six full pages,
    each with one pull request among its 100 items. *)
Definition sixPages : Metrics.World :=
  world (Returned (GitHub.mkResponse 200 "OK" repository)) (repeat page99 6) [].

(** A commit by the account [login]. *)
Definition commitBy (login : string) : GitHub.GitHubCommit :=
  {| GitHub.sha := "0000000";
     GitHub.commit :=
       {| GitHub.commit_author :=
            {| GitHub.author_name := login;
               GitHub.email := login ++ "@example.org";
               GitHub.date := "2024-01-09T00:00:00Z" |};
          GitHub.message := "work" |};
     GitHub.author := Some {| GitHub.login := login |} |}.

(** The world of the end-to-end scenario: 5 open issues, a closed-issue
    search that counts 45, 30 commits of which 18 by one author, and one
    release published ten days before the analysis. *)
Definition scenarioWorld : Metrics.World :=
  {| Metrics.repositoryReply := Returned (GitHub.mkResponse 200 "OK" repository);
     Metrics.issuePages := [];
     Metrics.closedSearch := Returned (GitHub.mkResponse 200 "OK" 45);
     Metrics.commitPages :=
       [Returned (GitHub.mkResponse 200 "OK"
                    (repeat (commitBy "alice") 18 ++ repeat (commitBy "bob") 12)%list)];
     Metrics.releasePages :=
       [Returned (GitHub.mkResponse 200 "OK" [release "v1.0.0" false 0])];
     Metrics.commentsOf := fun _ => Thrown "Failed to fetch";
     Metrics.releaseStatsNow := 10 * 24 * 60 * 60 * 1000;
     Metrics.languagesReply := Thrown "Failed to fetch";
     Metrics.openPullRequestsReply := Thrown "Failed to fetch";
     Metrics.starGrowthNow := 0;
     Metrics.stargazersReply := Thrown "Failed to fetch";
     Metrics.mergedPRsReply := Thrown "Failed to fetch";
     Metrics.unmergedPRsReply := Thrown "Failed to fetch";
     Metrics.codeFrequencyPolls := fun _ => Thrown "Failed to fetch" |}.

(** The metrics that the run on [scenarioWorld] assembles. *)
Definition scenarioMetrics : MetricsData.t :=
  match outcome (Metrics.analyzeRepository epoch scenarioWorld "octo" "pulse") with
  | Returned metrics => RepositoryMetrics.data metrics
  | Thrown _ => scenario None
  end.

End Examples.

(* ===================================================================== *)
(** * src/lib/github.ts: the request options *)
(* ===================================================================== *)

Module Client.
Local Open Scope string_scope.

(** What the request options read from their surroundings: whether
    [window] is defined, the variable [NEXT_PUBLIC_GITHUB_TOKEN] of the
    build, and the entry [github_token] of the local storage. *)
Record Env := {
  window : bool;
  NEXT_PUBLIC_GITHUB_TOKEN : option string;
  github_token : option string
}.

(** [a || b] on strings that may be missing: the empty string is falsy. *)
Definition or_else (a b : option string) : option string :=
  match a with
  | Some x => if String.eqb x EmptyString then b else a
  | None => b
  end.

Definition getGitHubToken (env : Env) : option string :=
  if negb (window env) then None
  else or_else (NEXT_PUBLIC_GITHUB_TOKEN env) (github_token env).

Definition getHeaders (env : Env) : gmap string string :=
  let headers : gmap string string :=
    {[ "Accept" := "application/vnd.github.v3+json" ]} in
  match getGitHubToken env with
  | Some token =>
      if String.eqb token EmptyString then headers
      else <[ "Authorization" := "Bearer " ++ token ]> headers
  | None => headers
  end.

Record RequestInit := {
  headers : gmap string string;
  mode : string;
  cache : string
}.

Definition getFetchOptions (env : Env) : RequestInit :=
  {| headers := getHeaders env; mode := "cors"; cache := "no-cache" |}.

End Client.

(* ===================================================================== *)
(** * src/app/page.tsx: the analysis form *)
(* ===================================================================== *)

Module Page.
Import Eff.
Local Open Scope string_scope.

(** [\w]: a letter, a digit or the underscore. *)
Definition wordChar (c : Ascii.ascii) : bool :=
  let n := Ascii.nat_of_ascii c in
  ((65 <=? n) && (n <=? 90) || (97 <=? n) && (n <=? 122)
   || (48 <=? n) && (n <=? 57) || (n =? 95))%nat.

(** The characters '-', '.' and '/'. *)
Definition dash : Ascii.ascii := Ascii.ascii_of_nat 45.
Definition dot : Ascii.ascii := Ascii.ascii_of_nat 46.
Definition slash : Ascii.ascii := Ascii.ascii_of_nat 47.

(** [[\w-]] and [[\w.-]]. *)
Definition ownerChar (c : Ascii.ascii) : bool := wordChar c || Ascii.eqb c dash.
Definition nameChar (c : Ascii.ascii) : bool :=
  wordChar c || Ascii.eqb c dot || Ascii.eqb c dash.

(** [[class]+] followed by the rest of the pattern [next]: one character
    of the class, then either the rest of the pattern or more of the
    class. *)
Fixpoint plus (class : Ascii.ascii -> bool) (next : string -> bool) (s : string) : bool :=
  match s with
  | EmptyString => false
  | String c rest => class c && (next rest || plus class next rest)
  end.

(** [$]. *)
Definition atEnd (s : string) : bool :=
  match s with
  | EmptyString => true
  | String _ _ => false
  end.

(** A literal character followed by the rest of the pattern. *)
Definition literal (c : Ascii.ascii) (next : string -> bool) (s : string) : bool :=
  match s with
  | String c' rest => Ascii.eqb c' c && next rest
  | EmptyString => false
  end.

(** [repository.match(/^[\w-]+\/[\w.-]+$/)]. *)
Definition validFormat (repository : string) : bool :=
  plus ownerChar (literal slash (plus nameChar atEnd)) repository.

(** [s.split('/')]. *)
Fixpoint split (s : string) : list string :=
  match s with
  | EmptyString => [EmptyString]
  | String c rest =>
      if Ascii.eqb c slash then EmptyString :: split rest
      else
        match split rest with
        | first :: others => String c first :: others
        | [] => [String c EmptyString]
        end
  end.



(** The state of the component that the handlers touch, and the two
    entries of the local storage written by an analysis. *)
Record State := {
  loading : bool;
  error : option string;
  result : option RepositoryMetrics.t;
  githubToken : string;
  showTokenInput : bool;
  statusMessages : list Metrics.AnalysisStatus;
  currentStatus : option Metrics.AnalysisStatus;
  lastAnalysisResult : option RepositoryMetrics.t;
  lastAnalysisTimestamp : option Z;
  stored_github_token : option string
}.

Definition handleSaveToken (st : State) : State :=
  if String.eqb (githubToken st) EmptyString then st
  else
    {| loading := loading st; error := error st; result := result st;
       githubToken := githubToken st;
       showTokenInput := false;
       statusMessages := statusMessages st; currentStatus := currentStatus st;
       lastAnalysisResult := lastAnalysisResult st;
       lastAnalysisTimestamp := lastAnalysisTimestamp st;
       stored_github_token := Some (githubToken st) |}.


End Page.

(* ===================================================================== *)
(** * More concrete inputs *)
(* ===================================================================== *)

Module Samples.
Import Eff.
Local Open Scope string_scope.

(** A request answered with 503 twice and then with 200. *)
Definition flaky (i : nat) : Outcome (GitHub.Response Q) :=
  if (i <? 2)%nat then Returned (GitHub.mkResponse 503 "Service Unavailable" 0)
  else Returned (GitHub.mkResponse 200 "OK" 1).

(** A request answered at once. *)
Definition steady (_ : nat) : Outcome (GitHub.Response Q) :=
  Returned (GitHub.mkResponse 200 "OK" 1).

(** A request that never gets through. *)
Definition offline (_ : nat) : Outcome (GitHub.Response Q) :=
  Thrown "Failed to fetch".

(** A short page of the issues endpoint: a pull request and two issues. *)
Definition shortPage : GitHub.Reply (list GitHub.GitHubIssue) :=
  Returned (GitHub.mkResponse 200 "OK"
              [Examples.issueItem true; Examples.issueItem false;
               Examples.issueItem false]).

(** A page request that is refused. *)
Definition refused {B} : GitHub.Reply (list B) :=
  Returned (GitHub.mkResponse 403 "Forbidden" []).

(** A page of two commits, and a page with a release and a draft. *)
Definition commitPage : GitHub.Reply (list GitHub.GitHubCommit) :=
  Returned (GitHub.mkResponse 200 "OK"
              [Examples.commitBy "alice"; Examples.commitBy "bob"]).

Definition draftRelease : GitHub.GitHubRelease :=
  {| GitHub.release_id := 2;
     GitHub.tag_name := "v2.0.0";
     GitHub.name := None;
     GitHub.published_at := "2024-02-01T00:00:00Z";
     GitHub.prerelease := false;
     GitHub.draft := true;
     GitHub.release_body := None;
     GitHub.assets := [];
     GitHub.release_author := {| GitHub.login := "octo" |} |}.

Definition releasePage : GitHub.Reply (list GitHub.GitHubRelease) :=
  Returned (GitHub.mkResponse 200 "OK"
              [draftRelease; Examples.release "v1.0.0" false 0]).

(** Three commits by one account and one by another. *)
Definition fourCommits : list GitHub.GitHubCommit :=
  [Examples.commitBy "alice"; Examples.commitBy "bob";
   Examples.commitBy "alice"; Examples.commitBy "alice"].

(** A clock that reads two hours for the date of the answer and zero for
    every other date. *)
Definition clock (date : string) : Z :=
  if String.eqb date "2024-01-01T02:00:00Z" then 7200000%Z else 0%Z.

(** A closed issue with two comments. *)
Definition closedIssue (number : Q) : GitHub.GitHubIssue :=
  {| GitHub.number := number;
     GitHub.title := "question";
     GitHub.state := GitHub.closed;
     GitHub.created_at := "2024-01-01T00:00:00Z";
     GitHub.issue_updated_at := "2024-01-02T00:00:00Z";
     GitHub.closed_at := Some "2024-01-02T00:00:00Z";
     GitHub.comments := 2;
     GitHub.timeline_url := "https://example.org/timeline";
     GitHub.pull_request := false |}.

Definition comment (type date : string) : GitHub.GitHubIssueComment :=
  {| GitHub.comment_id := 1;
     GitHub.user := {| GitHub.user_login := "someone"; GitHub.user_type := type |};
     GitHub.comment_created_at := date;
     GitHub.body := "text" |}.

(** Every issue is answered by a bot at once and by a user after two
    hours. *)
Definition answered (_ : Q) : GitHub.Reply (list GitHub.GitHubIssueComment) :=
  Returned (GitHub.mkResponse 200 "OK"
              [comment "Bot" "2024-01-01T00:00:00Z";
               comment "User" "2024-01-01T02:00:00Z"]).

(** The weekly series of one week: 10 additions and 3 deletions. *)
Definition oneWeek (k : nat) : GitHub.Reply (option (list (Q * Q * Q))) :=
  Returned (GitHub.mkResponse 200 "OK" (Some [(1704067200, 10, -3)])).

(** A statistics request that is never ready. *)
Definition computing (k : nat) : GitHub.Reply (option (list (Q * Q * Q))) :=
  Returned (GitHub.mkResponse 202 "Accepted" None).

(** A browser with a stored token and no token of the build. *)
Definition browser : Client.Env :=
  {| Client.window := true;
     Client.NEXT_PUBLIC_GITHUB_TOKEN := None;
     Client.github_token := Some "ghp_token" |}.

(** The form before an analysis, with a token typed in. *)
Definition form : Page.State :=
  {| Page.loading := false;
     Page.error := None;
     Page.result := None;
     Page.githubToken := "ghp_token";
     Page.showTokenInput := true;
     Page.statusMessages := [];
     Page.currentStatus := None;
     Page.lastAnalysisResult := None;
     Page.lastAnalysisTimestamp := None;
     Page.stored_github_token := None |}.

End Samples.

Module Props.
Import Eff.

(** The events of the retrying client when attempt [k] is its last: the
    requests 0 to [k], with the pause [backoff i] after request [i < k]. *)
Definition schedule (url : string) (k : nat) : list GitHub.NetEvent :=
  flat_map (fun i => [GitHub.Request url i; GitHub.Sleep (GitHub.backoff i)]) (seq 0 k)
    ++ [GitHub.Request url k].

(** An attempt after which the client tries again while retries remain: a
    network error, or a response with a retryable status. *)
Definition retried {B} (attempt : Outcome (GitHub.Response B)) : Prop :=
  match attempt with
  | Returned response => GitHub.retryable (GitHub.status response) = true
  | Thrown _ => True
  end.


(** A page request that makes [fetchCommits] or [fetchReleases] throw: a
    network error, or a status below 500 that is not ok; [what] is the word
    of the message. *)
Definition failsPage {B} (what : string) (reply : GitHub.Reply (list B))
    (error : string) : Prop :=
  match reply with
  | Thrown cause => error = cause
  | Returned response =>
      GitHub.ok response = false
      /\ (GitHub.status response < 500)%Z
      /\ error = ("Failed to fetch " ++ what ++ ": "
                  ++ pretty (GitHub.status response))%string
  end.

(** An item that an ok page of the listing carries. *)
Definition served {B} (pages : list (GitHub.Reply (list B))) (item : B) : Prop :=
  exists response,
    In (Returned response) pages
    /\ GitHub.ok response = true
    /\ In item (GitHub.json response).

(** The count that [fetchPRStats] reads off one search request. *)
Definition searchCount (reply : GitHub.Reply Q) : Q :=
  match reply with
  | Returned response =>
      if GitHub.ok response then JS.num_or (GitHub.json response) 0 else 0
  | Thrown _ => 0
  end.

(** A request that fails on the network. *)
Definition networkError {B} (reply : GitHub.Reply B) : Prop :=
  match reply with
  | Returned _ => False
  | Thrown _ => True
  end.

(** The additions and the deletions of a weekly triple. *)
Definition weekAdditions (week : Q * Q * Q) : Q := snd (fst week).
Definition weekDeletions (week : Q * Q * Q) : Q := snd week.

(** The key under which [calculateTopContributorRatio] counts a commit: the
    login of its author, or the email of the commit when there is none. *)
Definition contributorOf (commit : GitHub.GitHubCommit) : string :=
  JS.str_or (option_map GitHub.login (GitHub.author commit))
            (GitHub.email (GitHub.commit_author (GitHub.commit commit))).

(** The number of commits counted under the key [who]. *)
Definition tally (who : string) (commits : list GitHub.GitHubCommit) : nat :=
  List.length (List.filter (fun commit => String.eqb (contributorOf commit) who) commits).

(** The share of the commits counted under [who], in percent. *)
Definition share (who : string) (commits : list GitHub.GitHubCommit) : Q :=
  (inject_Z (Z.of_nat (tally who commits)) / JS.length commits) * 100.

(** One turn of the loop of [calculateTopContributorRatio] that counts the
    commits of each contributor. *)
Definition countCommit (contributorCounts : gmap string Q)
    (commit : GitHub.GitHubCommit) : gmap string Q :=
  let author := contributorOf commit in
  <[ author := default 0 (contributorCounts !! author) + 1 ]> contributorCounts.

(** Counts that hold, for each key, the number of the [commits] counted
    under it, and no key without a commit. *)
Definition counted (contributorCounts : gmap string Q)
    (commits : list GitHub.GitHubCommit) : Prop :=
  forall who,
    contributorCounts !! who =
      match tally who commits with
      | O => None
      | S n => Some (inject_Z (Z.of_nat (S n)))
      end.

(** How many of the [values] are at most [m], and how many at least [m]. *)
Definition atMost (m : Q) (values : list Q) : nat :=
  List.length (List.filter (fun v => Qle_bool v m) values).
Definition atLeast (m : Q) (values : list Q) : nat :=
  List.length (List.filter (fun v => Qle_bool m v) values).

(** The comments that a request for the comments of an issue yields: the
    body of an ok response, nothing otherwise. *)
Definition commentsServed (reply : GitHub.Reply (list GitHub.GitHubIssueComment))
    : list GitHub.GitHubIssueComment :=
  match reply with
  | Returned response => if GitHub.ok response then GitHub.json response else []
  | Thrown _ => []
  end.

(** A comment whose author has the type 'User'. *)
Definition byUser (comment : GitHub.GitHubIssueComment) : bool :=
  String.eqb (GitHub.user_type (GitHub.user comment)) "User".

(** The hours between the creation of an issue and a comment. *)
Definition hoursUntil (getTime : string -> Z) (issue : GitHub.GitHubIssue)
    (comment : GitHub.GitHubIssueComment) : Q :=
  inject_Z (getTime (GitHub.comment_created_at comment)
            - getTime (GitHub.created_at issue)) / (1000 * 60 * 60).

(** The response time of an issue: the hours until the first served
    comment by a user, if there is one. *)
Definition responseTime (getTime : string -> Z)
    (commentsOf : Q -> GitHub.Reply (list GitHub.GitHubIssueComment))
    (issue : GitHub.GitHubIssue) : option Q :=
  option_map (hoursUntil getTime issue)
    (List.find byUser (commentsServed (commentsOf (GitHub.number issue)))).

(** An issue that the response-time sample may take: closed, with at
    least one comment. *)
Definition eligible (issue : GitHub.GitHubIssue) : bool :=
  Metrics.is_closed (GitHub.state issue) && JS.gtb (GitHub.comments issue) 0.

(** The values that are present, in order. *)
Fixpoint present {A} (xs : list (option A)) : list A :=
  match xs with
  | [] => []
  | Some x :: rest => x :: present rest
  | None :: rest => present rest
  end.

(** What an optional fetch leaves to the run: the list it returns, or the
    empty list when it throws. *)
Definition fetched {E A} (m : M E (list A)) : list A :=
  match outcome m with
  | Returned items => items
  | Thrown _ => []
  end.

(** The issues, commits and releases that a run of [analyzeRepository]
    works with. *)
Definition issuesFetched (w : Metrics.World) : list GitHub.GitHubIssue :=
  fetched (GitHub.fetchIssues (Metrics.issuePages w) 100 Logic.quiet).
Definition commitsFetched (w : Metrics.World) : list GitHub.GitHubCommit :=
  fetched (GitHub.fetchCommits (Metrics.commitPages w) Logic.quiet).
Definition releasesFetched (w : Metrics.World) : list GitHub.GitHubRelease :=
  fetched (GitHub.fetchReleases (Metrics.releasePages w) 1000 Logic.quiet).

(** The issues among [issues] that are open, and those that are closed. *)
Definition openAmong (issues : list GitHub.GitHubIssue) : list GitHub.GitHubIssue :=
  List.filter (fun issue => Metrics.is_open (GitHub.state issue)) issues.
Definition closedAmong (issues : list GitHub.GitHubIssue) : list GitHub.GitHubIssue :=
  List.filter (fun issue => Metrics.is_closed (GitHub.state issue)) issues.

(** What the record of a run holds beyond the fields of the repository:
    the counts of the issues, the figures of the commits and the releases,
    and the results of the three analytics fetchers. *)
Definition assembled (getTime : string -> Z) (w : Metrics.World)
    (repository : GitHub.GitHubRepository) (metrics : RepositoryMetrics.t) : Prop :=
  let d := RepositoryMetrics.data metrics in
  let stats :=
    Metrics.calculateReleaseStats getTime (Metrics.releaseStatsNow w)
      (releasesFetched w) in
  MetricsData.openIssues d = GitHub.open_issues_count repository
  /\ (MetricsData.openIssuesCount d, MetricsData.closedIssuesCount d)
     = match Metrics.closedSearch w with
       | Returned response =>
           (GitHub.open_issues_count repository,
            if GitHub.ok response then GitHub.json response else 0)
       | Thrown _ =>
           (JS.length (openAmong (issuesFetched w)),
            JS.length (closedAmong (issuesFetched w)))
       end
  /\ MetricsData.totalCommitsLast90Days d = JS.length (commitsFetched w)
  /\ MetricsData.topContributorRatio d
     = Metrics.calculateTopContributorRatio (commitsFetched w)
  /\ MetricsData.totalReleases d = Rollup.totalReleases stats
  /\ MetricsData.releasesLast90Days d = Rollup.releasesLast90Days stats
  /\ MetricsData.latestRelease d = Rollup.latestRelease stats
  /\ Returned
       {| GitHub.starsPerMonth := MetricsData.starsPerMonth d;
          GitHub.recentGrowth := MetricsData.recentStarGrowth d |}
     = outcome (GitHub.fetchStarGrowth (E:=Metrics.AnalysisStatus) getTime
                  (Metrics.starGrowthNow w) (Metrics.stargazersReply w))
  /\ (exists prStats,
        outcome (GitHub.fetchPRStats (E:=Metrics.AnalysisStatus)
                   (Metrics.mergedPRsReply w) (Metrics.unmergedPRsReply w))
        = Returned prStats
        /\ MetricsData.prMergeRate d = GitHub.mergeRate prStats)
  /\ Returned
       {| GitHub.additions := MetricsData.codeAdditions d;
          GitHub.deletions := MetricsData.codeDeletions d;
          GitHub.totalChanges := MetricsData.totalCodeChanges d |}
     = outcome (GitHub.fetchCodeFrequency (E:=Metrics.AnalysisStatus)
                  (Metrics.codeFrequencyPolls w)).

(** A string all of whose characters are of the class. *)
Fixpoint every (class : Ascii.ascii -> bool) (s : string) : bool :=
  match s with
  | EmptyString => true
  | String c rest => class c && every class rest
  end.

(** A token that counts: present and not empty. *)
Definition usable (token : option string) : Prop :=
  exists t, token = Some t /\ t <> EmptyString.

End Props.

(* ===================================================================== *)
(** * Facts on numbers *)
(* ===================================================================== *)

Section NumberFacts.

Lemma ltb_lt (a b : Q) : JS.ltb a b = true <-> a < b.
Proof.
  unfold JS.ltb. rewrite negb_true_iff. split.
  - intros H. apply Qnot_le_lt. intros Hle.
    apply Qle_bool_iff in Hle. congruence.
  - intros H. destruct (Qle_bool b a) eqn:Hb; [|reflexivity].
    apply Qle_bool_iff in Hb. exfalso. exact (Qlt_not_le _ _ H Hb).
Qed.

Lemma ltb_ge (a b : Q) : JS.ltb a b = false <-> b <= a.
Proof.
  unfold JS.ltb. rewrite negb_false_iff. apply Qle_bool_iff.
Qed.

Lemma geb_ge (a b : Q) : JS.geb a b = true <-> b <= a.
Proof. unfold JS.geb. apply Qle_bool_iff. Qed.

Lemma geb_lt (a b : Q) : JS.geb a b = false <-> a < b.
Proof.
  rewrite <- ltb_lt. unfold JS.geb, JS.ltb.
  destruct (Qle_bool b a); simpl; split; congruence.
Qed.

Lemma leb_le (a b : Q) : JS.leb a b = true <-> a <= b.
Proof. unfold JS.leb. apply Qle_bool_iff. Qed.

Lemma gtb_gt (a b : Q) : JS.gtb a b = true <-> b < a.
Proof. exact (ltb_lt b a). Qed.

Lemma gtb_le (a b : Q) : JS.gtb a b = false <-> a <= b.
Proof. exact (ltb_ge b a). Qed.

Global Instance ltb_proper : Proper (Qeq ==> Qeq ==> eq) JS.ltb.
Proof. intros a a' Ha b b' Hb. unfold JS.ltb. now rewrite Ha, Hb. Qed.

Global Instance geb_proper : Proper (Qeq ==> Qeq ==> eq) JS.geb.
Proof. intros a a' Ha b b' Hb. unfold JS.geb. now rewrite Ha, Hb. Qed.

Global Instance leb_proper : Proper (Qeq ==> Qeq ==> eq) JS.leb.
Proof. intros a a' Ha b b' Hb. unfold JS.leb. now rewrite Ha, Hb. Qed.

Global Instance gtb_proper : Proper (Qeq ==> Qeq ==> eq) JS.gtb.
Proof. intros a a' Ha b b' Hb. unfold JS.gtb. now rewrite Ha, Hb. Qed.

Global Instance Math_round_proper : Proper (Qeq ==> eq) JS.Math_round.
Proof. intros a a' Ha. unfold JS.Math_round. now rewrite Ha. Qed.

Global Instance Math_floor_proper : Proper (Qeq ==> eq) JS.Math_floor.
Proof. intros a a' Ha. unfold JS.Math_floor. now rewrite Ha. Qed.

Lemma Qorder_false (a b : Q) : a < b -> b <= a -> False.
Proof. intros Hlt Hle. exact (Qlt_not_le _ _ Hlt Hle). Qed.

Lemma is_integer_inject (z : Z) : Spec.is_integer (inject_Z z).
Proof. now exists z. Qed.

Lemma is_integer_plus (x y : Q) :
  Spec.is_integer x -> Spec.is_integer y -> Spec.is_integer (x + y).
Proof.
  intros [a ->] [b ->]. exists (a + b)%Z.
  unfold Qplus, inject_Z. simpl. now rewrite !Z.mul_1_r.
Qed.

Lemma is_integer_min (x y : Q) :
  Spec.is_integer x -> Spec.is_integer y -> Spec.is_integer (JS.Math_min x y).
Proof.
  intros Hx Hy. unfold JS.Math_min, Qmin, GenericMinMax.gmin.
  now destruct (x ?= y).
Qed.

Lemma is_integer_max (x y : Q) :
  Spec.is_integer x -> Spec.is_integer y -> Spec.is_integer (JS.Math_max x y).
Proof.
  intros Hx Hy. unfold JS.Math_max, Qmax, GenericMinMax.gmax.
  now destruct (x ?= y).
Qed.

Lemma length_nat {A} (xs : list A) (n : nat) :
  JS.length xs == inject_Z (Z.of_nat n) <-> List.length xs = n.
Proof.
  unfold JS.length. rewrite inject_Z_injective. lia.
Qed.

End NumberFacts.

(** Closes a goal whose hypotheses order one number against constants in
    contradictory ways. *)
Ltac q_order :=
  unfold Qle, Qlt in *; simpl in *; lia.

Create HintDb integer.
#[export] Hint Resolve is_integer_inject is_integer_plus is_integer_min
  is_integer_max : integer.

(* ===================================================================== *)
(** * The health score *)
(* ===================================================================== *)

Section HealthScore.
Import Metrics.

(** Splits every threshold test of a sub-score. *)
Ltac split_buckets :=
  repeat match goal with
         | |- context [if ?c then _ else _] => destruct c eqn:?
         end.

Lemma responseTimeScore_integer t : Spec.is_integer (responseTimeScore t).
Proof.
  unfold responseTimeScore. destruct t; split_buckets;
    apply (is_integer_inject _).
Qed.

Lemma issueResolutionScore_integer o c : Spec.is_integer (issueResolutionScore o c).
Proof.
  unfold issueResolutionScore. split_buckets; apply (is_integer_inject _).
Qed.

Lemma commitActivityScore_integer n : Spec.is_integer (commitActivityScore n).
Proof.
  unfold commitActivityScore. split_buckets; apply (is_integer_inject _).
Qed.

Lemma busFactorScore_integer r : Spec.is_integer (busFactorScore r).
Proof.
  unfold busFactorScore. split_buckets; apply (is_integer_inject _).
Qed.

Lemma releaseActivityScore_integer l : Spec.is_integer (releaseActivityScore l).
Proof.
  unfold releaseActivityScore. destruct l; split_buckets;
    apply (is_integer_inject _).
Qed.

Lemma rawHealthScore_sum metrics :
  rawHealthScore metrics ==
    responseTimeScore (MetricsData.medianIssueResponseTime metrics)
    + issueResolutionScore (MetricsData.openIssuesCount metrics)
                           (MetricsData.closedIssuesCount metrics)
    + commitActivityScore (MetricsData.totalCommitsLast90Days metrics)
    + busFactorScore (MetricsData.topContributorRatio metrics)
    + releaseActivityScore (MetricsData.latestRelease metrics).
Proof. unfold rawHealthScore. ring. Qed.

Lemma rawHealthScore_integer metrics : Spec.is_integer (rawHealthScore metrics).
Proof.
  unfold rawHealthScore.
  repeat apply is_integer_plus;
    auto using responseTimeScore_integer, issueResolutionScore_integer,
      commitActivityScore_integer, busFactorScore_integer,
      releaseActivityScore_integer.
  apply (is_integer_inject 0).
Qed.

(** C1. For every input, [calculateHealthScore] returns an integer between
    0 and 100: the sum of the five sub-scores, clamped to [0, 100]. *)
Theorem calculateHealthScore_range (metrics : MetricsData.t) :
  calculateHealthScore metrics ==
    Qmin 100 (Qmax 0
      (responseTimeScore (MetricsData.medianIssueResponseTime metrics)
       + issueResolutionScore (MetricsData.openIssuesCount metrics)
                              (MetricsData.closedIssuesCount metrics)
       + commitActivityScore (MetricsData.totalCommitsLast90Days metrics)
       + busFactorScore (MetricsData.topContributorRatio metrics)
       + releaseActivityScore (MetricsData.latestRelease metrics)))
  /\ exists z : Z,
       calculateHealthScore metrics = inject_Z z /\ (0 <= z <= 100)%Z.
Proof.
  split.
  - unfold calculateHealthScore, JS.Math_min, JS.Math_max.
    now rewrite rawHealthScore_sum.
  - assert (Hint : Spec.is_integer (calculateHealthScore metrics)).
    { unfold calculateHealthScore.
      apply is_integer_min; [apply (is_integer_inject 100)|].
      apply is_integer_max; [apply (is_integer_inject 0)|].
      apply rawHealthScore_integer. }
    destruct Hint as [z Hz]. exists z. split; [exact Hz|].
    assert (Hlo : 0 <= calculateHealthScore metrics).
    { unfold calculateHealthScore, JS.Math_min, JS.Math_max.
      apply Q.min_glb; [discriminate|apply Q.le_max_l]. }
    assert (Hhi : calculateHealthScore metrics <= 100).
    { unfold calculateHealthScore, JS.Math_min. apply Q.le_min_l. }
    rewrite Hz in Hlo, Hhi.
    change 0 with (inject_Z 0) in Hlo. change 100 with (inject_Z 100) in Hhi.
    rewrite <- Zle_Qle in Hlo, Hhi. lia.
Qed.

Global Instance responseTimeScore_proper :
  Proper (option_Forall2 Qeq ==> eq) responseTimeScore.
Proof.
  intros t t' [a b Hab|]; [|reflexivity].
  unfold responseTimeScore.
  now rewrite !(ltb_proper Hab (Qeq_refl _)).
Qed.

Global Instance issueResolutionScore_proper :
  Proper (Qeq ==> Qeq ==> eq) issueResolutionScore.
Proof.
  intros o o' Ho c c' Hc. unfold issueResolutionScore.
  assert (Ht : o + c == o' + c') by now rewrite Ho, Hc.
  rewrite (gtb_proper Ht (Qeq_refl 0)).
  assert (Hr : c / (o + c) * 20 == c' / (o' + c') * 20) by now rewrite Ht, Hc.
  now rewrite (Math_round_proper Hr).
Qed.

Global Instance commitActivityScore_proper : Proper (Qeq ==> eq) commitActivityScore.
Proof.
  intros n n' Hn. unfold commitActivityScore.
  rewrite !(geb_proper Hn (Qeq_refl _)).
  assert (Hr : n / 10 * 8 == n' / 10 * 8) by now rewrite Hn.
  now rewrite (Math_round_proper Hr).
Qed.

Global Instance busFactorScore_proper : Proper (Qeq ==> eq) busFactorScore.
Proof.
  intros r r' Hr. unfold busFactorScore.
  now rewrite !(ltb_proper Hr (Qeq_refl _)).
Qed.

Lemma releaseActivityScore_days (latest latest' : ReleaseStats.t) :
  ReleaseStats.daysAgo latest == ReleaseStats.daysAgo latest' ->
  releaseActivityScore (Some latest) = releaseActivityScore (Some latest').
Proof.
  intros Hd. unfold releaseActivityScore.
  now rewrite !(leb_proper Hd (Qeq_refl _)).
Qed.

(** C2. The end-to-end scenario: no response-time sample, 5 open and 45
    closed issues, 30 commits, a top contributor at 60 percent and a
    latest release ten days old score 10 + 18 + 12 + 8 + 20 = 68. *)
Theorem calculateHealthScore_scenario
    (metrics : MetricsData.t) (latest : ReleaseStats.t) :
  MetricsData.medianIssueResponseTime metrics = None ->
  MetricsData.openIssuesCount metrics == 5 ->
  MetricsData.closedIssuesCount metrics == 45 ->
  MetricsData.totalCommitsLast90Days metrics == 30 ->
  MetricsData.topContributorRatio metrics == 60 ->
  MetricsData.latestRelease metrics = Some latest ->
  ReleaseStats.daysAgo latest == 10 ->
  responseTimeScore (MetricsData.medianIssueResponseTime metrics) = 10
  /\ issueResolutionScore (MetricsData.openIssuesCount metrics)
                          (MetricsData.closedIssuesCount metrics) = 18
  /\ commitActivityScore (MetricsData.totalCommitsLast90Days metrics) = 12
  /\ busFactorScore (MetricsData.topContributorRatio metrics) = 8
  /\ releaseActivityScore (MetricsData.latestRelease metrics) = 20
  /\ calculateHealthScore metrics = 68.
Proof.
  intros Hmedian Hopen Hclosed Hcommits Hratio Hlatest Hdays.
  assert (H1 : responseTimeScore (MetricsData.medianIssueResponseTime metrics) = 10)
    by now rewrite Hmedian.
  assert (H2 : issueResolutionScore (MetricsData.openIssuesCount metrics)
                 (MetricsData.closedIssuesCount metrics) = 18)
    by now rewrite (issueResolutionScore_proper Hopen Hclosed).
  assert (H3 : commitActivityScore (MetricsData.totalCommitsLast90Days metrics) = 12)
    by now rewrite (commitActivityScore_proper Hcommits).
  assert (H4 : busFactorScore (MetricsData.topContributorRatio metrics) = 8)
    by now rewrite (busFactorScore_proper Hratio).
  assert (H5 : releaseActivityScore (MetricsData.latestRelease metrics) = 20).
  { rewrite Hlatest.
    now rewrite (@releaseActivityScore_days latest Examples.tenDaysOld Hdays). }
  repeat split; trivial.
  unfold calculateHealthScore, rawHealthScore.
  now rewrite H1, H2, H3, H4, H5.
Qed.

(** The scenario at its concrete record, and at the metrics that a run of
    the orchestrator assembles from the world of the scenario. *)
Lemma calculateHealthScore_scenario_witness :
  calculateHealthScore (Examples.scenario None) = 68
  /\ calculateHealthScore Examples.scenarioMetrics = 68.
Proof.
  split.
  - apply (@calculateHealthScore_scenario (Examples.scenario None) Examples.tenDaysOld);
      reflexivity.
  - eapply calculateHealthScore_scenario; vm_compute; reflexivity.
Defined.

(** C9. The response-time thresholds are strict: a median of exactly 24
    hours is in the bucket below 48 hours and scores 16, not 20. *)
Theorem responseTimeScore_24h (metrics : MetricsData.t) (t : Q) :
  MetricsData.medianIssueResponseTime metrics = Some t ->
  t == 24 ->
  responseTimeScore (Some t) = 16
  /\ responseTimeScore (Some t) <> 20
  /\ rawHealthScore metrics ==
       16 + issueResolutionScore (MetricsData.openIssuesCount metrics)
                                 (MetricsData.closedIssuesCount metrics)
          + commitActivityScore (MetricsData.totalCommitsLast90Days metrics)
          + busFactorScore (MetricsData.topContributorRatio metrics)
          + releaseActivityScore (MetricsData.latestRelease metrics)
  /\ (forall t' : Q, responseTimeScore (Some t') = 20 <-> t' < 24)
  /\ (forall t' : Q, responseTimeScore (Some t') = 16 <-> 24 <= t' /\ t' < 48).
Proof.
  intros Hmedian Ht.
  assert (H16 : responseTimeScore (Some t) = 16).
  { unfold responseTimeScore. now rewrite !(ltb_proper Ht (Qeq_refl _)). }
  split; [exact H16|]. split; [rewrite H16; discriminate|].
  split; [rewrite rawHealthScore_sum, Hmedian, H16; reflexivity|].
  split; intros t'; unfold responseTimeScore.
  - destruct (JS.ltb t' 24) eqn:H24.
    + apply ltb_lt in H24. tauto.
    + apply ltb_ge in H24.
      split; [|intros Hlt; exfalso; exact (Qlt_not_le _ _ Hlt H24)].
      split_buckets; discriminate.
  - destruct (JS.ltb t' 24) eqn:H24.
    + apply ltb_lt in H24.
      split; [discriminate|].
      intros [Hge _]. exfalso. exact (Qlt_not_le _ _ H24 Hge).
    + apply ltb_ge in H24. destruct (JS.ltb t' 48) eqn:H48.
      * apply ltb_lt in H48. tauto.
      * apply ltb_ge in H48.
        split; [split_buckets; discriminate|].
        intros [_ Hlt]. exfalso. exact (Qlt_not_le _ _ Hlt H48).
Qed.

(** The boundary at the scenario with a median of 24 hours: 16 points for
    the response time, 74 in total. *)
Lemma responseTimeScore_24h_witness :
  responseTimeScore (Some 24) = 16
  /\ calculateHealthScore (Examples.scenario (Some 24)) = 74.
Proof.
  split; [|reflexivity].
  exact (proj1 (@responseTimeScore_24h (Examples.scenario (Some 24)) 24
                  eq_refl (Qeq_refl 24))).
Defined.

End HealthScore.

(* ===================================================================== *)
(** * The interpretation of a score *)
(* ===================================================================== *)

Section Interpretation.
Import Metrics.
Local Open Scope string_scope.

(** C10. [getHealthScoreInterpretation] is total on numbers: at least 80
    is Excellent, from 60 up to 80 Good, from 40 up to 60 Fair, and below
    40 Needs Attention, also beyond the range 0 to 100. *)
Theorem getHealthScoreInterpretation_bands (score : Q) :
  (80 <= score -> label (getHealthScoreInterpretation score) = "Excellent")
  /\ (60 <= score /\ score < 80 ->
        label (getHealthScoreInterpretation score) = "Good")
  /\ (40 <= score /\ score < 60 ->
        label (getHealthScoreInterpretation score) = "Fair")
  /\ (score < 40 ->
        label (getHealthScoreInterpretation score) = "Needs Attention").
Proof.
  unfold getHealthScoreInterpretation.
  destruct (JS.geb score 80) eqn:H80;
    [apply geb_ge in H80|apply geb_lt in H80];
    (destruct (JS.geb score 60) eqn:H60;
      [apply geb_ge in H60|apply geb_lt in H60]);
    (destruct (JS.geb score 40) eqn:H40;
      [apply geb_ge in H40|apply geb_lt in H40]);
    simpl; repeat split; trivial; intros;
    repeat match goal with H : _ /\ _ |- _ => destruct H end;
    exfalso; q_order.
Qed.

(** The four bands at 120, 70, 50 and -5. *)
Lemma getHealthScoreInterpretation_bands_witness :
  label (getHealthScoreInterpretation 120) = "Excellent"
  /\ label (getHealthScoreInterpretation 70) = "Good"
  /\ label (getHealthScoreInterpretation 50) = "Fair"
  /\ label (getHealthScoreInterpretation (-5)) = "Needs Attention".
Proof.
  split; [|split; [|split]].
  - apply (proj1 (getHealthScoreInterpretation_bands 120)). discriminate.
  - apply (proj1 (proj2 (getHealthScoreInterpretation_bands 70))).
    split; [discriminate|reflexivity].
  - apply (proj1 (proj2 (proj2 (getHealthScoreInterpretation_bands 50)))).
    split; [discriminate|reflexivity].
  - apply (proj2 (proj2 (proj2 (getHealthScoreInterpretation_bands (-5))))).
    reflexivity.
Defined.

End Interpretation.

(* ===================================================================== *)
(** * The release rollups *)
(* ===================================================================== *)

Section ReleaseRollups.
Import Metrics.
Variable getTime : string -> Z.
Variable now : Z.

Lemma fold_left_Qsum {A} (f : A -> Q) (xs : list A) (acc : Q) :
  fold_left (fun sum x => sum + f x) xs acc == acc + Spec.Qsum (map f xs).
Proof.
  revert acc. induction xs as [|x xs IH]; intros acc; simpl.
  - ring.
  - rewrite IH. ring.
Qed.

Lemma Qsum_pointwise {A} (f g : A -> Q) (xs : list A) :
  (forall x, f x == g x) -> Spec.Qsum (map f xs) == Spec.Qsum (map g xs).
Proof.
  intros Hfg. induction xs as [|x xs IH]; simpl; [reflexivity|].
  now rewrite IH, Hfg.
Qed.

Lemma Qsum_split {A} (f : A -> Q) (p : A -> bool) (xs : list A) :
  Spec.Qsum (map f xs) ==
    Spec.Qsum (map f (List.filter p xs))
    + Spec.Qsum (map f (List.filter (fun x => negb (p x)) xs)).
Proof.
  induction xs as [|x xs IH]; simpl; [reflexivity|].
  destruct (p x); simpl; rewrite IH; ring.
Qed.

Lemma filter_map_length {A B} (f : A -> B) (p : B -> bool) (xs : list A) :
  List.length (List.filter p (map f xs))
  = List.length (List.filter (fun x => p (f x)) xs).
Proof.
  induction xs as [|x xs IH]; simpl; [reflexivity|].
  destruct (p (f x)); simpl; now rewrite IH.
Qed.

Lemma releaseStat_totalDownloads (release : GitHub.GitHubRelease) :
  ReleaseStats.totalDownloads (releaseStat getTime now release)
  == Spec.downloadsOf release.
Proof.
  unfold releaseStat, Spec.downloadsOf. simpl.
  rewrite fold_left_Qsum. ring.
Qed.

Lemma totalDownloads_all (releases : list GitHub.GitHubRelease) :
  Rollup.totalDownloads (calculateReleaseStats getTime now releases)
  == Spec.Qsum (map Spec.downloadsOf releases).
Proof.
  unfold calculateReleaseStats. simpl.
  rewrite fold_left_Qsum, map_map, Qplus_0_l.
  apply Qsum_pointwise, releaseStat_totalDownloads.
Qed.

Lemma nonPrereleases_length (releases : list GitHub.GitHubRelease) :
  JS.length
    (List.filter (fun r => negb (ReleaseStats.isPrerelease r))
                 (map (releaseStat getTime now) releases))
  = JS.length (Spec.nonPrereleases releases).
Proof.
  unfold JS.length. now rewrite filter_map_length.
Qed.

Lemma length_positive {A} (x : A) (xs : list A) :
  JS.gtb (JS.length (x :: xs)) 0 = true.
Proof.
  apply gtb_gt. unfold JS.length. change 0 with (inject_Z 0).
  rewrite <- Zlt_Qlt. simpl. lia.
Qed.

(** C4. [totalDownloads] sums the asset downloads of every release,
    prereleases included, while [totalReleases] counts the releases that
    are not prereleases. *)
Theorem calculateReleaseStats_totals (releases : list GitHub.GitHubRelease) :
  let stats := calculateReleaseStats getTime now releases in
  let prereleases := List.filter GitHub.prerelease releases in
  Rollup.totalDownloads stats == Spec.Qsum (map Spec.downloadsOf releases)
  /\ Rollup.totalDownloads stats ==
       Spec.Qsum (map Spec.downloadsOf prereleases)
       + Spec.Qsum (map Spec.downloadsOf (Spec.nonPrereleases releases))
  /\ Rollup.totalReleases stats = JS.length (Spec.nonPrereleases releases)
  /\ (List.length (Spec.nonPrereleases releases) + List.length prereleases
      = List.length releases)%nat.
Proof.
  cbv zeta. split; [apply totalDownloads_all|].
  split.
  - rewrite totalDownloads_all.
    apply (Qsum_split Spec.downloadsOf GitHub.prerelease).
  - split.
    + unfold calculateReleaseStats. simpl. apply nonPrereleases_length.
    + unfold Spec.nonPrereleases.
      induction releases as [|r rs IH]; simpl; [reflexivity|].
      destruct (GitHub.prerelease r); simpl; lia.
Qed.

(** C3, as the code has it.  [averageDownloadsPerRelease] divides the
    downloads of every release, prereleases included, by the number of
    releases that are not prereleases, rounds to the nearest integer, and
    is 0 when no release qualifies. *)
Theorem averageDownloadsPerRelease_amended (releases : list GitHub.GitHubRelease) :
  Rollup.averageDownloadsPerRelease (calculateReleaseStats getTime now releases)
  = match Spec.nonPrereleases releases with
    | [] => 0
    | _ :: _ =>
        JS.Math_round (Spec.Qsum (map Spec.downloadsOf releases)
                       / JS.length (Spec.nonPrereleases releases))
    end.
Proof.
  pose proof (totalDownloads_all releases) as Htotal.
  unfold calculateReleaseStats in *. simpl in *.
  rewrite nonPrereleases_length.
  destruct (Spec.nonPrereleases releases) as [|r rs] eqn:Hnp.
  - reflexivity.
  - rewrite length_positive. apply Math_round_proper. now rewrite Htotal.
Qed.

End ReleaseRollups.

(** C3, as the specification words it, fails: with a prerelease downloaded
    ten times and a release never downloaded, the code answers 10 where the
    average over the releases that are not prereleases is 0. *)
Lemma averageDownloadsPerRelease_counterexample :
  ~ (forall (getTime : string -> Z) (now : Z) (releases : list GitHub.GitHubRelease),
       Rollup.averageDownloadsPerRelease
         (Metrics.calculateReleaseStats getTime now releases)
       == Spec.nonPrereleaseAverage releases).
Proof.
  intros H. specialize (H Examples.epoch 0%Z Examples.betaAndStable).
  vm_compute in H. discriminate H.
Qed.

(* ===================================================================== *)
(** * The sort of an array and the median *)
(* ===================================================================== *)

Section SortFacts.
Context {A : Type} (le : A -> A -> bool) (R : A -> A -> Prop).
Hypothesis le_sound : forall a b, le a b = true -> R a b.
Hypothesis le_total : forall a b, le a b = false -> R b a.

Lemma insert_permutation (x : A) (l : list A) :
  Permutation (x :: l) (JS.insert le x l).
Proof.
  induction l as [|y l IH]; simpl; [reflexivity|].
  destruct (le x y); [reflexivity|].
  rewrite perm_swap. now apply perm_skip.
Qed.

Lemma sort_permutation (l : list A) : Permutation l (JS.sort le l).
Proof.
  induction l as [|x l IH]; simpl; [reflexivity|].
  rewrite <- insert_permutation. now apply perm_skip.
Qed.

Lemma sort_length (l : list A) : List.length (JS.sort le l) = List.length l.
Proof. symmetry. apply Permutation_length, sort_permutation. Qed.

Lemma insert_sorted (x : A) (l : list A) :
  Sorted R l -> Sorted R (JS.insert le x l).
Proof.
  induction l as [|y l IH]; intros Hl; simpl.
  - repeat constructor.
  - destruct (le x y) eqn:Hxy.
    + constructor; [exact Hl|]. constructor. now apply le_sound.
    + apply Sorted_inv in Hl as [Hl Hy].
      constructor; [now apply IH|].
      destruct l as [|z l]; simpl.
      * constructor. now apply le_total.
      * destruct (le x z); constructor.
        -- now apply le_total.
        -- now apply HdRel_inv in Hy.
Qed.

Lemma sort_sorted (l : list A) : Sorted R (JS.sort le l).
Proof.
  induction l as [|x l IH]; simpl; [constructor|].
  now apply insert_sorted.
Qed.
End SortFacts.

Section Median.
Import Metrics.

Lemma Qle_bool_total (a b : Q) : Qle_bool a b = false -> b <= a.
Proof.
  intros H. apply Qlt_le_weak, Qnot_le_lt. intros Hle.
  apply Qle_bool_iff in Hle. congruence.
Qed.

Lemma numeric_sort_sorted (values : list Q) :
  Spec.nonDecreasing (JS.sort Qle_bool values).
Proof.
  apply sort_sorted.
  - intros a b. apply Qle_bool_iff.
  - apply Qle_bool_total.
Qed.

(** Two non-decreasing arrangements of the same numbers agree position by
    position.  The proof goes through the reduced fractions, on which the
    order is antisymmetric. *)
Lemma Qred_idempotent (a : Q) : Qred (Qred a) = Qred a.
Proof. apply Qred_complete, Qred_correct. Qed.

Lemma sorted_map_Qred (l : list Q) :
  StronglySorted Qle l -> StronglySorted Qle (map Qred l).
Proof.
  induction 1 as [|a l Hl IH Ha]; simpl; constructor; [exact IH|].
  rewrite List.Forall_forall in Ha. apply List.Forall_forall.
  intros b' Hin. apply in_map_iff in Hin as (b & <- & Hin).
  rewrite !Qred_correct. now apply Ha.
Qed.

Lemma sorted_reduced_unique (l1 l2 : list Q) :
  Forall (fun a => Qred a = a) l1 ->
  Forall (fun a => Qred a = a) l2 ->
  StronglySorted Qle l1 -> StronglySorted Qle l2 ->
  Permutation l1 l2 -> l1 = l2.
Proof.
  revert l2. induction l1 as [|a l1 IH]; intros l2 Hc1 Hc2 Hs1 Hs2 Hp.
  - now apply Permutation_nil in Hp.
  - destruct l2 as [|b l2].
    + symmetry in Hp. now apply Permutation_nil in Hp.
    + assert (Hab : a = b).
      { apply StronglySorted_inv in Hs1 as [_ Ha].
        apply StronglySorted_inv in Hs2 as [_ Hb].
        assert (Hle1 : a <= b).
        { assert (Hin : In b (a :: l1))
            by (eapply Permutation_in; [symmetry; exact Hp|now left]).
          destruct Hin as [->|Hin]; [apply Qle_refl|].
          rewrite List.Forall_forall in Ha. now apply Ha. }
        assert (Hle2 : b <= a).
        { assert (Hin : In a (b :: l2))
            by (eapply Permutation_in; [exact Hp|now left]).
          destruct Hin as [->|Hin]; [apply Qle_refl|].
          rewrite List.Forall_forall in Hb. now apply Hb. }
        apply Forall_inv in Hc1. apply Forall_inv in Hc2.
        rewrite <- Hc1, <- Hc2. apply Qred_complete.
        now apply Qle_antisym. }
      subst b. f_equal.
      apply IH.
      * now apply Forall_inv_tail in Hc1.
      * now apply Forall_inv_tail in Hc2.
      * now apply StronglySorted_inv in Hs1.
      * now apply StronglySorted_inv in Hs2.
      * now apply Permutation_cons_inv in Hp.
Qed.

Lemma map_Qred_pointwise (l1 l2 : list Q) :
  map Qred l1 = map Qred l2 -> Forall2 Qeq l1 l2.
Proof.
  revert l2. induction l1 as [|a l1 IH]; intros [|b l2] H;
    simpl in H; try discriminate; constructor.
  - injection H as Hab _. now apply Qred_eq_iff.
  - apply IH. now injection H.
Qed.

Lemma sorted_unique (l1 l2 : list Q) :
  Spec.nonDecreasing l1 -> Spec.nonDecreasing l2 ->
  Permutation l1 l2 -> Forall2 Qeq l1 l2.
Proof.
  intros Hs1 Hs2 Hp. apply map_Qred_pointwise.
  assert (Htrans : Relations_1.Transitive Qle)
    by (intros a b c; apply Qle_trans).
  apply sorted_reduced_unique.
  - apply List.Forall_forall. intros a' Hin.
    apply in_map_iff in Hin as (a & <- & _). apply Qred_idempotent.
  - apply List.Forall_forall. intros a' Hin.
    apply in_map_iff in Hin as (a & <- & _). apply Qred_idempotent.
  - apply sorted_map_Qred, Sorted_StronglySorted; assumption.
  - apply sorted_map_Qred, Sorted_StronglySorted; assumption.
  - now apply Permutation_map.
Qed.

Lemma nth_pointwise (l1 l2 : list Q) (i : nat) :
  Forall2 Qeq l1 l2 -> nth i l1 0 == nth i l2 0.
Proof.
  intros H. revert i. induction H as [|a b l1 l2 Hab _ IH]; intros [|i]; simpl;
    try reflexivity; [exact Hab|apply IH].
Qed.

Lemma middleOf_pointwise (l1 l2 : list Q) :
  Forall2 Qeq l1 l2 -> Spec.middleOf l1 == Spec.middleOf l2.
Proof.
  intros H. unfold Spec.middleOf.
  pose proof H as Hlen. apply Forall2_length in Hlen. rewrite <- Hlen.
  destruct (Nat.even (List.length l1)).
  - now rewrite !(nth_pointwise _ H).
  - apply nth_pointwise, H.
Qed.

Lemma even_mod2 (n : nat) : (n mod 2 =? 0)%nat = Nat.even n.
Proof.
  destruct (Nat.even n) eqn:He.
  - apply Nat.even_spec in He as [k ->].
    rewrite Nat.mul_comm, Nat.Div0.mod_mul. reflexivity.
  - assert (Ho : Nat.odd n = true) by (rewrite <- Nat.negb_even, He; reflexivity).
    apply Nat.odd_spec in Ho as [k ->].
    rewrite Nat.add_comm, Nat.mul_comm, Nat.Div0.mod_add. reflexivity.
Qed.

Lemma calculateMedian_sorted (values : list Q) :
  values <> [] ->
  calculateMedian values = Some (Spec.middleOf (JS.sort Qle_bool values)).
Proof.
  intros Hne. unfold calculateMedian, Spec.middleOf.
  destruct values as [|v values]; [congruence|].
  replace (Qeq_bool (JS.length (v :: values)) 0) with false.
  - rewrite even_mod2. now destruct (Nat.even _).
  - symmetry. apply not_true_is_false. intros H.
    apply Qeq_bool_iff in H. change 0 with (inject_Z (Z.of_nat 0)) in H.
    apply length_nat in H. discriminate H.
Qed.

(** C8. [calculateMedian] is the median of the sorted array: null on the
    empty list; otherwise, sorting the values in non-decreasing order, the
    middle element for an odd length and the average of the two middle
    elements for an even length.  The answer is the middle of every
    non-decreasing arrangement of the values.  The median of 1, 2, 3 is
    2, the one of 1, 2, 3, 4 is 5/2 = 2.5. *)
Theorem calculateMedian_standard (values : list Q) :
  (values = [] -> calculateMedian values = None)
  /\ (values <> [] ->
      Permutation values (JS.sort Qle_bool values)
      /\ Spec.nonDecreasing (JS.sort Qle_bool values)
      /\ calculateMedian values = Some (Spec.middleOf (JS.sort Qle_bool values))
      /\ forall sorted : list Q,
           Permutation values sorted -> Spec.nonDecreasing sorted ->
           Spec.middleOf (JS.sort Qle_bool values) == Spec.middleOf sorted)
  /\ calculateMedian [1; 2; 3] = Some 2
  /\ calculateMedian [1; 2; 3; 4] = Some (5 # 2)
  /\ calculateMedian [] = None.
Proof.
  split; [now intros ->|].
  split; [|split; [|split]; reflexivity].
  intros Hne.
  split; [apply sort_permutation|].
  split; [apply numeric_sort_sorted|].
  split; [now apply calculateMedian_sorted|].
  intros sorted Hperm Hsorted.
  apply middleOf_pointwise, sorted_unique.
  - apply numeric_sort_sorted.
  - exact Hsorted.
  - rewrite <- Hperm. symmetry. apply sort_permutation.
Qed.

(** The median of 3, 1, 2 and of the empty list. *)
Lemma calculateMedian_standard_witness :
  calculateMedian [3; 1; 2] = Some (Spec.middleOf [1; 2; 3])
  /\ calculateMedian [] = None.
Proof.
  split.
  - destruct (calculateMedian_standard [3; 1; 2]) as (_ & Hmedian & _).
    destruct (Hmedian ltac:(discriminate)) as (_ & _ & Hmiddle & _).
    exact Hmiddle.
  - apply (proj1 (calculateMedian_standard [])). reflexivity.
Defined.

End Median.

(* ===================================================================== *)
(** * The retrying client *)
(* ===================================================================== *)

Section Retry.
Import Eff GitHub.
Context {B : Type}.
Variable fetch : nat -> Outcome (Response B).
Variable url : string.
Variable retries : nat.

Lemma fetchWithRetry_from_503 (todo i : nat) :
  Spec.always503 fetch -> (i + todo = retries)%nat ->
  fetchWithRetry_from fetch url retries (S todo) i =
    (flat_map (fun k => [Request url k; Sleep (backoff k)]) (seq i todo)
       ++ [Request url retries],
     fetch retries).
Proof.
  intros H503. revert i. induction todo as [|todo IH]; intros i Hi.
  - assert (i = retries) as -> by lia.
    destruct (H503 retries) as (response & Hfetch & Hstatus).
    simpl. rewrite Hfetch, Hstatus, Nat.ltb_irrefl. reflexivity.
  - destruct (H503 i) as (response & Hfetch & Hstatus).
    assert (Hlt : (i <? retries)%nat = true) by (apply Nat.ltb_lt; lia).
    change (fetchWithRetry_from fetch url retries (S (S todo)) i)
      with (bind (emit (Request url i))
              (fun _ =>
                 match fetch i with
                 | Returned response =>
                     if retryable (status response) && (i <? retries)%nat
                     then bind (emit (Sleep (backoff i)))
                            (fun _ => fetchWithRetry_from fetch url retries
                                        (S todo) (S i))
                     else ret response
                 | Thrown error =>
                     if (i =? retries)%nat then throw error
                     else bind (emit (Sleep (backoff i)))
                            (fun _ => fetchWithRetry_from fetch url retries
                                        (S todo) (S i))
                 end)).
    rewrite Hfetch, Hstatus, Hlt, IH by lia.
    reflexivity.
Qed.

Lemma backoff_value (i : nat) :
  backoff i == Qmin (1000 * inject_Z (2 ^ Z.of_nat i)) 8000.
Proof. reflexivity. Qed.

Lemma pauses_503 (i todo : nat) :
  Spec.pauses
    (flat_map (fun k => [Request url k; Sleep (backoff k)]) (seq i todo)
       ++ [Request url retries])
  = map backoff (seq i todo).
Proof.
  revert i. induction todo as [|todo IH]; intros i; simpl; [reflexivity|].
  now rewrite IH.
Qed.

Lemma requests_503 (i todo : nat) :
  List.length
    (List.filter Spec.is_request
       (flat_map (fun k => [Request url k; Sleep (backoff k)]) (seq i todo)
          ++ [Request url retries]))
  = S todo.
Proof.
  revert i. induction todo as [|todo IH]; intros i; simpl; [reflexivity|].
  now rewrite IH.
Qed.

(** C7. When every attempt is answered with 503, [fetchWithRetry] makes
    exactly [retries + 1] requests, pauses min(1000 * 2^i, 8000) ms after
    the request number [i] and before the next one, and then ends without
    success: it hands the last 503 response, which is not ok, to its
    caller. *)
Theorem fetchWithRetry_503 :
  Spec.always503 fetch ->
  let run := fetchWithRetry fetch url retries in
  events run =
    flat_map (fun i => [Request url i; Sleep (backoff i)]) (seq 0 retries)
      ++ [Request url retries]
  /\ List.length (List.filter Spec.is_request (events run)) = S retries
  /\ Spec.pauses (events run) = map backoff (seq 0 retries)
  /\ (forall i : nat,
        backoff i == Qmin (1000 * inject_Z (2 ^ Z.of_nat i)) 8000)
  /\ exists response : Response B,
       outcome run = Returned response
       /\ status response = 503%Z /\ ok response = false.
Proof.
  intros H503. cbv zeta.
  unfold fetchWithRetry, events, outcome.
  rewrite (fetchWithRetry_from_503 retries 0 H503 eq_refl).
  simpl fst. simpl snd.
  split; [reflexivity|].
  split; [apply requests_503|].
  split; [apply pauses_503|].
  split; [apply backoff_value|].
  destruct (H503 retries) as (response & Hfetch & Hstatus).
  exists response. split; [exact Hfetch|]. split; [exact Hstatus|].
  unfold ok. now rewrite Hstatus.
Qed.

End Retry.

(** With the default budget of 3 retries and a server that only answers
    503: four requests, pauses of 1000, 2000 and 4000 ms. *)
Lemma fetchWithRetry_503_witness :
  Spec.pauses
    (Eff.events
       (GitHub.fetchWithRetry
          (fun _ => Eff.Returned (GitHub.mkResponse 503 "Service Unavailable" tt))
          "https://api.github.com/repos/octo/pulse" GitHub.default_retries))
  = [1000; 2000; 4000].
Proof.
  destruct (@fetchWithRetry_503 unit
              (fun _ => Eff.Returned (GitHub.mkResponse 503 "Service Unavailable" tt))
              "https://api.github.com/repos/octo/pulse" GitHub.default_retries)
    as (_ & _ & Hpauses & _).
  - intros i. eexists. split; reflexivity.
  - exact Hpauses.
Defined.

(* ===================================================================== *)
(** * Runs: events and outcomes *)
(* ===================================================================== *)

Section EffFacts.
Import Eff.
Context {E A B : Type}.

Lemma events_bind (m : M E A) (k : A -> M E B) :
  events (bind m k) =
    events m ++ match outcome m with
                | Returned a => events (k a)
                | Thrown _ => []
                end.
Proof.
  destruct m as [es [a|error]]; simpl.
  - now destruct (k a).
  - now rewrite app_nil_r.
Qed.

Lemma outcome_bind (m : M E A) (k : A -> M E B) :
  outcome (bind m k) =
    match outcome m with
    | Returned a => outcome (k a)
    | Thrown error => Thrown error
    end.
Proof.
  destruct m as [es [a|error]]; simpl; [|reflexivity].
  now destruct (k a).
Qed.

Lemma events_try_catch (m : M E A) (h : string -> M E A) :
  events (try_catch m h) =
    events m ++ match outcome m with
                | Returned _ => []
                | Thrown error => events (h error)
                end.
Proof.
  destruct m as [es [a|error]]; simpl.
  - now rewrite app_nil_r.
  - now destruct (h error).
Qed.

Lemma outcome_try_catch (m : M E A) (h : string -> M E A) :
  outcome (try_catch m h) =
    match outcome m with
    | Returned a => Returned a
    | Thrown error => outcome (h error)
    end.
Proof.
  destruct m as [es [a|error]]; simpl; [reflexivity|].
  now destruct (h error).
Qed.

Lemma run_eta (m : M E A) : m = (events m, outcome m).
Proof. now destruct m. Qed.
End EffFacts.

Section Callbacks.
Import Eff GitHub Logic.
Context {E : Type}.
Variable cb : Q -> Q -> M E unit.
Hypothesis cb_returns : forall current total, outcome (cb current total) = Returned tt.



Lemma fetchIssues_from_callback pages perPage issues :
  fetchIssues_from pages perPage cb issues =
    (flat_map (fun current => events (cb current 500))
       (events (fetchIssues_from pages perPage record issues)),
     outcome (fetchIssues_from pages perPage record issues)).
Proof.
  revert issues. induction pages as [|reply pages IH]; intros issues; simpl.
  - now destruct (negb _).
  - destruct (negb (JS.ltb (JS.length issues) 500)); [reflexivity|].
    destruct reply as [response|error]; simpl; [|reflexivity].
    destruct (negb (ok response)); [now destruct (status response =? 404)%Z|].
    destruct (Qeq_bool _ 0); [reflexivity|].
    rewrite (run_eta (cb _ _)), cb_returns. simpl.
    destruct (JS.ltb (JS.length (json response)) perPage); simpl.
    + reflexivity.
    + rewrite IH. simpl.
      destruct (fetchIssues_from pages perPage record _) as [es o]. simpl.
      reflexivity.
Qed.

Lemma fetchCommits_from_callback pages commits :
  fetchCommits_from pages cb commits =
    (flat_map (fun current => events (cb current 1000))
       (events (fetchCommits_from pages record commits)),
     outcome (fetchCommits_from pages record commits)).
Proof.
  revert commits. induction pages as [|reply pages IH]; intros commits; simpl.
  - now destruct (negb _).
  - destruct (negb (JS.ltb (JS.length commits) 1000)); [reflexivity|].
    destruct reply as [response|error]; simpl; [|reflexivity].
    destruct (negb (ok response));
      [now destruct ((status response =? 504)%Z || (500 <=? status response)%Z)|].
    destruct (Qeq_bool _ 0); [reflexivity|].
    rewrite (run_eta (cb _ _)), cb_returns. simpl.
    destruct (JS.ltb (JS.length (json response)) 100); simpl; [reflexivity|].
    rewrite IH. simpl.
    now destruct (fetchCommits_from pages record _) as [es o].
Qed.

Lemma fetchReleases_from_callback pages limit releases :
  fetchReleases_from pages limit cb releases =
    (flat_map (fun current => events (cb current limit))
       (events (fetchReleases_from pages limit record releases)),
     outcome (fetchReleases_from pages limit record releases)).
Proof.
  revert releases. induction pages as [|reply pages IH]; intros releases; simpl.
  - now destruct (negb _).
  - destruct (negb (JS.ltb (JS.length releases) limit)); [reflexivity|].
    destruct reply as [response|error]; simpl; [|reflexivity].
    destruct (negb (ok response));
      [now destruct ((status response =? 504)%Z || (500 <=? status response)%Z)|].
    destruct (Qeq_bool _ 0); [reflexivity|].
    rewrite (run_eta (cb _ _)), cb_returns. simpl.
    destruct (JS.ltb (JS.length (json response)) 100); simpl; [reflexivity|].
    rewrite IH. simpl.
    now destruct (fetchReleases_from pages limit record _) as [es o].
Qed.
End Callbacks.

(* ===================================================================== *)
(** * Chains of progress values *)
(* ===================================================================== *)

Section ChainFacts.
Import Logic.

Lemma chain_bounds lo xs hi : chain lo xs hi -> lo <= hi.
Proof.
  revert lo. induction xs as [|x xs IH]; intros lo; simpl; [trivial|].
  intros [Hlo Hx]. apply Qle_trans with x; auto.
Qed.

Lemma chain_lower lo lo' xs hi : lo' <= lo -> chain lo xs hi -> chain lo' xs hi.
Proof.
  destruct xs as [|x xs]; simpl.
  - intros. now apply Qle_trans with lo.
  - intros Hle [Hlo Hx]. split; [now apply Qle_trans with lo|exact Hx].
Qed.

Lemma chain_upper lo xs hi hi' : hi <= hi' -> chain lo xs hi -> chain lo xs hi'.
Proof.
  revert lo. induction xs as [|x xs IH]; intros lo; simpl.
  - intros. now apply Qle_trans with hi.
  - intros Hle [Hlo Hx]. split; [exact Hlo|now apply IH].
Qed.

Lemma chain_app lo xs mid ys hi :
  chain lo xs mid -> chain mid ys hi -> chain lo (xs ++ ys) hi.
Proof.
  revert lo. induction xs as [|x xs IH]; intros lo; simpl.
  - intros Hle Hys. now apply chain_lower with mid.
  - intros [Hlo Hx] Hys. split; [exact Hlo|now apply IH].
Qed.

Lemma chain_sorted lo xs hi : chain lo xs hi -> Sorted Qle xs.
Proof.
  revert lo. induction xs as [|x xs IH]; intros lo; simpl; [constructor|].
  intros [_ Hx]. constructor; [now apply IH with x|].
  destruct xs as [|y xs]; constructor. now destruct Hx.
Qed.

Lemma chain_Forall lo xs hi :
  chain lo xs hi -> Forall (fun x => lo <= x /\ x <= hi) xs.
Proof.
  revert lo. induction xs as [|x xs IH]; intros lo; simpl; [constructor|].
  intros [Hlo Hx]. constructor.
  - split; [exact Hlo|now apply chain_bounds with xs].
  - apply IH in Hx. eapply List.Forall_impl; [|exact Hx].
    intros y [Hy1 Hy2]. split; [now apply Qle_trans with x|exact Hy2].
Qed.

Lemma interpolate_mono base span total a b :
  0 < total -> 0 <= span -> a <= b ->
  interpolate base span total a <= interpolate base span total b.
Proof.
  intros Ht Hs Hab. unfold interpolate, JS.Math_floor.
  apply Qplus_le_r. rewrite <- Zle_Qle. apply Qfloor_resp_le.
  apply Qmult_le_compat_r; [|exact Hs].
  apply Qmult_le_compat_r; [exact Hab|].
  apply Qlt_le_weak, Qinv_lt_0_compat, Ht.
Qed.

Lemma interpolate_top base (span : Z) total c :
  0 < total -> c * inject_Z span < total * inject_Z (span + 1) ->
  interpolate base (inject_Z span) total c <= base + inject_Z span.
Proof.
  intros Ht Hc. unfold interpolate, JS.Math_floor.
  apply Qplus_le_r. rewrite <- Zle_Qle.
  assert (Hlt : c / total * inject_Z span < inject_Z (span + 1)).
  { unfold Qdiv. rewrite <- Qmult_assoc, (Qmult_comm (/ total)), Qmult_assoc.
    apply Qlt_shift_div_r; [exact Ht|].
    now rewrite (Qmult_comm (inject_Z (span + 1))). }
  assert (Hf : (Qfloor (c / total * inject_Z span) < span + 1)%Z).
  { rewrite Zlt_Qlt. eapply Qle_lt_trans; [apply Qfloor_le|exact Hlt]. }
  lia.
Qed.

Lemma chain_interpolate base (span : Z) total lo xs hi :
  0 < total -> (0 <= span)%Z ->
  hi * inject_Z span < total * inject_Z (span + 1) ->
  chain lo xs hi ->
  chain (interpolate base (inject_Z span) total lo)
        (map (interpolate base (inject_Z span) total) xs)
        (base + inject_Z span).
Proof.
  intros Ht Hs Hhi. 
  assert (Hs' : 0 <= inject_Z span) by (change 0 with (inject_Z 0); now rewrite <- Zle_Qle).
  revert lo. induction xs as [|x xs IH]; intros lo; simpl.
  - intros Hle. apply interpolate_top; [exact Ht|].
    eapply Qle_lt_trans; [|exact Hhi].
    now apply Qmult_le_compat_r.
  - intros [Hlo Hx]. split; [now apply interpolate_mono|now apply IH].
Qed.
End ChainFacts.

(* ===================================================================== *)
(** * The counts reported by the fetch loops *)
(* ===================================================================== *)

Section Counts.
Import Eff GitHub Logic.

Lemma ltb_length {A} (xs : list A) (z : Z) :
  JS.ltb (JS.length xs) (inject_Z z) = true <-> (Z.of_nat (List.length xs) < z)%Z.
Proof. rewrite ltb_lt. unfold JS.length. now rewrite <- Zlt_Qlt. Qed.

Lemma ltb_length_false {A} (xs : list A) (z : Z) :
  JS.ltb (JS.length xs) (inject_Z z) = false <-> (z <= Z.of_nat (List.length xs))%Z.
Proof. rewrite ltb_ge. unfold JS.length. now rewrite <- Zle_Qle. Qed.

Lemma length_le {A} (xs ys : list A) :
  JS.length xs <= JS.length ys <-> (List.length xs <= List.length ys)%nat.
Proof. unfold JS.length. rewrite <- Zle_Qle. lia. Qed.

Lemma length_le_Z {A} (xs : list A) (z : Z) :
  JS.length xs <= inject_Z z <-> (Z.of_nat (List.length xs) <= z)%Z.
Proof. unfold JS.length. now rewrite <- Zle_Qle. Qed.

Lemma length_app_le {A} (xs ys : list A) : JS.length xs <= JS.length (xs ++ ys).
Proof. apply length_le. rewrite length_app. lia. Qed.

Lemma issueCounts_chain pages perPage issues :
  Forall (fun c => c <= 549) (events (fetchIssues_from pages perPage record issues)) ->
  JS.length issues <= 549 ->
  chain (JS.length issues) (events (fetchIssues_from pages perPage record issues)) 549.
Proof.
  revert issues. induction pages as [|reply pages IH]; intros issues; simpl.
  - now destruct (negb _).
  - destruct (negb (JS.ltb (JS.length issues) 500)); [now simpl|].
    destruct reply as [response|error]; simpl; [|trivial].
    destruct (negb (ok response)); [now destruct (status response =? 404)%Z|].
    destruct (Qeq_bool _ 0); [now simpl|].
    specialize (IH (issues ++ List.filter (fun issue => negb (pull_request issue))
                                          (json response))%list).
    destruct (JS.ltb (JS.length (json response)) perPage);
      [|destruct (fetchIssues_from pages perPage record _) as [es o]];
      simpl in *; intros Hall Hacc; apply Forall_cons in Hall as [Hc Hall];
      (split; [apply length_app_le|auto]).
Qed.

Lemma filter_nothing (data : list GitHubIssue) :
  Forall (fun issue => pull_request issue = false) data ->
  List.filter (fun issue => negb (pull_request issue)) data = data.
Proof.
  induction 1 as [|issue data Hissue _ IH]; simpl; [reflexivity|].
  now rewrite Hissue, IH.
Qed.

(** Without pull requests among the items the loop of the issues stops at
    500 issues. *)
Lemma issueCounts_without_pull_requests pages issues :
  Forall wellSized pages -> Forall pullRequestFree pages ->
  (exists k, List.length issues = 100 * k /\ k <= 5)%nat ->
  chain (JS.length issues) (events (fetchIssues_from pages 100 record issues)) 500.
Proof.
  revert issues.
  induction pages as [|reply pages IH]; intros issues Hpages Hfree (k & Hk & Hk5).
  - simpl. destruct (negb _); simpl; apply (length_le_Z _ 500); lia.
  - apply Forall_cons in Hpages as [Hpage Hpages].
    apply Forall_cons in Hfree as [Hnone Hfree].
    assert (Hbase : JS.length issues <= 500) by (apply (length_le_Z _ 500); lia).
    simpl. destruct (JS.ltb (JS.length issues) 500) eqn:Hlt; simpl; [|exact Hbase].
    apply (ltb_length _ 500) in Hlt.
    destruct reply as [response|error]; simpl; [|exact Hbase].
    destruct (negb (ok response)); [now destruct (status response =? 404)%Z|].
    destruct (Qeq_bool _ 0); [exact Hbase|].
    simpl in Hpage, Hnone. rewrite (filter_nothing Hnone).
    assert (Hnew : (List.length (issues ++ json response) <= 500)%nat)
      by (rewrite length_app; lia).
    specialize (IH (issues ++ json response)%list Hpages Hfree).
    destruct (JS.ltb (JS.length (json response)) 100) eqn:Hshort;
      [|destruct (fetchIssues_from pages 100 record _) as [es o]];
      simpl in *; (split; [apply length_app_le|]).
    + apply (length_le_Z _ 500). lia.
    + apply IH. apply (ltb_length_false _ 100) in Hshort.
      exists (S k). rewrite length_app. lia.
Qed.

(** So the bound of 549 held issues is met by every listing that has no
    pull request in it. *)
Lemma issues_within_limit_without_pull_requests pages :
  Forall wellSized pages -> Forall pullRequestFree pages ->
  Forall (fun current => current <= 549) (events (fetchIssues pages 100 record)).
Proof.
  intros Hpages Hfree. unfold fetchIssues.
  assert (Hchain : chain (JS.length (@nil GitHubIssue))
                         (events (fetchIssues_from pages 100 record [])) 500).
  { apply issueCounts_without_pull_requests; [exact Hpages|exact Hfree|].
    exists 0%nat. simpl. lia. }
  apply chain_Forall in Hchain.
  eapply List.Forall_impl; [|exact Hchain].
  intros current [_ Hle]. apply Qle_trans with 500; [exact Hle|q_order].
Qed.

Lemma filter_length_le {A} (p : A -> bool) (xs : list A) :
  (List.length (List.filter p xs) <= List.length xs)%nat.
Proof.
  induction xs as [|x xs IH]; simpl; [lia|]. destruct (p x); simpl; lia.
Qed.

Lemma releaseCounts_chain pages releases :
  Forall wellSized pages ->
  (List.length releases <= 1099)%nat ->
  chain (JS.length releases)
        (events (fetchReleases_from pages 1000 record releases)) 1099.
Proof.
  revert releases. induction pages as [|reply pages IH]; intros releases Hpages Hacc.
  - simpl. destruct (negb _); simpl; apply (length_le_Z _ 1099); lia.
  - apply Forall_cons in Hpages as [Hpage Hpages].
    assert (Hbase : JS.length releases <= 1099) by (apply (length_le_Z _ 1099); lia).
    simpl. destruct (JS.ltb (JS.length releases) 1000) eqn:Hlt; simpl; [|exact Hbase].
    apply (ltb_length _ 1000) in Hlt.
    destruct reply as [response|error]; simpl; [|exact Hbase].
    destruct (negb (ok response));
      [now destruct ((status response =? 504)%Z || (500 <=? status response)%Z)|].
    destruct (Qeq_bool _ 0); [exact Hbase|].
    simpl in Hpage.
    set (validReleases := List.filter _ (json response)).
    assert (Hvalid : (List.length validReleases <= 100)%nat).
    { pose proof (filter_length_le (fun release => negb (draft release)) (json response)).
      subst validReleases. lia. }
    assert (Hnew : (List.length (releases ++ validReleases) <= 1099)%nat)
      by (rewrite length_app; lia).
    specialize (IH (releases ++ validReleases)%list Hpages Hnew).
    destruct (JS.ltb (JS.length (json response)) 100);
      [|destruct (fetchReleases_from pages 1000 record _) as [es o]];
      simpl in *; (split; [apply length_app_le|]).
    + apply (length_le_Z _ 1099). lia.
    + exact IH.
Qed.

Lemma commitCounts_chain pages commits :
  Forall wellSized pages ->
  (exists k, List.length commits = 100 * k /\ k <= 10)%nat ->
  chain (JS.length commits)
        (events (fetchCommits_from pages record commits)) 1000.
Proof.
  revert commits. induction pages as [|reply pages IH]; intros commits Hpages (k & Hk & Hk10).
  - simpl. destruct (negb _); simpl; apply (length_le_Z _ 1000); lia.
  - apply Forall_cons in Hpages as [Hpage Hpages].
    assert (Hbase : JS.length commits <= 1000) by (apply (length_le_Z _ 1000); lia).
    simpl. destruct (JS.ltb (JS.length commits) 1000) eqn:Hlt; simpl; [|exact Hbase].
    apply (ltb_length _ 1000) in Hlt.
    destruct reply as [response|error]; simpl; [|exact Hbase].
    destruct (negb (ok response));
      [now destruct ((status response =? 504)%Z || (500 <=? status response)%Z)|].
    destruct (Qeq_bool _ 0); [exact Hbase|].
    simpl in Hpage.
    assert (Hnew : (List.length (commits ++ json response) <= 1000)%nat)
      by (rewrite length_app; lia).
    specialize (IH (commits ++ json response)%list Hpages).
    destruct (JS.ltb (JS.length (json response)) 100) eqn:Hshort;
      [|destruct (fetchCommits_from pages record _) as [es o]];
      simpl in *; (split; [apply length_app_le|]).
    + apply (length_le_Z _ 1000). lia.
    + apply IH. apply (ltb_length_false _ 100) in Hshort.
      exists (S k). rewrite length_app. lia.
Qed.
End Counts.

(* ===================================================================== *)
(** * Rules for runs *)
(* ===================================================================== *)

Ltac q_le := solve [apply Qle_refl | unfold Qle; simpl; lia].

Section Rules.
Import Eff Logic Metrics.
Context {A B : Type}.

Lemma climbs_silent lo hi (m : M AnalysisStatus A) :
  events m = [] -> lo <= hi -> climbs lo hi m.
Proof. unfold climbs. now intros ->. Qed.

Lemma climbs_ret lo hi (a : A) : lo <= hi -> climbs lo hi (ret a).
Proof. now apply climbs_silent. Qed.

Lemma climbs_onProgress lo hi step message p :
  lo <= p -> p <= hi -> climbs lo hi (onProgress step message p).
Proof. unfold climbs. simpl. tauto. Qed.

Lemma climbs_bind lo mid hi (m : M AnalysisStatus A) (k : A -> M AnalysisStatus B) :
  climbs lo mid m -> mid <= hi -> (forall a, climbs mid hi (k a)) ->
  climbs lo hi (bind m k).
Proof.
  unfold climbs. intros Hm Hle Hk. rewrite events_bind, map_app.
  apply chain_app with mid; [exact Hm|].
  destruct (outcome m) as [a|error]; [apply Hk|exact Hle].
Qed.

Lemma climbs_try_catch lo mid hi (m : M AnalysisStatus A) (h : string -> M AnalysisStatus A) :
  climbs lo mid m -> mid <= hi -> (forall error, climbs mid hi (h error)) ->
  climbs lo hi (try_catch m h).
Proof.
  unfold climbs. intros Hm Hle Hh. rewrite events_try_catch, map_app.
  apply chain_app with mid; [exact Hm|].
  destruct (outcome m) as [a|error]; [exact Hle|apply Hh].
Qed.

Lemma climbs_weaken lo lo' hi hi' (m : M AnalysisStatus A) :
  climbs lo hi m -> lo' <= lo -> hi <= hi' -> climbs lo' hi' m.
Proof.
  unfold climbs. intros Hm Hlo Hhi.
  now apply chain_lower with lo, chain_upper with hi.
Qed.

Lemma returns_ret {E} (a : A) (P : A -> Prop) : P a -> returns (ret (E:=E) a) P.
Proof. trivial. Qed.

Lemma returns_bind {E} (m : M E A) (k : A -> M E B) (Q : A -> Prop) (P : B -> Prop) :
  returns m Q -> (forall a, Q a -> returns (k a) P) -> returns (bind m k) P.
Proof.
  unfold returns. rewrite outcome_bind.
  destruct (outcome m) as [a|error]; [|tauto]. intros Ha Hk. now apply Hk.
Qed.

Lemma returns_try_catch {E} (m : M E A) (h : string -> M E A) (P : A -> Prop) :
  (forall a, outcome m = Returned a -> P a) ->
  (forall error, outcome m = Thrown error -> returns (h error) P) ->
  returns (try_catch m h) P.
Proof.
  unfold returns. rewrite outcome_try_catch.
  destruct (outcome m) as [a|error]; intros Ha Hh; [now apply Ha|now apply Hh].
Qed.

Lemma finishes_bind (m : M AnalysisStatus A) (k : A -> M AnalysisStatus B) :
  (forall a, finishes (k a)) -> finishes (bind m k).
Proof.
  unfold finishes. intros Hk b. rewrite outcome_bind, events_bind.
  destruct (outcome m) as [a|error]; [|discriminate].
  intros Hb. destruct (Hk a b Hb) as (es & e & -> & He).
  exists (events m ++ es), e. now rewrite app_assoc.
Qed.
End Rules.

Section Steps.
Import Eff Logic Metrics GitHub.

(** The events of a fetch loop, through its recorded counts. *)
Lemma progress_flat_map step (message : Q -> string) (pct : Q -> Q) (counts : list Q) :
  map progress
    (flat_map
       (fun current =>
          [{| Metrics.step := step; Metrics.message := message current;
              progress := pct current |}])
       counts)
  = map pct counts.
Proof. induction counts as [|c counts IH]; simpl in *; [reflexivity|now f_equal]. Qed.

Lemma fetchIssues_climbs step (message : Q -> string) pages :
  Forall (fun c => c <= 549) (events (fetchIssues pages 100 record)) ->
  climbs 20 30
    (fetchIssues pages 100
       (fun current total =>
          onProgress step (message current)
            (20 + JS.Math_floor ((current / total) * 10)))).
Proof.
  intros Hcounts. unfold climbs, fetchIssues in *.
  rewrite fetchIssues_from_callback by reflexivity. unfold events at 1. simpl fst.
  rewrite (progress_flat_map step message
             (fun current => 20 + JS.Math_floor ((current / 500) * 10))).
  apply issueCounts_chain in Hcounts; [|q_le].
  apply (chain_interpolate 20 (span := 10) (total := 500)) in Hcounts;
    [exact Hcounts|reflexivity|lia|reflexivity].
Qed.

Lemma fetchCommits_climbs step (message : Q -> string) pages :
  Forall wellSized pages ->
  climbs 40 55
    (fetchCommits pages
       (fun current total =>
          onProgress step (message current)
            (40 + JS.Math_floor ((current / total) * 15)))).
Proof.
  intros Hpages. unfold climbs, fetchCommits.
  rewrite fetchCommits_from_callback by reflexivity. unfold events at 1. simpl fst.
  rewrite (progress_flat_map step message
             (fun current => 40 + JS.Math_floor ((current / 1000) * 15))).
  assert (Hcounts : chain (JS.length (@nil GitHubCommit))
                       (events (fetchCommits_from pages record [])) 1000).
  { apply commitCounts_chain; [exact Hpages|]. exists 0%nat. simpl. lia. }
  apply (chain_interpolate 40 (span := 15) (total := 1000)) in Hcounts;
    [exact Hcounts|reflexivity|lia|reflexivity].
Qed.

Lemma fetchReleases_climbs step (message : Q -> string) pages :
  Forall wellSized pages ->
  climbs 55 65
    (fetchReleases pages 1000
       (fun current total =>
          onProgress step (message current)
            (55 + JS.Math_floor ((current / total) * 10)))).
Proof.
  intros Hpages. unfold climbs, fetchReleases.
  rewrite fetchReleases_from_callback by reflexivity. unfold events at 1. simpl fst.
  rewrite (progress_flat_map step message
             (fun current => 55 + JS.Math_floor ((current / 1000) * 10))).
  assert (Hcounts : chain (JS.length (@nil GitHubRelease))
                       (events (fetchReleases_from pages 1000 record [])) 1099).
  { apply releaseCounts_chain; [exact Hpages|simpl; lia]. }
  apply (chain_interpolate 55 (span := 10) (total := 1000)) in Hcounts;
    [exact Hcounts|reflexivity|lia|reflexivity].
Qed.
End Steps.

(* ===================================================================== *)
(** * The requests that report no progress *)
(* ===================================================================== *)

Section Silent.
Import Eff Logic Metrics GitHub.
Context {E : Type}.
Local Arguments bind : simpl never.
Local Arguments try_catch : simpl never.
Local Arguments ret : simpl never.
Local Arguments await : simpl never.


Lemma silent_ret {A} (a : A) : silent (ret (E:=E) a).
Proof. reflexivity. Qed.
Lemma silent_throw {A} error : silent (throw (E:=E) (A:=A) error).
Proof. reflexivity. Qed.
Lemma silent_await {A} (o : Outcome A) : silent (await (E:=E) o).
Proof. reflexivity. Qed.
Lemma silent_bind {A B} (m : M E A) (k : A -> M E B) :
  silent m -> (forall a, silent (k a)) -> silent (bind m k).
Proof.
  unfold silent. intros Hm Hk. rewrite events_bind, Hm.
  destruct (outcome m); [apply Hk|reflexivity].
Qed.
Lemma silent_try_catch {A} (m : M E A) (h : string -> M E A) :
  silent m -> (forall error, silent (h error)) -> silent (try_catch m h).
Proof.
  unfold silent. intros Hm Hh. rewrite events_try_catch, Hm.
  destruct (outcome m); [reflexivity|apply Hh].
Qed.

Ltac quiet_run :=
  repeat first
    [ apply silent_ret | apply silent_throw | apply silent_await
    | apply silent_bind | apply silent_try_catch | intro
    | match goal with
      | |- silent (if ?c then _ else _) => destruct c
      | |- silent (match ?x with _ => _ end) => destruct x
      end ].

Lemma fetchRepository_silent reply owner repo :
  silent (fetchRepository (E:=E) reply owner repo).
Proof. unfold fetchRepository. quiet_run. Qed.

Lemma fetchIssueComments_silent reply : silent (fetchIssueComments (E:=E) reply).
Proof. unfold fetchIssueComments. quiet_run. Qed.

Lemma fetchLanguages_silent reply : silent (fetchLanguages (E:=E) reply).
Proof. unfold fetchLanguages. quiet_run. Qed.

Lemma fetchOpenPullRequestsCount_silent reply :
  silent (fetchOpenPullRequestsCount (E:=E) reply).
Proof. unfold fetchOpenPullRequestsCount. quiet_run. Qed.

Lemma fetchPRStats_silent r1 r2 : silent (fetchPRStats (E:=E) r1 r2).
Proof. unfold fetchPRStats. quiet_run. Qed.

Lemma fetchStarGrowth_silent getTime now reply :
  silent (fetchStarGrowth (E:=E) getTime now reply).
Proof. unfold fetchStarGrowth. quiet_run. Qed.

Lemma codeFrequency_poll_silent {B} (polls : nat -> Reply B) todo attempts :
  silent (codeFrequency_poll (E:=E) polls todo attempts).
Proof.
  revert attempts. induction todo as [|todo IH]; intros attempts; simpl.
  - apply silent_ret.
  - apply silent_bind; [apply silent_await|]. intros response.
    destruct (status response =? 202)%Z; [|apply silent_ret].
    destruct (S attempts <? 3)%nat; [apply IH|apply silent_ret].
Qed.

Lemma fetchCodeFrequency_silent polls : silent (fetchCodeFrequency (E:=E) polls).
Proof.
  unfold fetchCodeFrequency.
  apply silent_try_catch; [|intros; apply silent_ret].
  apply silent_bind; [apply codeFrequency_poll_silent|].
  intros [response|]; [|apply silent_ret].
  destruct (negb (ok response) || (status response =? 202)%Z); [apply silent_ret|].
  destruct (json response) as [data|]; [|apply silent_ret].
  destruct (Qeq_bool (JS.length data) 0); [apply silent_ret|].
  destruct (fold_left _ _ _). apply silent_ret.
Qed.

Lemma calculateIssueResponseTime_silent getTime commentsOf issue :
  silent (calculateIssueResponseTime (E:=E) getTime commentsOf issue).
Proof.
  unfold calculateIssueResponseTime.
  apply silent_try_catch; [|intros; apply silent_ret].
  apply silent_bind; [apply fetchIssueComments_silent|]. intros comments.
  quiet_run.
Qed.

Lemma collectResponseTimes_silent getTime commentsOf closedIssues responseTimes :
  silent (collectResponseTimes (E:=E) getTime commentsOf closedIssues responseTimes).
Proof.
  revert responseTimes. induction closedIssues as [|issue rest IH]; intros responseTimes; simpl.
  - apply silent_ret.
  - apply silent_bind; [apply calculateIssueResponseTime_silent|].
    intros responseTime. apply IH.
Qed.

Lemma calculateMedianIssueResponseTime_silent getTime commentsOf issues :
  silent (calculateMedianIssueResponseTime (E:=E) getTime commentsOf issues).
Proof.
  unfold calculateMedianIssueResponseTime.
  destruct (Qeq_bool _ 0); [apply silent_ret|].
  apply silent_bind; [apply collectResponseTimes_silent|].
  intros. apply silent_ret.
Qed.
End Silent.

(* ===================================================================== *)
(** * The orchestrator *)
(* ===================================================================== *)

Section Progress.
Import Eff Logic Metrics.
Variable getTime : string -> Z.
Variable w : World.
Variables owner repo : string.

Ltac climb v := eapply climbs_bind with (mid := v); [ | q_le | intros ? ].
Ltac climb_try v := eapply climbs_try_catch with (mid := v); [ | q_le | intros ? ].
Ltac tick := apply climbs_onProgress; q_le.
Ltac hush lemma := apply climbs_silent; [apply lemma | q_le].
Ltac done_ret := apply climbs_ret; q_le.

Lemma analyzeRepository_climbs :
  Forall (fun c => c <= 549) (events (GitHub.fetchIssues (issuePages w) 100 record)) ->
  Forall wellSized (commitPages w) ->
  Forall wellSized (releasePages w) ->
  climbs 0 100 (analyzeRepository getTime w owner repo).
Proof.
  intros Hissues Hcommits Hreleases. unfold analyzeRepository.
  climb 0; [tick|].
  climb 15.
  { climb_try 15; [|hush (@silent_throw AnalysisStatus GitHub.GitHubRepository)].
    climb 10; [tick|].
    climb 10; [hush (@fetchRepository_silent AnalysisStatus)|].
    climb 15; [tick|done_ret]. }
  climb 30.
  { climb_try 30.
    - climb 20; [tick|].
      climb 30; [now apply fetchIssues_climbs|].
      climb 30; [tick|done_ret].
    - climb 30; [tick|done_ret]. }
  climb 32.
  { climb_try 32; [|done_ret].
    climb 32; [tick|].
    climb 32; [hush (@silent_await AnalysisStatus (GitHub.Response Q))|].
    destruct (GitHub.ok _); done_ret. }
  match goal with p : (Q * Q)%type |- _ => destruct p as [openIssuesCount closedIssuesCount] end.
  climb 55.
  { climb_try 55.
    - climb 40; [tick|].
      climb 55; [now apply fetchCommits_climbs|].
      climb 55; [tick|done_ret].
    - climb 55; [tick|done_ret]. }
  climb 65.
  { climb_try 65.
    - climb 55; [tick|].
      climb 65; [now apply fetchReleases_climbs|].
      climb 65; [tick|done_ret].
    - climb 65; [tick|done_ret]. }
  climb 85.
  { destruct (JS.gtb _ 0); [|done_ret].
    climb_try 85.
    - climb 70; [tick|].
      climb 70; [hush (@calculateMedianIssueResponseTime_silent AnalysisStatus)|].
      climb 85; [tick|done_ret].
    - climb 85; [tick|done_ret]. }
  cbv zeta.
  climb 87.
  { climb_try 87; [|done_ret].
    climb 87; [tick|].
    climb 87; [hush (@fetchLanguages_silent AnalysisStatus)|].
    climb_try 87; [|done_ret].
    climb 87; [hush (@fetchOpenPullRequestsCount_silent AnalysisStatus)|done_ret]. }
  match goal with p : (GitHub.Languages * Q)%type |- _ => destruct p as [languages openPullRequests] end.
  climb 96.
  { climb_try 96; [|done_ret].
    climb 90; [tick|].
    climb 90; [hush (@fetchStarGrowth_silent AnalysisStatus)|].
    climb_try 96; [|done_ret].
    climb 93; [tick|].
    climb 93; [hush (@fetchPRStats_silent AnalysisStatus)|].
    climb_try 96; [|done_ret].
    climb 96; [tick|].
    climb 96; [hush (@fetchCodeFrequency_silent AnalysisStatus)|done_ret]. }
  match goal with p : (_ * _ * _)%type |- _ => destruct p as [[starGrowth prStats] codeFreq] end.
  climb 98; [tick|].
  climb 100; [tick|done_ret].
Qed.

Lemma analyzeRepository_starts :
  exists es, map progress (events (analyzeRepository getTime w owner repo)) = 0 :: es.
Proof.
  unfold analyzeRepository. rewrite events_bind. simpl.
  eexists. reflexivity.
Qed.

Lemma finishes_complete {A} step message (a : A) :
  finishes (bind (onProgress step message 100) (fun _ => ret a)).
Proof.
  intros a' _. exists [], {| step := step; message := message; progress := 100 |}.
  split; reflexivity.
Qed.

Lemma analyzeRepository_finishes : finishes (analyzeRepository getTime w owner repo).
Proof.
  unfold analyzeRepository.
  repeat first
    [ apply finishes_complete
    | apply finishes_bind; intros ?;
      repeat match goal with p : (_ * _)%type |- _ => destruct p end;
      cbv zeta ].
Qed.

Lemma analyzeRepository_aborts error :
  outcome (GitHub.fetchRepository (E:=AnalysisStatus) (repositoryReply w) owner repo)
    = Thrown error ->
  map progress (events (analyzeRepository getTime w owner repo)) = [0; 10]
  /\ outcome (analyzeRepository getTime w owner repo)
     = Thrown ("Failed to fetch repository: " ++ error)%string.
Proof.
  intros Hrepo. unfold analyzeRepository.
  pose proof (fetchRepository_silent (E:=AnalysisStatus) (repositoryReply w) owner repo) as Hsilent.
  unfold silent in Hsilent.
  rewrite (run_eta (GitHub.fetchRepository _ _ _)), Hrepo, Hsilent.
  split; reflexivity.
Qed.
End Progress.



Section Degraded.
Import Eff Logic Metrics.
Variable getTime : string -> Z.
Variable w : World.
Variables owner repo : string.

Lemma optional_fetch_outcome {X} (fetch : M AnalysisStatus (list X))
    s1 m1 p1 (m2 : list X -> string) p2 m3 p3 :
  outcome
    (try_catch
       (bind (onProgress s1 m1 p1)
          (fun _ => bind fetch
             (fun xs => bind (onProgress s1 (m2 xs) p2) (fun _ => ret xs))))
       (fun _ => bind (onProgress s1 m3 p3) (fun _ => ret [])))
  = Returned match outcome fetch with
             | Returned xs => xs
             | Thrown _ => []
             end.
Proof. destruct fetch as [es [xs|error]]; reflexivity. Qed.

Lemma fetchIssues_outcome {E} (cb : Q -> Q -> M E unit) pages perPage :
  (forall current total, outcome (cb current total) = Returned tt) ->
  outcome (GitHub.fetchIssues pages perPage cb)
  = outcome (GitHub.fetchIssues pages perPage quiet).
Proof.
  intros Hcb. unfold GitHub.fetchIssues.
  rewrite (fetchIssues_from_callback cb Hcb), (fetchIssues_from_callback quiet);
    reflexivity.
Qed.

Lemma fetchCommits_outcome {E} (cb : Q -> Q -> M E unit) pages :
  (forall current total, outcome (cb current total) = Returned tt) ->
  outcome (GitHub.fetchCommits pages cb)
  = outcome (GitHub.fetchCommits pages quiet).
Proof.
  intros Hcb. unfold GitHub.fetchCommits.
  rewrite (fetchCommits_from_callback cb Hcb), (fetchCommits_from_callback quiet);
    reflexivity.
Qed.

Lemma fetchReleases_outcome {E} (cb : Q -> Q -> M E unit) pages limit :
  (forall current total, outcome (cb current total) = Returned tt) ->
  outcome (GitHub.fetchReleases pages limit cb)
  = outcome (GitHub.fetchReleases pages limit quiet).
Proof.
  intros Hcb. unfold GitHub.fetchReleases.
  rewrite (fetchReleases_from_callback cb Hcb), (fetchReleases_from_callback quiet);
    reflexivity.
Qed.

Lemma fetchLanguages_outcome {E1 E2} reply :
  outcome (GitHub.fetchLanguages (E:=E1) reply)
  = outcome (GitHub.fetchLanguages (E:=E2) reply).
Proof.
  unfold GitHub.fetchLanguages. destruct reply as [response|error]; simpl; [|reflexivity].
  now destruct (negb (GitHub.ok response)).
Qed.

Lemma fetchOpenPullRequestsCount_outcome {E1 E2} reply :
  outcome (GitHub.fetchOpenPullRequestsCount (E:=E1) reply)
  = outcome (GitHub.fetchOpenPullRequestsCount (E:=E2) reply).
Proof.
  unfold GitHub.fetchOpenPullRequestsCount.
  destruct reply as [response|error]; simpl; [|reflexivity].
  now destruct (negb (GitHub.ok response)).
Qed.

Lemma analyzeRepository_degraded repository :
  outcome (GitHub.fetchRepository (E:=AnalysisStatus) (repositoryReply w) owner repo)
    = Returned repository ->
  returns (analyzeRepository getTime w owner repo) (degraded w owner repository).
Proof.
  intros Hrepo. unfold analyzeRepository.
  eapply returns_bind with (Q := fun _ => True); [exact I|intros _ _].
  eapply returns_bind with (Q := fun r => r = repository).
  { apply returns_try_catch.
    - intros r Hr. rewrite !outcome_bind in Hr. simpl in Hr. rewrite Hrepo in Hr.
      simpl in Hr. congruence.
    - intros error Herr. rewrite !outcome_bind in Herr. simpl in Herr.
      rewrite Hrepo in Herr. discriminate Herr. }
  intros ? ->.
  eapply returns_bind with (Q := fun issues => issuesFetchFails w -> issues = []).
  { unfold returns. rewrite optional_fetch_outcome.
    intros [error Herror]. rewrite fetchIssues_outcome by reflexivity.
    now rewrite Herror. }
  intros issues Hissues.
  eapply returns_bind with (Q := fun _ => True).
  { apply returns_try_catch; [trivial|]. intros. exact I. }
  intros [openIssuesCount closedIssuesCount] _.
  eapply returns_bind with (Q := fun commits => commitsFetchFails w -> commits = []).
  { unfold returns. rewrite optional_fetch_outcome.
    intros [error Herror]. rewrite fetchCommits_outcome by reflexivity.
    now rewrite Herror. }
  intros commits Hcommits.
  eapply returns_bind with (Q := fun releases => releasesFetchFails w -> releases = []).
  { unfold returns. rewrite optional_fetch_outcome.
    intros [error Herror]. rewrite fetchReleases_outcome by reflexivity.
    now rewrite Herror. }
  intros releases Hreleases.
  eapply returns_bind with (Q := fun median => issues = [] -> median = None).
  { destruct issues as [|issue issues]; [now simpl|].
    rewrite length_positive.
    apply returns_try_catch; [intros; discriminate|].
    intros error _. unfold returns. simpl. intros; discriminate. }
  intros median Hmedian. cbv zeta.
  eapply returns_bind
    with (Q := fun '(languages, openPullRequests) =>
                 (languagesFetchFails w -> languages = [] /\ openPullRequests = 0)
                 /\ (openPullRequestsFetchFails w -> openPullRequests = 0)).
  { unfold languagesFetchFails, openPullRequestsFetchFails.
    rewrite (fetchLanguages_outcome (E1:=unit) (E2:=AnalysisStatus)).
    rewrite (fetchOpenPullRequestsCount_outcome (E1:=unit) (E2:=AnalysisStatus)).
    destruct (GitHub.fetchLanguages (languagesReply w)) as [es1 [languages|e1]];
      destruct (GitHub.fetchOpenPullRequestsCount (openPullRequestsReply w))
        as [es2 [openPullRequests|e2]];
      unfold returns; simpl; split; intros [error Hf]; try discriminate Hf;
      try split; reflexivity. }
  intros [languages openPullRequests] [Hlanguages HopenPRs].
  eapply returns_bind with (Q := fun _ => True).
  { apply returns_try_catch; [trivial|]. intros. exact I. }
  intros [[starGrowth prStats] codeFreq] _.
  unfold returns, degraded. simpl.
  repeat match goal with |- _ /\ _ => split end; try reflexivity.
  - intros Hf. apply Hmedian, Hissues, Hf.
  - intros Hf. rewrite (Hcommits Hf). repeat split.
  - intros Hf. rewrite (Hreleases Hf). repeat split.
  - exact Hlanguages.
  - exact HopenPRs.
Qed.
End Degraded.

Section Orchestration.
Import Eff Logic Metrics.
Variable getTime : string -> Z.
Variable w : World.
Variables owner repo : string.

(** C5. [analyzeRepository] throws exactly when the fetch of the repository
    throws.  When that fetch returns, the run returns a record, whatever
    the other requests do: a step that fails leaves its default in the
    record, and when the fetch of the commits fails the record has 0
    commits, a top-contributor ratio of 0 and every other field. *)
Theorem analyzeRepository_fails_only_on_repository :
  let run := analyzeRepository getTime w owner repo in
  let repositoryFetch :=
    GitHub.fetchRepository (E:=AnalysisStatus) (repositoryReply w) owner repo in
  (forall error : string,
     outcome run = Thrown error <->
     exists cause : string,
       outcome repositoryFetch = Thrown cause
       /\ error = ("Failed to fetch repository: " ++ cause)%string)
  /\ (forall repository : GitHub.GitHubRepository,
        outcome repositoryFetch = Returned repository ->
        exists metrics : RepositoryMetrics.t,
          outcome run = Returned metrics
          /\ degraded w owner repository metrics
          /\ (commitsFetchFails w ->
              MetricsData.totalCommitsLast90Days (RepositoryMetrics.data metrics) = 0
              /\ MetricsData.topContributorRatio (RepositoryMetrics.data metrics) = 0)).
Proof.
  cbv zeta. split.
  - intros error. split.
    + intros Hthrown.
      destruct (outcome (GitHub.fetchRepository (repositoryReply w) owner repo))
        as [repository|cause] eqn:Hrepo.
      * pose proof (analyzeRepository_degraded getTime w owner repo Hrepo) as Hrun.
        unfold returns in Hrun. rewrite Hthrown in Hrun. contradiction.
      * exists cause. split; [reflexivity|].
        destruct (analyzeRepository_aborts getTime w owner repo Hrepo) as [_ Hout].
        congruence.
    + intros (cause & Hrepo & ->).
      now destruct (analyzeRepository_aborts getTime w owner repo Hrepo).
  - intros repository Hrepo.
    pose proof (analyzeRepository_degraded getTime w owner repo Hrepo) as Hrun.
    unfold returns in Hrun.
    destruct (outcome (analyzeRepository getTime w owner repo))
      as [metrics|error]; [|contradiction].
    exists metrics. split; [reflexivity|]. split; [exact Hrun|].
    intros Hfails.
    destruct Hrun as (_ & _ & _ & _ & _ & _ & Hcommits & _).
    destruct (Hcommits Hfails) as (Htotal & Hratio & _). now split.
Qed.

(** C6, as the code has it.  When every page of commits and releases has
    at most 100 items and the loop of the issues never holds more than 549
    issues, the progress values of a run never decrease, lie between 0 and
    100 and start at 0; they end at 100 when the run returns, and they are
    0, 10 when the run throws, which is when the fetch of the repository
    fails. *)
Theorem analyzeRepository_progress :
  Forall (fun current => current <= 549)
         (events (GitHub.fetchIssues (issuePages w) 100 record)) ->
  Forall wellSized (commitPages w) ->
  Forall wellSized (releasePages w) ->
  let run := analyzeRepository getTime w owner repo in
  let percentages := map progress (events run) in
  Spec.nonDecreasing percentages
  /\ Forall (fun p => 0 <= p /\ p <= 100) percentages
  /\ (exists rest, percentages = 0 :: rest)
  /\ (forall metrics, outcome run = Returned metrics ->
        exists front, percentages = front ++ [100])
  /\ (forall error, outcome run = Thrown error -> percentages = [0; 10]).
Proof.
  intros Hissues Hcommits Hreleases. cbv zeta.
  pose proof (@analyzeRepository_climbs getTime w owner repo Hissues Hcommits Hreleases)
    as Hclimbs.
  unfold climbs in Hclimbs.
  split; [eapply chain_sorted; exact Hclimbs|].
  split; [eapply chain_Forall; exact Hclimbs|].
  split; [apply analyzeRepository_starts|].
  split.
  - intros metrics Hreturned.
    destruct (analyzeRepository_finishes getTime w owner repo Hreturned)
      as (es & e & Hevents & He).
    exists (map progress es). rewrite Hevents, map_app. simpl. now rewrite He.
  - intros error Hthrown.
    destruct (outcome (GitHub.fetchRepository (E:=AnalysisStatus)
                         (repositoryReply w) owner repo))
      as [repository|cause] eqn:Hrepo.
    + pose proof (analyzeRepository_degraded getTime w owner repo Hrepo) as Hrun.
      unfold returns in Hrun. rewrite Hthrown in Hrun. contradiction.
    + now destruct (analyzeRepository_aborts getTime w owner repo Hrepo).
Qed.

End Orchestration.

(** When the commits request is refused, the run still returns, with no
    commits and a top-contributor ratio of 0. *)
Lemma analyzeRepository_fails_only_on_repository_witness :
  exists metrics : RepositoryMetrics.t,
    Eff.outcome (Metrics.analyzeRepository Examples.epoch Examples.commitsRefused
                   "octo" "pulse")
    = Eff.Returned metrics
    /\ MetricsData.totalCommitsLast90Days (RepositoryMetrics.data metrics) = 0
    /\ MetricsData.topContributorRatio (RepositoryMetrics.data metrics) = 0.
Proof.
  destruct (analyzeRepository_fails_only_on_repository
              Examples.epoch Examples.commitsRefused "octo" "pulse") as [_ Hreturns].
  destruct (Hreturns Examples.repository eq_refl) as (metrics & Hrun & _ & Hcommits).
  exists metrics. split; [exact Hrun|].
  apply Hcommits. exists "Failed to fetch commits: 403"%string. reflexivity.
Defined.

(** Two full pages of issues, then nothing: the progress climbs to 100. *)
Lemma analyzeRepository_progress_witness :
  Spec.nonDecreasing
    (map Metrics.progress
       (Eff.events (Metrics.analyzeRepository Examples.epoch Examples.twoPages
                      "octo" "pulse"))).
Proof.
  apply (analyzeRepository_progress Examples.epoch Examples.twoPages "octo" "pulse").
  - vm_compute. repeat constructor; discriminate.
  - constructor.
  - constructor.
Defined.

(** C6, as the specification words it, fails twice.  A run that cannot
    find the repository reports 0 and 10 and never 100.  A run that meets
    six full pages of issues, one pull request in each, holds 594 issues
    and reports 31 before the checkpoint 30. *)
Lemma analyzeRepository_progress_counterexample :
  ~ (forall (getTime : string -> Z) (w : Metrics.World) (owner repo : string),
       let percentages :=
         map Metrics.progress
           (Eff.events (Metrics.analyzeRepository getTime w owner repo)) in
       Spec.nonDecreasing percentages
       /\ (exists rest, percentages = 0 :: rest)
       /\ (exists front, percentages = front ++ [100])).
Proof.
  intros Hall.
  destruct (Hall Examples.epoch Examples.notFound "octo"%string "pulse"%string)
    as (_ & _ & front & Hfront).
  vm_compute in Hfront.
  destruct front as [|p0 [|p1 [|p2 front]]]; discriminate Hfront.
Qed.

(** The overshoot of the issues loop: with six full pages of 99 issues and
    one pull request the run reports 31 and then 30. *)
Lemma issues_overshoot_reports_31_before_30 :
  map Metrics.progress
    (Eff.events (Metrics.analyzeRepository Examples.epoch Examples.sixPages
                   "octo" "pulse"))
  = [0; 10; 15; 20; 21; 23; 25; 27; 29; 31; 30; 32; 40; 55; 55; 65; 70; 85;
     87; 90; 93; 96; 98; 100]
  /\ ~ Spec.nonDecreasing
         (map Metrics.progress
            (Eff.events (Metrics.analyzeRepository Examples.epoch Examples.sixPages
                           "octo" "pulse"))).
Proof.
  split; [vm_compute; reflexivity|].
  intros Hsorted.
  assert (Hpair : forall (front : list Q) (a b : Q) (back : list Q),
             Sorted Qle (front ++ a :: b :: back) -> a <= b).
  { induction front as [|x front IH]; intros a b back Hs; simpl in Hs.
    - apply Sorted_inv in Hs as [_ Hhd]. now apply HdRel_inv in Hhd.
    - apply Sorted_inv in Hs as [Hs _]. now apply IH with back. }
  unfold Spec.nonDecreasing in Hsorted.
  apply (Hpair [0; 10; 15; 20; 21; 23; 25; 27; 29] 31 30) in Hsorted.
  unfold Qle in Hsorted. simpl in Hsorted. lia.
Qed.

(* ===================================================================== *)
(** * Worked examples *)
(* ===================================================================== *)

(** The end-to-end scenario through the orchestrator: 45 closed issues, 30
    commits, a top contributor at 60 percent, a latest release ten days
    old, no median, and a health score of 68. *)
Lemma scenario_end_to_end :
  match Eff.outcome (Metrics.analyzeRepository Examples.epoch Examples.scenarioWorld
                       "octo" "pulse") with
  | Eff.Returned metrics =>
      let d := RepositoryMetrics.data metrics in
      MetricsData.stars d = 120
      /\ MetricsData.openIssuesCount d = 5
      /\ MetricsData.closedIssuesCount d = 45
      /\ MetricsData.totalCommitsLast90Days d = 30
      /\ MetricsData.topContributorRatio d == 60
      /\ option_map ReleaseStats.daysAgo (MetricsData.latestRelease d) = Some 10
      /\ MetricsData.medianIssueResponseTime d = None
      /\ RepositoryMetrics.healthScore metrics = 68
  | Eff.Thrown _ => False
  end.
Proof. vm_compute. repeat split. Qed.

(** Three commits by one account and one by another: 75 percent. *)
Lemma topContributorRatio_three_of_four :
  Metrics.calculateTopContributorRatio
    [Examples.commitBy "alice"; Examples.commitBy "bob";
     Examples.commitBy "alice"; Examples.commitBy "alice"] == 75
  /\ Metrics.calculateTopContributorRatio [] = 0.
Proof. split; [vm_compute|]; reflexivity. Qed.

(** The rollup of downloads 10, 5 and 0, the second release a prerelease:
    15 downloads in total, 2 releases, an average of 8. *)
Lemma rollup_ten_five_zero :
  let stats := Metrics.calculateReleaseStats Examples.epoch 0 Examples.tenFiveZero in
  Rollup.totalDownloads stats = 15
  /\ Rollup.totalReleases stats = 2
  /\ Rollup.averageDownloadsPerRelease stats = 8.
Proof. vm_compute. repeat split. Qed.

(** After the retries on 503 are used up, the request for the repository
    that was made through the retrying client throws. *)
Lemma fetchRepository_after_503
    (fetch : nat -> Eff.Outcome (GitHub.Response GitHub.GitHubRepository))
    (url owner repo : string) (retries : nat) :
  Spec.always503 fetch ->
  exists statusText : string,
    Eff.outcome
      (GitHub.fetchRepository (E:=Metrics.AnalysisStatus)
         (Eff.outcome (GitHub.fetchWithRetry fetch url retries)) owner repo)
    = Eff.Thrown
        ("Failed to fetch repository " ++ GitHub.dquote ++ owner ++ "/" ++ repo
         ++ GitHub.dquote ++ ": 503 " ++ statusText)%string.
Proof.
  intros H503.
  unfold GitHub.fetchWithRetry, Eff.outcome at 2.
  rewrite (@fetchWithRetry_from_503 _ fetch url retries retries 0 H503 eq_refl).
  simpl snd.
  destruct (H503 retries) as (response & -> & Hstatus).
  exists (GitHub.statusText response).
  unfold GitHub.fetchRepository, GitHub.ok. simpl. rewrite Hstatus. reflexivity.
Qed.

(* ===================================================================== *)
(** * More on the retrying client *)
(* ===================================================================== *)

Section RetryMore.
Import Eff GitHub Props.
Context {B : Type}.
Variable fetch : nat -> Outcome (Response B).
Variable url : string.
Variable retries : nat.

Lemma fetchWithRetry_from_unfold (todo i : nat) :
  fetchWithRetry_from fetch url retries (S todo) i =
    bind (emit (Request url i))
      (fun _ =>
         match fetch i with
         | Returned response =>
             if retryable (status response) && (i <? retries)%nat
             then bind (emit (Sleep (backoff i)))
                    (fun _ => fetchWithRetry_from fetch url retries todo (S i))
             else ret response
         | Thrown error =>
             if (i =? retries)%nat then throw error
             else bind (emit (Sleep (backoff i)))
                    (fun _ => fetchWithRetry_from fetch url retries todo (S i))
         end).
Proof. reflexivity. Qed.

Lemma fetchWithRetry_from_stops (todo i : nat) :
  (i + todo = retries)%nat ->
  exists k : nat,
    (i <= k <= retries)%nat
    /\ fetchWithRetry_from fetch url retries (S todo) i =
         (flat_map (fun j => [Request url j; Sleep (backoff j)]) (seq i (k - i))
            ++ [Request url k],
          fetch k)
    /\ (forall j, (i <= j < k)%nat -> retried (fetch j))
    /\ ((k < retries)%nat -> ~ retried (fetch k)).
Proof.
  revert i. induction todo as [|todo IH]; intros i Hi.
  - assert (i = retries) as -> by lia.
    exists retries. split; [lia|]. rewrite Nat.sub_diag.
    split; [|split; [intros; lia|intros; lia]].
    rewrite fetchWithRetry_from_unfold, Nat.ltb_irrefl, Nat.eqb_refl.
    destruct (fetch retries) as [response|error]; [|reflexivity].
    now rewrite andb_false_r.
  - assert (Hlt : (i <? retries)%nat = true) by (apply Nat.ltb_lt; lia).
    assert (Hne : (i =? retries)%nat = false) by (apply Nat.eqb_neq; lia).
    destruct (IH (S i) ltac:(lia)) as (k & Hk & Hrun & Hbefore & Hlast).
    assert (Hgo :
      bind (emit (Request url i))
        (fun _ => bind (emit (Sleep (backoff i)))
           (fun _ => fetchWithRetry_from fetch url retries (S todo) (S i)))
      = (flat_map (fun j => [Request url j; Sleep (backoff j)]) (seq i (k - i))
           ++ [Request url k], fetch k)).
    { rewrite Hrun. replace (k - i)%nat with (S (k - S i)) by lia. reflexivity. }
    rewrite fetchWithRetry_from_unfold, Hlt, Hne.
    destruct (fetch i) as [response|error] eqn:Hfetch.
    + rewrite andb_true_r. destruct (retryable (status response)) eqn:Hretry.
      * exists k. split; [lia|]. split; [exact Hgo|]. split; [|exact Hlast].
        intros j Hj. destruct (Nat.eq_dec j i) as [->|Hji].
        -- rewrite Hfetch. exact Hretry.
        -- apply Hbefore. lia.
      * exists i. split; [lia|]. rewrite Nat.sub_diag, Hfetch.
        split; [reflexivity|]. split; [intros; lia|].
        intros _. simpl. congruence.
    + exists k. split; [lia|]. split; [exact Hgo|]. split; [|exact Hlast].
      intros j Hj. destruct (Nat.eq_dec j i) as [->|Hji].
      * now rewrite Hfetch.
      * apply Hbefore. lia.
Qed.

(** X1. [fetchWithRetry] ends at the first attempt that is answered with a
    status it does not retry, or else at attempt number [retries]: it has
    then made the requests 0 to [k], paused [backoff i] after each of them
    but the last, and it ends as attempt [k] ended, returning its response
    or rethrowing its error. *)
Theorem fetchWithRetry_stops :
  exists k : nat,
    (k <= retries)%nat
    /\ fetchWithRetry fetch url retries = (schedule url k, fetch k)
    /\ (forall i, (i < k)%nat -> retried (fetch i))
    /\ ((k < retries)%nat -> ~ retried (fetch k)).
Proof.
  destruct (fetchWithRetry_from_stops retries 0 eq_refl)
    as (k & Hk & Hrun & Hbefore & Hlast).
  exists k. split; [lia|]. unfold fetchWithRetry, schedule.
  rewrite Hrun, Nat.sub_0_r. split; [reflexivity|].
  split; [|exact Hlast]. intros i Hi. apply Hbefore. lia.
Qed.

(** X2. A response with a status that is not retried is handed back at
    once: one request, no pause. *)
Theorem fetchWithRetry_immediate (response : Response B) :
  fetch 0%nat = Returned response ->
  retryable (status response) = false ->
  fetchWithRetry fetch url retries = ([Request url 0], Returned response).
Proof.
  intros Hfetch Hstatus. unfold fetchWithRetry.
  rewrite fetchWithRetry_from_unfold, Hfetch, Hstatus. reflexivity.
Qed.

(** X3. When every attempt fails on the network, the client makes
    [retries + 1] requests with the pauses of the backoff between them and
    rethrows the error of the last attempt; the error "Max retries
    reached" of the last line is never the one it throws. *)
Theorem fetchWithRetry_network_down (errors : nat -> string) :
  (forall i, fetch i = Thrown (errors i)) ->
  fetchWithRetry fetch url retries = (schedule url retries, Thrown (errors retries)).
Proof.
  intros Hdown.
  destruct (fetchWithRetry_from_stops retries 0 eq_refl)
    as (k & Hk & Hrun & _ & Hlast).
  assert (k = retries) as ->.
  { destruct (Nat.eq_dec k retries) as [|Hne]; [assumption|].
    exfalso. apply Hlast; [lia|]. now rewrite Hdown. }
  unfold fetchWithRetry, schedule. rewrite Hrun, Nat.sub_0_r, Hdown. reflexivity.
Qed.
End RetryMore.

Section Backoff.
Import GitHub.

Lemma pow2_ge_8 (i : nat) : (3 <= i)%nat -> (8 <= 2 ^ Z.of_nat i)%Z.
Proof.
  intros Hi. change 8%Z with (2 ^ 3)%Z. apply Z.pow_le_mono_r; lia.
Qed.

(** X4. The pause after attempt [i] is 1000, 2000, 4000 ms for the first
    three attempts and 8000 ms from the fourth on; it never decreases. *)
Theorem backoff_values (i j : nat) :
  ((i <= 3)%nat -> backoff i == 1000 * inject_Z (2 ^ Z.of_nat i))
  /\ ((3 <= i)%nat -> backoff i == 8000)
  /\ 1000 <= backoff i /\ backoff i <= 8000
  /\ ((i <= j)%nat -> backoff i <= backoff j).
Proof.
  assert (Hscale : forall p : Z, 1000 * inject_Z p == inject_Z (1000 * p)).
  { intros p. now rewrite inject_Z_mult. }
  assert (Hpos : forall n, (1 <= 2 ^ Z.of_nat n)%Z).
  { intros n. change 1%Z with (2 ^ 0)%Z. apply Z.pow_le_mono_r; lia. }
  assert (Hlow : forall n, (n <= 3)%nat -> (2 ^ Z.of_nat n <= 8)%Z).
  { intros n Hn. change 8%Z with (2 ^ 3)%Z. apply Z.pow_le_mono_r; lia. }
  unfold backoff, JS.Math_min, JS.Math_pow2.
  repeat split.
  - intros Hi. apply Q.min_l. rewrite Hscale.
    change 8000 with (inject_Z 8000). rewrite <- Zle_Qle. specialize (Hlow i Hi). lia.
  - intros Hi. apply Q.min_r. rewrite Hscale.
    change 8000 with (inject_Z 8000). rewrite <- Zle_Qle.
    pose proof (pow2_ge_8 Hi). lia.
  - apply Q.min_glb; [|q_order]. rewrite Hscale.
    change 1000 with (inject_Z 1000). rewrite <- Zle_Qle. specialize (Hpos i). lia.
  - apply Q.le_min_r.
  - intros Hij. apply Q.min_le_compat_r. rewrite !Hscale.
    rewrite <- Zle_Qle. apply Z.mul_le_mono_nonneg_l; [lia|].
    apply Z.pow_le_mono_r; lia.
Qed.
End Backoff.

(* ===================================================================== *)
(** * The results of the paginated fetchers *)
(* ===================================================================== *)

Section FetchLoops.
Import Eff GitHub Logic Props.

Lemma served_cons {B} (reply : Reply (list B)) pages (item : B) :
  served pages item -> served (reply :: pages) item.
Proof. intros (response & Hin & Hok & Hitem). exists response. simpl. tauto. Qed.

Lemma served_here {B} (response : Response (list B)) pages (item : B) :
  ok response = true -> In item (json response) ->
  served (Returned response :: pages) item.
Proof. intros Hok Hitem. exists response. simpl. tauto. Qed.

Lemma fetchIssues_from_returns pages perPage acc issues :
  outcome (fetchIssues_from pages perPage record acc) = Returned issues ->
  exists more,
    issues = (acc ++ more)%list
    /\ Forall (fun issue => pull_request issue = false /\ served pages issue) more
    /\ (Forall wellSized pages -> (List.length acc <= 599)%nat ->
        (List.length issues <= 599)%nat).
Proof.
  revert acc issues.
  induction pages as [|reply pages IH]; intros acc issues; simpl.
  - destruct (negb _); simpl; intros [= <-]; exists [];
      rewrite app_nil_r; repeat split; auto.
  - destruct (JS.ltb (JS.length acc) 500) eqn:Hlt; simpl.
    2:{ intros [= <-]. exists []. rewrite app_nil_r. repeat split; auto. }
    apply (ltb_length _ 500) in Hlt.
    destruct reply as [response|error]; simpl; [|discriminate].
    destruct (negb (ok response)) eqn:Hok.
    { destruct (status response =? 404)%Z; simpl; [|discriminate].
      intros [= <-]. exists []. rewrite app_nil_r. repeat split; auto. }
    apply negb_false_iff in Hok.
    destruct (Qeq_bool _ 0).
    { simpl. intros [= <-]. exists []. rewrite app_nil_r. repeat split; auto. }
    set (actualIssues := List.filter (fun issue => negb (pull_request issue))
                                     (json response)).
    assert (Hactual : Forall (fun issue => pull_request issue = false
                                /\ served (Returned response :: pages) issue)
                        actualIssues).
    { apply List.Forall_forall. intros issue Hin.
      apply filter_In in Hin as [Hin Hpr]. apply negb_true_iff in Hpr.
      split; [exact Hpr|now apply served_here]. }
    assert (Hsize : wellSized (Returned response) ->
                    (List.length (acc ++ actualIssues) <= 599)%nat).
    { simpl. intros Hpage. rewrite length_app.
      pose proof (filter_length_le (fun issue => negb (pull_request issue))
                    (json response)).
      subst actualIssues. lia. }
    specialize (IH (acc ++ actualIssues)%list issues).
    destruct (JS.ltb (JS.length (json response)) perPage).
    + simpl. intros [= <-]. exists actualIssues. repeat split; auto.
      intros Hpages _. apply Hsize. now apply Forall_inv in Hpages.
    + destruct (fetchIssues_from pages perPage record _) as [es o]. simpl in *.
      intros Ho. destruct (IH Ho) as (more & -> & Hmore & Hbound).
      exists (actualIssues ++ more)%list. rewrite app_assoc.
      split; [reflexivity|]. split.
      * apply Forall_app. split; [exact Hactual|].
        eapply List.Forall_impl; [|exact Hmore].
        intros issue [Hpr Hserved]. split; [exact Hpr|now apply served_cons].
      * intros Hpages _. apply Forall_cons in Hpages as [Hpage Hpages].
        apply Hbound; [exact Hpages|now apply Hsize].
Qed.


Lemma fetchCommits_from_returns pages acc commits :
  outcome (fetchCommits_from pages record acc) = Returned commits ->
  exists more,
    commits = (acc ++ more)%list
    /\ Forall (served pages) more
    /\ (Forall wellSized pages ->
        (exists k, List.length acc = 100 * k /\ k <= 10)%nat ->
        (List.length commits <= 1000)%nat).
Proof.
  revert acc commits.
  induction pages as [|reply pages IH]; intros acc commits; simpl.
  - destruct (negb _); simpl; intros [= <-]; exists [];
      rewrite app_nil_r; repeat split; auto; intros _ (k & -> & Hk); lia.
  - destruct (JS.ltb (JS.length acc) 1000) eqn:Hlt; simpl.
    2:{ intros [= <-]. exists []. rewrite app_nil_r. repeat split; auto.
        intros _ (k & -> & Hk); lia. }
    apply (ltb_length _ 1000) in Hlt.
    destruct reply as [response|error]; simpl; [|discriminate].
    destruct (negb (ok response)) eqn:Hok.
    { destruct ((status response =? 504)%Z || (500 <=? status response)%Z);
        simpl; [|discriminate].
      intros [= <-]. exists []. rewrite app_nil_r. repeat split; auto.
      intros _ (k & -> & Hk); lia. }
    apply negb_false_iff in Hok.
    destruct (Qeq_bool _ 0).
    { simpl. intros [= <-]. exists []. rewrite app_nil_r. repeat split; auto.
      intros _ (k & -> & Hk); lia. }
    assert (Hdata : Forall (served (Returned response :: pages)) (json response)).
    { apply List.Forall_forall. intros item Hin. now apply served_here. }
    specialize (IH (acc ++ json response)%list commits).
    destruct (JS.ltb (JS.length (json response)) 100) eqn:Hshort.
    + simpl. intros [= <-]. exists (json response). repeat split; auto.
      intros Hpages (k & Hk & Hk10). apply Forall_inv in Hpages. simpl in Hpages.
      rewrite length_app. lia.
    + destruct (fetchCommits_from pages record _) as [es o]. simpl in *.
      intros Ho. destruct (IH Ho) as (more & -> & Hmore & Hbound).
      exists (json response ++ more)%list. rewrite app_assoc.
      split; [reflexivity|]. split.
      * apply Forall_app. split; [exact Hdata|].
        eapply List.Forall_impl; [|exact Hmore].
        intros item. apply served_cons.
      * intros Hpages (k & Hk & Hk10). apply Forall_cons in Hpages as [Hpage Hpages].
        apply Hbound; [exact Hpages|].
        apply (ltb_length_false _ 100) in Hshort. simpl in Hpage.
        exists (S k). rewrite length_app. lia.
Qed.


Lemma fetchReleases_from_returns pages (limit : nat) acc releases :
  outcome (fetchReleases_from pages (inject_Z (Z.of_nat limit)) record acc)
    = Returned releases ->
  exists more,
    releases = (acc ++ more)%list
    /\ Forall (fun release => draft release = false /\ served pages release) more
    /\ (Forall wellSized pages -> (List.length acc <= limit + 99)%nat ->
        (List.length releases <= limit + 99)%nat).
Proof.
  revert acc releases.
  induction pages as [|reply pages IH]; intros acc releases; simpl.
  - destruct (negb _); simpl; intros [= <-]; exists [];
      rewrite app_nil_r; repeat split; auto.
  - destruct (JS.ltb (JS.length acc) (inject_Z (Z.of_nat limit))) eqn:Hlt; simpl.
    2:{ intros [= <-]. exists []. rewrite app_nil_r. repeat split; auto. }
    apply ltb_length in Hlt.
    destruct reply as [response|error]; simpl; [|discriminate].
    destruct (negb (ok response)) eqn:Hok.
    { destruct ((status response =? 504)%Z || (500 <=? status response)%Z);
        simpl; [|discriminate].
      intros [= <-]. exists []. rewrite app_nil_r. repeat split; auto. }
    apply negb_false_iff in Hok.
    destruct (Qeq_bool _ 0).
    { simpl. intros [= <-]. exists []. rewrite app_nil_r. repeat split; auto. }
    set (validReleases := List.filter (fun release => negb (draft release))
                                      (json response)).
    assert (Hvalid : Forall (fun release => draft release = false
                               /\ served (Returned response :: pages) release)
                       validReleases).
    { apply List.Forall_forall. intros release Hin.
      apply filter_In in Hin as [Hin Hdraft]. apply negb_true_iff in Hdraft.
      split; [exact Hdraft|now apply served_here]. }
    assert (Hsize : wellSized (Returned response) ->
                    (List.length (acc ++ validReleases) <= limit + 99)%nat).
    { simpl. intros Hpage. rewrite length_app.
      pose proof (filter_length_le (fun release => negb (draft release))
                    (json response)).
      subst validReleases. lia. }
    specialize (IH (acc ++ validReleases)%list releases).
    destruct (JS.ltb (JS.length (json response)) 100).
    + simpl. intros [= <-]. exists validReleases. repeat split; auto.
      intros Hpages _. apply Hsize. now apply Forall_inv in Hpages.
    + destruct (fetchReleases_from pages _ record _) as [es o]. simpl in *.
      intros Ho. destruct (IH Ho) as (more & -> & Hmore & Hbound).
      exists (validReleases ++ more)%list. rewrite app_assoc.
      split; [reflexivity|]. split.
      * apply Forall_app. split; [exact Hvalid|].
        eapply List.Forall_impl; [|exact Hmore].
        intros release [Hd Hserved]. split; [exact Hd|now apply served_cons].
      * intros Hpages _. apply Forall_cons in Hpages as [Hpage Hpages].
        apply Hbound; [exact Hpages|now apply Hsize].
Qed.

Lemma fetchReleases_from_throws pages limit acc error :
  outcome (fetchReleases_from pages limit record acc) = Thrown error ->
  exists reply, In reply pages /\ failsPage "releases" reply error.
Proof.
  revert acc. induction pages as [|reply pages IH]; intros acc; simpl.
  - now destruct (negb _).
  - destruct (negb (JS.ltb (JS.length acc) limit)); simpl; [discriminate|].
    destruct reply as [response|cause]; simpl.
    2:{ intros [= <-]. exists (Thrown cause). simpl. tauto. }
    destruct (negb (ok response)) eqn:Hok.
    { apply negb_true_iff in Hok.
      destruct ((status response =? 504)%Z || (500 <=? status response)%Z) eqn:H5xx;
        simpl; [discriminate|].
      intros [= <-]. exists (Returned response). simpl.
      apply orb_false_iff in H5xx as [_ H500]. apply Z.leb_gt in H500. tauto. }
    destruct (Qeq_bool _ 0); simpl; [discriminate|].
    specialize (IH (acc ++ List.filter (fun release => negb (draft release))
                                       (json response))%list).
    destruct (JS.ltb (JS.length (json response)) 100); simpl; [discriminate|].
    destruct (fetchReleases_from pages limit record _) as [es o]. simpl in *.
    intros Ho. destruct (IH Ho) as (reply & Hin & Hfails).
    exists reply. tauto.
Qed.

Section AnyCallback.
Context {E : Type}.
Variable cb : Q -> Q -> M E unit.
Hypothesis cb_returns : forall current total, outcome (cb current total) = Returned tt.

(** X5. What [fetchIssues] returns holds no pull request, only items that
    an ok page carried, and at most 599 of them when no page has more than
    100 items. *)
Theorem fetchIssues_result pages perPage issues :
  outcome (fetchIssues pages perPage cb) = Returned issues ->
  Forall (fun issue => pull_request issue = false /\ served pages issue) issues
  /\ (Forall wellSized pages -> (List.length issues <= 599)%nat).
Proof.
  unfold fetchIssues. rewrite (fetchIssues_from_callback cb cb_returns).
  unfold outcome at 1. simpl snd. intros Hrun.
  destruct (fetchIssues_from_returns _ _ _ Hrun) as (more & -> & Hmore & Hbound).
  split; [exact Hmore|]. intros Hpages. apply Hbound; [exact Hpages|simpl; lia].
Qed.


(** X7. What [fetchCommits] returns holds only commits that an ok page
    carried, and at most 1000 of them when no page has more than 100
    items. *)
Theorem fetchCommits_result pages commits :
  outcome (fetchCommits pages cb) = Returned commits ->
  Forall (served pages) commits
  /\ (Forall wellSized pages -> (List.length commits <= 1000)%nat).
Proof.
  unfold fetchCommits. rewrite (fetchCommits_from_callback cb cb_returns).
  unfold outcome at 1. simpl snd. intros Hrun.
  destruct (fetchCommits_from_returns _ _ Hrun) as (more & -> & Hmore & Hbound).
  split; [exact Hmore|]. intros Hpages. apply Hbound; [exact Hpages|].
  exists 0%nat. simpl. lia.
Qed.


(** X9. What [fetchReleases] returns holds no draft, only releases that an
    ok page carried, and fewer than [limit + 100] of them when no page has
    more than 100 items. *)
Theorem fetchReleases_result pages (limit : nat) releases :
  outcome (fetchReleases pages (inject_Z (Z.of_nat limit)) cb) = Returned releases ->
  Forall (fun release => draft release = false /\ served pages release) releases
  /\ (Forall wellSized pages -> (List.length releases < limit + 100)%nat).
Proof.
  unfold fetchReleases. rewrite (fetchReleases_from_callback cb cb_returns).
  unfold outcome at 1. simpl snd. intros Hrun.
  destruct (fetchReleases_from_returns _ _ _ Hrun) as (more & -> & Hmore & Hbound).
  split; [exact Hmore|]. intros Hpages.
  assert ((List.length ([] ++ more) <= limit + 99)%nat); [|lia].
  apply Hbound; [exact Hpages|simpl; lia].
Qed.

(** X10. [fetchReleases] throws only when a page request fails on the
    network or is answered with a status below 500 that is not ok. *)
Theorem fetchReleases_throws_only pages limit error :
  outcome (fetchReleases pages limit cb) = Thrown error ->
  exists reply, In reply pages /\ failsPage "releases" reply error.
Proof.
  unfold fetchReleases. rewrite (fetchReleases_from_callback cb cb_returns).
  unfold outcome at 1. simpl snd. apply fetchReleases_from_throws.
Qed.
End AnyCallback.
End FetchLoops.

(* ===================================================================== *)
(** * The fetchers that never throw *)
(* ===================================================================== *)

Section SmallFetchers.
Import Eff GitHub Logic Props.
Context {E : Type}.


Lemma length_nonneg {A} (xs : list A) : 0 <= JS.length xs.
Proof.
  unfold JS.length. change 0 with (inject_Z 0). rewrite <- Zle_Qle. lia.
Qed.

Lemma num_or_zero_nonneg (x : Q) : 0 <= x -> 0 <= JS.num_or x 0.
Proof. unfold JS.num_or. now destruct (Qeq_bool x 0). Qed.

Lemma searchCount_nonneg (reply : Reply Q) :
  (forall response, reply = Returned response -> 0 <= json response) ->
  0 <= searchCount reply.
Proof.
  intros H. unfold searchCount. destruct reply as [response|error]; [|q_order].
  destruct (ok response); [|q_order]. apply num_or_zero_nonneg. now apply H.
Qed.

Lemma share_bounds (merged closed : Q) :
  0 <= merged -> 0 <= closed -> 0 < merged + closed ->
  0 <= merged / (merged + closed) * 100 /\ merged / (merged + closed) * 100 <= 100.
Proof.
  intros Hm Hc Ht. split.
  - apply Qmult_le_0_compat; [|q_order].
    apply Qle_shift_div_l; [exact Ht|]. now rewrite Qmult_0_l.
  - apply Qle_trans with (1 * 100); [|q_order].
    apply Qmult_le_compat_r; [|q_order].
    apply Qle_shift_div_r; [exact Ht|]. rewrite Qmult_1_l.
    apply Qle_trans with (merged + 0); [rewrite Qplus_0_r; apply Qle_refl|].
    now apply Qplus_le_r.
Qed.

(** X12. [fetchPRStats] never throws.  When one of its two requests fails on
    the network all three figures are 0; otherwise the counts are the ones
    of the ok responses, 0 for a response that is not ok, and the merge
    rate is merged / (merged + closed) * 100, or 0 without pull requests.
    With counts that are not negative the rate lies between 0 and 100. *)
Theorem fetchPRStats_total (mergedReply closedReply : Reply Q) :
  exists stats : PRStats,
    fetchPRStats (E:=E) mergedReply closedReply = ([], Returned stats)
    /\ (networkError mergedReply \/ networkError closedReply ->
        stats = {| merged := 0; closed_unmerged := 0; mergeRate := 0 |})
    /\ (~ networkError mergedReply -> ~ networkError closedReply ->
        merged stats = searchCount mergedReply
        /\ closed_unmerged stats = searchCount closedReply
        /\ (merged stats + closed_unmerged stats <= 0 -> mergeRate stats = 0)
        /\ (0 < merged stats + closed_unmerged stats ->
            mergeRate stats =
              merged stats / (merged stats + closed_unmerged stats) * 100))
    /\ ((forall response, mergedReply = Returned response -> 0 <= json response) ->
        (forall response, closedReply = Returned response -> 0 <= json response) ->
        0 <= mergeRate stats /\ mergeRate stats <= 100).
Proof.
  unfold fetchPRStats.
  destruct mergedReply as [mergedResponse|e1].
  2:{ eexists. split; [reflexivity|]. simpl. repeat split; try tauto; q_order. }
  destruct closedReply as [closedResponse|e2].
  2:{ eexists. split; [reflexivity|]. simpl. repeat split; try tauto; q_order. }
  eexists. split; [reflexivity|]. simpl.
  set (m := JS.num_or (if ok mergedResponse then json mergedResponse else 0) 0).
  set (c := JS.num_or (if ok closedResponse then json closedResponse else 0) 0).
  assert (Hm : m = (if ok mergedResponse then JS.num_or (json mergedResponse) 0 else 0)).
  { subst m. now destruct (ok mergedResponse). }
  assert (Hc : c = (if ok closedResponse then JS.num_or (json closedResponse) 0 else 0)).
  { subst c. now destruct (ok closedResponse). }
  split; [tauto|]. split.
  - intros _ _. split; [exact Hm|]. split; [exact Hc|]. split.
    + intros Hle. apply gtb_le in Hle. now rewrite Hle.
    + intros Hlt. apply gtb_gt in Hlt. now rewrite Hlt.
  - intros Hm0 Hc0.
    assert (0 <= m).
    { rewrite Hm. destruct (ok mergedResponse); [|q_order].
      apply num_or_zero_nonneg. now apply Hm0. }
    assert (0 <= c).
    { rewrite Hc. destruct (ok closedResponse); [|q_order].
      apply num_or_zero_nonneg. now apply Hc0. }
    destruct (JS.gtb (m + c) 0) eqn:Hgt; [|split; q_order].
    apply gtb_gt in Hgt. now apply share_bounds.
Qed.

Variable getTime : string -> Z.

Lemma fetchStarGrowth_same (now : Z) (reply : Reply (list string)) growth :
  outcome (fetchStarGrowth (E:=E) getTime now reply) = Returned growth ->
  starsPerMonth growth = recentGrowth growth.
Proof.
  unfold fetchStarGrowth. destruct reply as [response|error]; simpl.
  2:{ now intros [= <-]. }
  destruct (negb (ok response)); simpl; [now intros [= <-]|].
  destruct (Qeq_bool (JS.length (json response)) 0); simpl; now intros [= <-].
Qed.

(** X13. [fetchStarGrowth] never throws and reports one number twice: the
    stars per month and the recent growth are both the number of entries
    starred later than 30 days before now, which is at most the number of
    entries; they are 0 when the request fails or is not ok. *)
Theorem fetchStarGrowth_total (now : Z) (reply : Reply (list string)) :
  exists growth : StarGrowth,
    fetchStarGrowth (E:=E) getTime now reply = ([], Returned growth)
    /\ starsPerMonth growth = recentGrowth growth
    /\ recentGrowth growth ==
         match reply with
         | Returned response =>
             if ok response then
               JS.length
                 (List.filter
                    (fun starred_at =>
                       (now - 30 * 24 * 60 * 60 * 1000 <? getTime starred_at)%Z)
                    (json response))
             else 0
         | Thrown _ => 0
         end
    /\ 0 <= recentGrowth growth
    /\ (forall response, reply = Returned response ->
        recentGrowth growth <= JS.length (json response)).
Proof.
  unfold fetchStarGrowth. destruct reply as [response|error].
  2:{ eexists. split; [reflexivity|]. simpl.
      split; [reflexivity|]. split; [reflexivity|]. split; [q_order|].
      intros; discriminate. }
  simpl. destruct (ok response); simpl.
  2:{ eexists. split; [reflexivity|]. simpl.
      split; [reflexivity|]. split; [reflexivity|]. split; [q_order|].
      intros r [= <-]. apply length_nonneg. }
  destruct (Qeq_bool (JS.length (json response)) 0) eqn:Hempty.
  - eexists. split; [reflexivity|]. simpl.
    apply Qeq_bool_iff in Hempty. change 0 with (inject_Z (Z.of_nat 0)) in Hempty.
    apply length_nat in Hempty. destruct (json response); [|discriminate].
    split; [reflexivity|]. split; [reflexivity|]. split; [q_order|].
    intros r [= <-]. q_order.
  - eexists. split; [reflexivity|]. simpl.
    split; [reflexivity|]. split; [reflexivity|]. split.
    + apply length_nonneg.
    + intros r [= <-]. apply length_le. apply filter_length_le.
Qed.
End SmallFetchers.

(* ===================================================================== *)
(** * The code frequency *)
(* ===================================================================== *)

Section CodeFrequency.
Import Eff GitHub Logic Props.
Context {E : Type}.

Lemma codeFrequency_poll_agree {B} (polls polls' : nat -> Reply B) todo attempts :
  (forall k, (attempts <= k < attempts + todo)%nat -> polls k = polls' k) ->
  codeFrequency_poll (E:=E) polls todo attempts
  = codeFrequency_poll polls' todo attempts.
Proof.
  revert attempts. induction todo as [|todo IH]; intros attempts Hagree; simpl.
  - reflexivity.
  - rewrite (Hagree attempts) by lia.
    destruct (polls' attempts) as [response|error]; simpl; [|reflexivity].
    destruct (status response =? 202)%Z; [|reflexivity].
    destruct (S attempts <? 3)%nat; [|reflexivity].
    rewrite IH; [reflexivity|]. intros k Hk. apply Hagree. lia.
Qed.

Lemma fold_weeks (weeks : list (Q * Q * Q)) (a0 d0 : Q) :
  let '(additions, deletions) :=
    fold_left
      (fun '(additions, deletions) '(_, a, d) => (additions + a, deletions + Qabs d))
      weeks (a0, d0) in
  additions == a0 + Spec.Qsum (map weekAdditions weeks)
  /\ deletions == d0 + Spec.Qsum (map (fun week => Qabs (weekDeletions week)) weeks).
Proof.
  revert a0 d0. induction weeks as [|[[w a] d] weeks IH]; intros a0 d0; simpl.
  - split; ring.
  - specialize (IH (a0 + a) (d0 + Qabs d)).
    destruct (fold_left _ weeks _) as [additions deletions].
    destruct IH as [Ha Hd]. unfold weekAdditions, weekDeletions in *. simpl.
    rewrite Ha, Hd. split; ring.
Qed.

Lemma Qsum_abs_nonneg {A} (f : A -> Q) (xs : list A) :
  0 <= Spec.Qsum (map (fun x => Qabs (f x)) xs).
Proof.
  induction xs as [|x xs IH]; simpl; [q_order|].
  apply Qle_trans with (0 + 0); [q_order|].
  apply Qplus_le_compat; [apply Qabs_nonneg|exact IH].
Qed.

Lemma last12_length {A} (data : list A) : (List.length (last12 data) <= 12)%nat.
Proof. unfold last12. rewrite length_skipn. lia. Qed.

Lemma last12_suffix {A} (data : list A) :
  exists older, data = (older ++ last12 data)%list.
Proof.
  unfold last12. exists (firstn (List.length data - 12) data).
  symmetry. apply firstn_skipn.
Qed.

Lemma fetchCodeFrequency_figures (polls : nat -> Reply (option (list (Q * Q * Q)))) :
  exists stats : CodeFrequency,
    fetchCodeFrequency (E:=E) polls = ([], Returned stats)
    /\ totalChanges stats = additions stats + deletions stats
    /\ 0 <= deletions stats.
Proof.
  pose proof (fetchCodeFrequency_silent (E:=E) polls) as Hsilent.
  unfold silent in Hsilent.
  rewrite (run_eta (fetchCodeFrequency polls)), Hsilent.
  unfold fetchCodeFrequency. rewrite outcome_try_catch, outcome_bind.
  destruct (outcome (codeFrequency_poll polls 3 0)) as [[response|]|error];
    simpl; try (eexists; split; [reflexivity|split; [reflexivity|q_order]]).
  destruct (negb (ok response) || (status response =? 202)%Z); simpl;
    try (eexists; split; [reflexivity|split; [reflexivity|q_order]]).
  destruct (json response) as [data|]; simpl;
    try (eexists; split; [reflexivity|split; [reflexivity|q_order]]).
  destruct (Qeq_bool (JS.length data) 0); simpl;
    try (eexists; split; [reflexivity|split; [reflexivity|q_order]]).
  pose proof (fold_weeks (last12 data) 0 0) as Hfold.
  destruct (fold_left _ (last12 data) _) as [a d]. simpl.
  eexists. split; [reflexivity|]. split; [reflexivity|]. simpl.
  destruct Hfold as [_ Hd]. rewrite Hd, Qplus_0_l. apply Qsum_abs_nonneg.
Qed.

(** X14. [fetchCodeFrequency] never throws, and reads at most its first three
    polls.  The total it returns is its additions plus its deletions, and
    its deletions are not negative.  While the first three polls are
    answered with 202 the three figures are 0. *)
Theorem fetchCodeFrequency_total (polls : nat -> Reply (option (list (Q * Q * Q)))) :
  (exists stats : CodeFrequency,
     fetchCodeFrequency (E:=E) polls = ([], Returned stats)
     /\ totalChanges stats = additions stats + deletions stats
     /\ 0 <= deletions stats)
  /\ (forall polls',
        (forall k, (k < 3)%nat -> polls k = polls' k) ->
        fetchCodeFrequency (E:=E) polls = fetchCodeFrequency polls')
  /\ ((forall k, (k < 3)%nat ->
         exists response, polls k = Returned response /\ status response = 202%Z) ->
      fetchCodeFrequency (E:=E) polls
      = ([], Returned {| additions := 0; deletions := 0; totalChanges := 0 |})).
Proof.
  split; [|split].
  - apply fetchCodeFrequency_figures.
  - intros polls' Hagree. unfold fetchCodeFrequency.
    rewrite (codeFrequency_poll_agree polls polls'); [reflexivity|].
    intros k Hk. apply Hagree. lia.
  - intros H202. unfold fetchCodeFrequency.
    destruct (H202 0%nat ltac:(lia)) as (r0 & H0 & Hs0).
    destruct (H202 1%nat ltac:(lia)) as (r1 & H1 & Hs1).
    destruct (H202 2%nat ltac:(lia)) as (r2 & H2 & Hs2).
    simpl. rewrite H0. simpl. rewrite Hs0. simpl. rewrite H1. simpl.
    rewrite Hs1. simpl. rewrite H2. simpl. rewrite Hs2. simpl.
    unfold ok. rewrite Hs2. reflexivity.
Qed.

(** X15. On a first poll that is ok, not 202, with a non-empty series, the additions
    are the sum of the additions of the last twelve weeks of the series and
    the deletions the sum of the absolute values of their deletions; older
    weeks do not count. *)
Theorem fetchCodeFrequency_last_twelve_weeks
    (polls : nat -> Reply (option (list (Q * Q * Q))))
    (response : Response (option (list (Q * Q * Q)))) (data : list (Q * Q * Q)) :
  polls 0%nat = Returned response ->
  ok response = true ->
  status response <> 202%Z ->
  json response = Some data ->
  data <> [] ->
  exists stats : CodeFrequency,
    fetchCodeFrequency (E:=E) polls = ([], Returned stats)
    /\ additions stats == Spec.Qsum (map weekAdditions (last12 data))
    /\ deletions stats ==
         Spec.Qsum (map (fun week => Qabs (weekDeletions week)) (last12 data))
    /\ (List.length (last12 data) <= 12)%nat
    /\ (exists older, data = (older ++ last12 data)%list)
    /\ ((List.length data <= 12)%nat -> last12 data = data).
Proof.
  intros Hpoll Hok Hstatus Hjson Hdata. unfold fetchCodeFrequency. simpl.
  rewrite Hpoll. simpl.
  assert (H202 : (status response =? 202)%Z = false) by now apply Z.eqb_neq.
  rewrite H202. simpl. rewrite Hok, H202, Hjson. simpl.
  replace (Qeq_bool (JS.length data) 0) with false.
  2:{ symmetry. apply not_true_is_false. intros H.
      apply Qeq_bool_iff in H. change 0 with (inject_Z (Z.of_nat 0)) in H.
      apply length_nat in H. destruct data; [congruence|discriminate]. }
  pose proof (fold_weeks (last12 data) 0 0) as Hfold.
  destruct (fold_left _ (last12 data) _) as [a d]. simpl.
  destruct Hfold as [Ha Hd].
  eexists. split; [reflexivity|]. simpl.
  split; [now rewrite Ha, Qplus_0_l|]. split; [now rewrite Hd, Qplus_0_l|].
  split; [apply last12_length|]. split; [apply last12_suffix|].
  intros Hshort. unfold last12.
  replace (List.length data - 12)%nat with 0%nat by lia. reflexivity.
Qed.
End CodeFrequency.

(* ===================================================================== *)
(** * The share of the top contributor *)
(* ===================================================================== *)

Section TopContributor.
Import Eff GitHub Logic Props Metrics.

Lemma inject_succ (n : nat) :
  inject_Z (Z.of_nat n) + 1 = inject_Z (Z.of_nat (S n)).
Proof.
  unfold Qplus, inject_Z. simpl Qnum. simpl Qden.
  rewrite Z.mul_1_r. f_equal. lia.
Qed.

Lemma tally_snoc who commits commit :
  tally who (commits ++ [commit]) =
    (tally who commits + if String.eqb (contributorOf commit) who then 1 else 0)%nat.
Proof.
  unfold tally. rewrite List.filter_app, length_app. simpl.
  now destruct (String.eqb (contributorOf commit) who).
Qed.

Lemma counted_step contributorCounts commits commit :
  counted contributorCounts commits ->
  counted (countCommit contributorCounts commit) (commits ++ [commit]).
Proof.
  intros Hcounted who. unfold countCommit. rewrite tally_snoc.
  destruct (String.eqb (contributorOf commit) who) eqn:Hwho.
  - apply String.eqb_eq in Hwho. subst who. rewrite lookup_insert_eq.
    rewrite Hcounted. replace (tally (contributorOf commit) commits + 1)%nat
      with (S (tally (contributorOf commit) commits)) by lia.
    destruct (tally (contributorOf commit) commits) as [|n]; simpl default.
    + reflexivity.
    + now rewrite inject_succ.
  - apply String.eqb_neq in Hwho. rewrite lookup_insert_ne by exact Hwho.
    rewrite Nat.add_0_r. apply Hcounted.
Qed.

Lemma counted_fold commits contributorCounts done :
  counted contributorCounts done ->
  counted (fold_left countCommit commits contributorCounts) (done ++ commits).
Proof.
  revert contributorCounts done.
  induction commits as [|commit commits IH]; intros contributorCounts done Hcounted.
  - simpl. now rewrite app_nil_r.
  - simpl. replace (done ++ commit :: commits)%list
      with ((done ++ [commit]) ++ commits)%list by now rewrite <- app_assoc.
    apply IH. now apply counted_step.
Qed.

(** The largest count of a map of counts, as the loop over the values
    finds it. *)
Lemma largest_count (contributorCounts : gmap string Q) :
  let maxCommits :=
    map_fold (fun _ count maxCommits => if JS.gtb count maxCommits then count else maxCommits)
             0 contributorCounts in
  0 <= maxCommits
  /\ (forall who count, contributorCounts !! who = Some count -> count <= maxCommits)
  /\ (contributorCounts <> ∅ ->
      0 < maxCommits -> exists who, contributorCounts !! who = Some maxCommits).
Proof.
  cbv zeta.
  enough (Hall :
    0 <= map_fold (fun _ count maxCommits =>
                     if JS.gtb count maxCommits then count else maxCommits)
                  0 contributorCounts
    /\ (forall who count, contributorCounts !! who = Some count ->
        count <= map_fold (fun _ count maxCommits =>
                             if JS.gtb count maxCommits then count else maxCommits)
                          0 contributorCounts)
    /\ (contributorCounts <> ∅ ->
        0 < map_fold (fun _ count maxCommits =>
                        if JS.gtb count maxCommits then count else maxCommits)
                     0 contributorCounts ->
        exists who,
          contributorCounts !! who =
            Some (map_fold (fun _ count maxCommits =>
                              if JS.gtb count maxCommits then count else maxCommits)
                           0 contributorCounts))
    /\ (contributorCounts = ∅ ->
        map_fold (fun _ count maxCommits =>
                    if JS.gtb count maxCommits then count else maxCommits)
                 0 contributorCounts = 0)) by tauto.
  apply (map_fold_weak_ind
           (fun r (m : gmap string Q) =>
              0 <= r
              /\ (forall who count, m !! who = Some count -> count <= r)
              /\ (m <> ∅ -> 0 < r -> exists who, m !! who = Some r)
              /\ (m = ∅ -> r = 0))).
  - split; [q_order|]. split; [|split; [congruence|reflexivity]].
    intros who c. rewrite lookup_empty. discriminate.
  - intros i x m r Hfresh (Hr & Hmax & Hsome & Hempty).
    assert (Hfull : <[i:=x]> m = ∅ ->
                    (if JS.gtb x r then x else r) = 0).
    { intros Hnone. now apply insert_non_empty in Hnone. }
    destruct (JS.gtb x r) eqn:Hgt.
    + apply gtb_gt in Hgt.
      split; [apply Qlt_le_weak, Qle_lt_trans with r; assumption|].
      split; [|split; [|exact Hfull]].
      * intros who c. destruct (decide (i = who)) as [->|Hne].
        -- rewrite lookup_insert_eq. intros [= <-]. apply Qle_refl.
        -- rewrite lookup_insert_ne by exact Hne. intros Hc.
           apply Qle_trans with r; [now apply Hmax with who|now apply Qlt_le_weak].
      * intros _ _. exists i. apply lookup_insert_eq.
    + apply gtb_le in Hgt. split; [exact Hr|].
      split; [|split; [|exact Hfull]].
      * intros who c. destruct (decide (i = who)) as [->|Hne].
        -- rewrite lookup_insert_eq. now intros [= <-].
        -- rewrite lookup_insert_ne by exact Hne. apply Hmax.
      * intros _ Hpos.
        destruct (decide (m = ∅)) as [Hm|Hm].
        -- exfalso. rewrite (Hempty Hm) in Hpos. now apply Qlt_irrefl in Hpos.
        -- destruct (Hsome Hm Hpos) as (who & Hwho). exists who.
           rewrite lookup_insert_ne; [exact Hwho|]. intros ->. congruence.
Qed.

Lemma tally_le who commits : (tally who commits <= List.length commits)%nat.
Proof. apply filter_length_le. Qed.

Lemma tally_positive who commits :
  (0 < tally who commits)%nat ->
  exists commit, In commit commits /\ contributorOf commit = who.
Proof.
  unfold tally. intros Hpos.
  destruct (List.filter _ commits) as [|commit rest] eqn:Hfilter; [simpl in Hpos; lia|].
  assert (Hin : In commit (List.filter
                  (fun c => String.eqb (contributorOf c) who) commits))
    by (rewrite Hfilter; now left).
  apply filter_In in Hin as [Hin Hwho]. apply String.eqb_eq in Hwho. eauto.
Qed.

Lemma tally_all who commits :
  (forall commit, In commit commits -> contributorOf commit = who) ->
  tally who commits = List.length commits.
Proof.
  unfold tally. induction commits as [|c cs IH]; intros Hsame; [reflexivity|].
  simpl. rewrite (Hsame c (or_introl eq_refl)), String.eqb_refl. simpl.
  f_equal. apply IH. intros commit Hin. apply Hsame. now right.
Qed.

Lemma percent_le (a b n : Q) : 0 < n -> a <= b -> a / n * 100 <= b / n * 100.
Proof.
  intros Hn Hab. apply Qmult_le_compat_r; [|q_order].
  apply Qmult_le_compat_r; [exact Hab|].
  apply Qlt_le_weak, Qinv_lt_0_compat, Hn.
Qed.

Lemma length_positive_Q {A} (xs : list A) : xs <> [] -> 0 < JS.length xs.
Proof.
  intros Hne. destruct xs as [|x xs]; [congruence|]. apply gtb_gt, length_positive.
Qed.

Lemma share_le_100 who commits : commits <> [] -> share who commits <= 100.
Proof.
  intros Hne. pose proof (length_positive_Q Hne) as Hlen. unfold share.
  apply Qle_trans with (JS.length commits / JS.length commits * 100).
  - apply percent_le; [exact Hlen|]. unfold JS.length. rewrite <- Zle_Qle.
    pose proof (tally_le who commits). lia.
  - unfold Qdiv. rewrite Qmult_inv_r; [q_order|].
    intros H. rewrite H in Hlen. now apply Qlt_irrefl in Hlen.
Qed.

Lemma share_positive who commits :
  (0 < tally who commits)%nat -> 0 < share who commits.
Proof.
  intros Htally. unfold share.
  assert (Hne : commits <> []).
  { intros ->. unfold tally in Htally. simpl in Htally. lia. }
  apply Qmult_lt_0_compat; [|reflexivity].
  apply Qmult_lt_0_compat.
  - change 0 with (inject_Z 0). rewrite <- Zlt_Qlt. lia.
  - apply Qinv_lt_0_compat, length_positive_Q, Hne.
Qed.

(** The ratio of a non-empty list of commits is the share of one of its
    contributors, and no contributor has a larger share. *)
Lemma topContributorRatio_attained (commits : list GitHubCommit) :
  commits <> [] ->
  exists top,
    (0 < tally top commits)%nat
    /\ calculateTopContributorRatio commits = share top commits
    /\ forall who, share who commits <= calculateTopContributorRatio commits.
Proof.
  intros Hne. pose proof (length_positive_Q Hne) as Hlen.
  unfold calculateTopContributorRatio.
  replace (Qeq_bool (JS.length commits) 0) with false.
  2:{ symmetry. apply not_true_is_false. intros H. apply Qeq_bool_iff in H.
      rewrite H in Hlen. now apply Qlt_irrefl in Hlen. }
  change (fold_left _ commits ∅) with (fold_left countCommit commits ∅).
  assert (Hcounted : counted (fold_left countCommit commits ∅) commits).
  { apply (counted_fold commits (contributorCounts := ∅) (done := [])).
    intros who. simpl. apply lookup_empty. }
  set (contributorCounts := fold_left countCommit commits ∅) in *.
  destruct (largest_count contributorCounts) as (Hmax0 & Hmax & Hsome).
  set (maxCommits := map_fold _ 0 contributorCounts) in *.
  assert (Hfirst : exists who n,
             contributorCounts !! who = Some (inject_Z (Z.of_nat (S n)))).
  { destruct commits as [|c cs]; [congruence|].
    exists (contributorOf c). specialize (Hcounted (contributorOf c)).
    unfold tally in Hcounted. simpl in Hcounted.
    rewrite String.eqb_refl in Hcounted. simpl in Hcounted. eauto. }
  destruct Hfirst as (who0 & n0 & Hwho0).
  assert (Hpos : 0 < maxCommits).
  { apply Qlt_le_trans with (inject_Z (Z.of_nat (S n0))); [|now apply Hmax with who0].
    change 0 with (inject_Z 0). rewrite <- Zlt_Qlt. lia. }
  assert (Hfull : contributorCounts <> ∅).
  { intros Hempty. rewrite Hempty, lookup_empty in Hwho0. discriminate. }
  destruct (Hsome Hfull Hpos) as (top & Htop).
  exists top. pose proof (Hcounted top) as Hc. rewrite Htop in Hc.
  split; [|split].
  - destruct (tally top commits); [discriminate|lia].
  - unfold share. destruct (tally top commits) as [|n]; [discriminate|].
    now injection Hc as ->.
  - intros who. unfold share. apply percent_le; [exact Hlen|].
    pose proof (Hcounted who) as Hw.
    destruct (tally who commits) as [|n]; [exact Hmax0|].
    now apply Hmax with who.
Qed.

Lemma calculateTopContributorRatio_bounds (commits : list GitHubCommit) :
  0 <= calculateTopContributorRatio commits
  /\ calculateTopContributorRatio commits <= 100.
Proof.
  destruct commits as [|c cs]; [split; q_order|].
  destruct (@topContributorRatio_attained (c :: cs) ltac:(discriminate))
    as (top & Htally & -> & _).
  split; [apply Qlt_le_weak, share_positive, Htally|].
  now apply share_le_100.
Qed.

(** X16. [calculateTopContributorRatio] is 0 without commits.  Otherwise it
    is the largest share of the commits that one contributor key has, in
    percent: no key has a larger share, one key of the commits has exactly
    this share, and the ratio is above 0 and at most 100.  It is 100 when
    all commits are counted under one key. *)
Theorem calculateTopContributorRatio_largest_share (commits : list GitHubCommit) :
  (commits = [] -> calculateTopContributorRatio commits = 0)
  /\ (commits <> [] ->
      (forall who, share who commits <= calculateTopContributorRatio commits)
      /\ (exists commit,
            In commit commits
            /\ calculateTopContributorRatio commits
               = share (contributorOf commit) commits)
      /\ 0 < calculateTopContributorRatio commits
      /\ calculateTopContributorRatio commits <= 100
      /\ (forall who,
            (forall commit, In commit commits -> contributorOf commit = who) ->
            calculateTopContributorRatio commits == 100)).
Proof.
  split; [now intros ->|]. intros Hne.
  destruct (topContributorRatio_attained Hne) as (top & Htally & Hratio & Hall).
  destruct (tally_positive top commits Htally) as (commit & Hin & Hwho).
  split; [exact Hall|]. split.
  { exists commit. split; [exact Hin|]. now rewrite Hwho. }
  split; [rewrite Hratio; now apply share_positive|].
  split; [rewrite Hratio; now apply share_le_100|].
  intros who Hsame. rewrite Hratio.
  assert (Heq : top = who) by (rewrite <- Hwho; now apply Hsame).
  rewrite Heq. unfold share.
  rewrite (@tally_all who commits Hsame).
  change (inject_Z (Z.of_nat (List.length commits))) with (JS.length commits).
  pose proof (length_positive_Q Hne) as Hlen.
  unfold Qdiv. rewrite Qmult_inv_r; [reflexivity|].
  intros H. rewrite H in Hlen. now apply Qlt_irrefl in Hlen.
Qed.
End TopContributor.

(* ===================================================================== *)
(** * The median splits the values *)
(* ===================================================================== *)

Section MedianMore.
Import Metrics Props.

Lemma filter_length_permutation {A} (p : A -> bool) (l1 l2 : list A) :
  Permutation l1 l2 ->
  List.length (List.filter p l1) = List.length (List.filter p l2).
Proof.
  induction 1 as [|x l1 l2 _ IH|x y l|l1 l2 l3 _ IH1 _ IH2]; simpl.
  - reflexivity.
  - destruct (p x); simpl; congruence.
  - destruct (p x), (p y); reflexivity.
  - congruence.
Qed.

Lemma filter_all {A} (p : A -> bool) (l : list A) :
  (forall x, In x l -> p x = true) -> List.filter p l = l.
Proof.
  induction l as [|x l IH]; intros Hall; simpl; [reflexivity|].
  rewrite (Hall x (or_introl eq_refl)). f_equal. apply IH.
  intros y Hy. apply Hall. now right.
Qed.

(** In a non-decreasing list, the element at an earlier position is at
    most the one at a later position. *)
Lemma nonDecreasing_nth (l : list Q) (i j : nat) :
  Spec.nonDecreasing l -> (i <= j < List.length l)%nat ->
  nth i l 0 <= nth j l 0.
Proof.
  intros Hsorted. apply Sorted_StronglySorted in Hsorted;
    [|intros a b c; apply Qle_trans].
  revert i j. induction Hsorted as [|a l Hl IH Ha]; intros i j Hij; simpl in *; [lia|].
  destruct i as [|i], j as [|j]; try lia.
  - apply Qle_refl.
  - rewrite List.Forall_forall in Ha. apply Ha, nth_In. lia.
  - apply IH. lia.
Qed.

Lemma firstn_nth (l : list Q) (k : nat) (x : Q) :
  In x (firstn k l) -> exists i, (i < k)%nat /\ (i < List.length l)%nat /\ x = nth i l 0.
Proof.
  revert k. induction l as [|a l IH]; intros [|k] Hin; simpl in *; try contradiction.
  destruct Hin as [<-|Hin].
  - exists 0%nat. repeat split; lia.
  - destruct (IH k Hin) as (i & Hi & Hlen & ->). exists (S i). repeat split; lia.
Qed.

Lemma skipn_nth (l : list Q) (k : nat) (x : Q) :
  In x (skipn k l) -> exists i, (k <= i < List.length l)%nat /\ x = nth i l 0.
Proof.
  revert k. induction l as [|a l IH]; intros [|k] Hin; simpl in *; try contradiction.
  - destruct Hin as [<-|Hin].
    + exists 0%nat. split; [lia|reflexivity].
    + destruct (IH 0%nat Hin) as (i & Hi & ->). exists (S i). split; [lia|reflexivity].
  - destruct (IH k Hin) as (i & Hi & ->). exists (S i). split; [lia|reflexivity].
Qed.

(** The values up to position [k - 1] of a non-decreasing list are at most
    [m] when the value at [k - 1] is. *)
Lemma atMost_firstn (l : list Q) (k : nat) (m : Q) :
  Spec.nonDecreasing l -> (0 < k <= List.length l)%nat ->
  nth (k - 1) l 0 <= m -> (k <= atMost m l)%nat.
Proof.
  intros Hsorted Hk Hm. unfold atMost.
  rewrite <- (firstn_skipn k l) at 1. rewrite List.filter_app, length_app.
  rewrite filter_all.
  - rewrite length_firstn. lia.
  - intros x Hx. apply Qle_bool_iff.
    destruct (@firstn_nth _ _ _ Hx) as (i & Hi & Hlen & ->).
    apply Qle_trans with (nth (k - 1) l 0); [|exact Hm].
    apply nonDecreasing_nth; [exact Hsorted|lia].
Qed.

(** The values from position [k] on are at least [m] when the value at
    [k] is. *)
Lemma atLeast_skipn (l : list Q) (k : nat) (m : Q) :
  Spec.nonDecreasing l -> (k < List.length l)%nat ->
  m <= nth k l 0 -> (List.length l - k <= atLeast m l)%nat.
Proof.
  intros Hsorted Hk Hm. unfold atLeast.
  rewrite <- (firstn_skipn k l) at 2. rewrite List.filter_app, length_app.
  rewrite (filter_all _ (skipn k l)).
  - rewrite length_skipn. lia.
  - intros x Hx. apply Qle_bool_iff.
    destruct (@skipn_nth _ _ _ Hx) as (i & Hi & ->).
    apply Qle_trans with (nth k l 0); [exact Hm|].
    apply nonDecreasing_nth; [exact Hsorted|lia].
Qed.

Lemma average_between (a b : Q) : a <= b -> a <= (a + b) / 2 /\ (a + b) / 2 <= b.
Proof.
  intros Hab. split.
  - apply Qle_shift_div_l; [reflexivity|].
    assert (Ha : a * 2 == a + a) by ring. rewrite Ha. now apply Qplus_le_r.
  - apply Qle_shift_div_r; [reflexivity|].
    assert (Hb : b * 2 == b + b) by ring. rewrite Hb. now apply Qplus_le_l.
Qed.

(** The middle of a non-decreasing list splits it in halves. *)
Lemma middleOf_halves (sorted : list Q) :
  sorted <> [] -> Spec.nonDecreasing sorted ->
  (List.length sorted <= 2 * atMost (Spec.middleOf sorted) sorted)%nat
  /\ (List.length sorted <= 2 * atLeast (Spec.middleOf sorted) sorted)%nat.
Proof.
  intros Hne Hsorted. unfold Spec.middleOf.
  assert (Hn : (0 < List.length sorted)%nat)
    by (destruct sorted; [congruence|simpl; lia]).
  set (n := List.length sorted) in *.
  destruct (Nat.even n) eqn:Heven.
  - apply Nat.even_spec in Heven as [k Hk].
    assert (Hdiv : (n / 2 = k)%nat) by (rewrite Hk, Nat.mul_comm; now apply Nat.div_mul).
    rewrite Hdiv.
    destruct (@average_between (nth (k - 1) sorted 0) (nth k sorted 0)) as [Hlo Hhi].
    { apply nonDecreasing_nth; [exact Hsorted|fold n; lia]. }
    split.
    + pose proof (@atMost_firstn sorted k _ Hsorted ltac:(fold n; lia) Hlo). lia.
    + pose proof (@atLeast_skipn sorted k _ Hsorted ltac:(fold n; lia) Hhi).
      fold n in H. lia.
  - assert (Hodd : Nat.odd n = true) by (rewrite <- Nat.negb_even, Heven; reflexivity).
    apply Nat.odd_spec in Hodd as [k Hk].
    assert (Hdiv : (n / 2 = k)%nat).
    { rewrite Hk, Nat.add_comm, Nat.mul_comm, Nat.div_add; [reflexivity|lia]. }
    rewrite Hdiv. split.
    + pose proof (@atMost_firstn sorted (S k) (nth k sorted 0) Hsorted
                    ltac:(fold n; lia)) as H.
      replace (S k - 1)%nat with k in H by lia.
      specialize (H (Qle_refl _)). lia.
    + pose proof (@atLeast_skipn sorted k (nth k sorted 0) Hsorted
                    ltac:(fold n; lia) (Qle_refl _)) as H.
      fold n in H. lia.
Qed.

(** X17. The number that [calculateMedian] returns for a non-empty list
    splits the values in halves: at least half of them are at most it and
    at least half of them are at least it.  It lies between the smallest
    and the largest value, and it does not depend on the order of the
    values. *)
Theorem calculateMedian_halves (values : list Q) :
  values <> [] ->
  exists median : Q,
    calculateMedian values = Some median
    /\ (List.length values <= 2 * atMost median values)%nat
    /\ (List.length values <= 2 * atLeast median values)%nat
    /\ (exists low high, In low values /\ In high values
                         /\ low <= median /\ median <= high)
    /\ (forall shuffled, Permutation values shuffled ->
          exists median', calculateMedian shuffled = Some median'
                          /\ median' == median).
Proof.
  intros Hne.
  set (sorted := JS.sort Qle_bool values).
  assert (Hperm : Permutation values sorted) by apply sort_permutation.
  assert (Hsorted : Spec.nonDecreasing sorted) by apply numeric_sort_sorted.
  assert (Hne' : sorted <> []).
  { intros Hnil. rewrite Hnil in Hperm. symmetry in Hperm.
    now apply Permutation_nil in Hperm. }
  destruct (middleOf_halves Hne' Hsorted) as [Hlow Hhigh].
  unfold atMost, atLeast in Hlow, Hhigh.
  rewrite <- (filter_length_permutation _ Hperm) in Hlow.
  rewrite <- (filter_length_permutation _ Hperm) in Hhigh.
  rewrite <- (Permutation_length Hperm) in Hlow, Hhigh.
  assert (Hlen : (0 < List.length values)%nat)
    by (destruct values; [congruence|simpl; lia]).
  exists (Spec.middleOf sorted).
  split; [now apply calculateMedian_sorted|].
  split; [exact Hlow|]. split; [exact Hhigh|]. split.
  - destruct (List.filter (fun v => Qle_bool v (Spec.middleOf sorted)) values)
      as [|low ?] eqn:Hl; [simpl in Hlow; lia|].
    destruct (List.filter (fun v => Qle_bool (Spec.middleOf sorted) v) values)
      as [|high ?] eqn:Hh; [simpl in Hhigh; lia|].
    assert (Hinl : In low (List.filter (fun v => Qle_bool v (Spec.middleOf sorted)) values))
      by (rewrite Hl; now left).
    assert (Hinh : In high (List.filter (fun v => Qle_bool (Spec.middleOf sorted) v) values))
      by (rewrite Hh; now left).
    apply filter_In in Hinl as [Hinl Hle1]. apply filter_In in Hinh as [Hinh Hle2].
    apply Qle_bool_iff in Hle1. apply Qle_bool_iff in Hle2.
    exists low, high. now repeat split.
  - intros shuffled Hshuffled.
    assert (Hne2 : shuffled <> []).
    { intros Hnil. rewrite Hnil in Hshuffled. symmetry in Hshuffled.
      now apply Permutation_nil in Hshuffled. }
    exists (Spec.middleOf (JS.sort Qle_bool shuffled)).
    split; [now apply calculateMedian_sorted|].
    apply middleOf_pointwise, sorted_unique.
    + apply numeric_sort_sorted.
    + exact Hsorted.
    + rewrite <- Hperm, Hshuffled. symmetry. apply sort_permutation.
Qed.
End MedianMore.

(* ===================================================================== *)
(** * The latest release and the release counts *)
(* ===================================================================== *)

Section ReleaseMore.
Import Metrics Props.
Variable getTime : string -> Z.
Variable now : Z.

Lemma filter_map_commute {A B} (f : A -> B) (p : B -> bool) (xs : list A) :
  List.filter p (map f xs) = map f (List.filter (fun x => p (f x)) xs).
Proof.
  induction xs as [|x xs IH]; simpl; [reflexivity|].
  destruct (p (f x)); simpl; now rewrite IH.
Qed.

Lemma head_filter_find {A} (p : A -> bool) (xs : list A) :
  head (List.filter p xs) = List.find p xs.
Proof.
  induction xs as [|x xs IH]; simpl; [reflexivity|].
  now destruct (p x).
Qed.

Lemma filter_narrow_length {A} (p q : A -> bool) (xs : list A) :
  (List.length (List.filter (fun x => p x && q x) xs)
   <= List.length (List.filter q xs))%nat.
Proof.
  induction xs as [|x xs IH]; simpl; [lia|].
  destruct (p x), (q x); simpl; lia.
Qed.

Lemma calculateReleaseStats_counts (releases : list GitHub.GitHubRelease) :
  let stats := calculateReleaseStats getTime now releases in
  0 <= Rollup.releasesLast90Days stats
  /\ Rollup.releasesLast90Days stats <= Rollup.totalReleases stats
  /\ Rollup.totalReleases stats <= JS.length releases.
Proof.
  cbv zeta. unfold calculateReleaseStats. simpl.
  rewrite !filter_map_commute. simpl. unfold JS.length. rewrite !length_map.
  change 0 with (inject_Z 0). rewrite <- !Zle_Qle.
  split; [lia|]. split.
  - apply Nat2Z.inj_le, filter_narrow_length.
  - apply Nat2Z.inj_le, filter_length_le.
Qed.

(** X18. The latest release of [calculateReleaseStats] is the first release
    of the list that is not a prerelease, in the order the list has: no
    date is compared.  There is none exactly when no release counts.  The
    releases of the last 90 days are the releases that are not prereleases
    and were published at most 90 days before now, so they are at most
    [totalReleases], which is at most the number of releases. *)
Theorem calculateReleaseStats_latest (releases : list GitHub.GitHubRelease) :
  let stats := calculateReleaseStats getTime now releases in
  let recent (release : GitHub.GitHubRelease) :=
    (now - 90 * 24 * 60 * 60 * 1000 <=? getTime (GitHub.published_at release))%Z
    && negb (GitHub.prerelease release) in
  Rollup.latestRelease stats
    = option_map (releaseStat getTime now)
        (List.find (fun release => negb (GitHub.prerelease release)) releases)
  /\ (Rollup.latestRelease stats = None <-> Rollup.totalReleases stats = 0)
  /\ Rollup.releasesLast90Days stats = JS.length (List.filter recent releases)
  /\ Rollup.releasesLast90Days stats <= Rollup.totalReleases stats
  /\ Rollup.totalReleases stats <= JS.length releases
  /\ List.length (Rollup.releases stats) = List.length releases.
Proof.
  cbv zeta.
  split; [|split; [|split; [|split; [|split]]]];
    try apply (calculateReleaseStats_counts releases);
    unfold calculateReleaseStats; simpl; rewrite ?filter_map_commute; simpl.
  - destruct (List.filter _ releases) as [|r rs] eqn:Hfilter.
    + rewrite <- head_filter_find. fold (Spec.nonPrereleases releases).
      unfold Spec.nonPrereleases. now rewrite Hfilter.
    + simpl map. rewrite length_positive.
      rewrite <- head_filter_find. now rewrite Hfilter.
  - destruct (List.filter _ releases) as [|r rs] eqn:Hfilter.
    + simpl. tauto.
    + simpl map. rewrite length_positive. simpl.
      split; [discriminate|]. unfold JS.length. simpl length.
      intros H. exfalso. discriminate H.
  - unfold JS.length. now rewrite length_map.
  - apply length_map.
Qed.

(** X19. [daysAgo] of a release is the number of whole days that have
    passed since it was published, rounded down: it is negative for a
    release dated after now and 0 during the first 24 hours. *)
Theorem releaseStat_daysAgo (release : GitHub.GitHubRelease) :
  exists days : Z,
    ReleaseStats.daysAgo (releaseStat getTime now release) = inject_Z days
    /\ (days * 86400000 <= now - getTime (GitHub.published_at release)
        < (days + 1) * 86400000)%Z.
Proof.
  unfold releaseStat, JS.Math_floor. simpl.
  set (elapsed := (now - getTime (GitHub.published_at release))%Z).
  exists (Qfloor (inject_Z elapsed / (1000 * 60 * 60 * 24))).
  split; [reflexivity|].
  assert (Hq : inject_Z elapsed / (1000 * 60 * 60 * 24) == elapsed # 86400000).
  { unfold Qdiv, Qeq. simpl. lia. }
  rewrite Hq. unfold Qfloor.
  pose proof (Z.div_mod elapsed 86400000 ltac:(lia)) as Hdm.
  pose proof (Z.mod_pos_bound elapsed 86400000 ltac:(lia)) as Hmod.
  change (Z.pos 86400000) with 86400000%Z. lia.
Qed.
End ReleaseMore.

(* ===================================================================== *)
(** * The parts of the health score *)
(* ===================================================================== *)

Section ScoreParts.
Import Metrics Props.

Ltac split_buckets :=
  repeat match goal with
         | |- context [if ?c then _ else _] => destruct c eqn:?
         end.

(** Turns the threshold tests among the hypotheses into inequalities. *)
Ltac thresholds :=
  repeat match goal with
         | H : JS.ltb _ _ = true |- _ => apply ltb_lt in H
         | H : JS.ltb _ _ = false |- _ => apply ltb_ge in H
         | H : JS.geb _ _ = true |- _ => apply geb_ge in H
         | H : JS.geb _ _ = false |- _ => apply geb_lt in H
         | H : JS.leb _ _ = true |- _ => apply leb_le in H
         | H : JS.gtb _ _ = true |- _ => apply gtb_gt in H
         | H : JS.gtb _ _ = false |- _ => apply gtb_le in H
         end.

Lemma leb_gt (a b : Q) : JS.leb a b = false <-> b < a.
Proof.
  unfold JS.leb. split.
  - intros H. apply Qnot_le_lt. intros Hle. apply Qle_bool_iff in Hle. congruence.
  - intros H. destruct (Qle_bool a b) eqn:Hb; [|reflexivity].
    apply Qle_bool_iff in Hb. exfalso. exact (Qlt_not_le _ _ H Hb).
Qed.

Lemma Math_round_le (x y : Q) : x <= y -> JS.Math_round x <= JS.Math_round y.
Proof.
  intros Hxy. unfold JS.Math_round. rewrite <- Zle_Qle.
  apply Qfloor_resp_le. now apply Qplus_le_l.
Qed.

Lemma Math_round_between (lo hi : Z) (x : Q) :
  inject_Z lo <= x -> x <= inject_Z hi ->
  inject_Z lo <= JS.Math_round x /\ JS.Math_round x <= inject_Z hi.
Proof.
  intros Hlo Hhi.
  assert (Hround : forall z : Z, JS.Math_round (inject_Z z) = inject_Z z).
  { intros z. unfold JS.Math_round. f_equal. unfold Qfloor, Qplus, inject_Z. simpl.
    rewrite Z.mul_1_r.
    replace (z * 2 + 1)%Z with (1 + z * 2)%Z by lia.
    rewrite Z.div_add by lia. reflexivity. }
  split.
  - rewrite <- (Hround lo). now apply Math_round_le.
  - rewrite <- (Hround hi). now apply Math_round_le.
Qed.

Lemma ratio_between (o c : Q) :
  0 <= o -> 0 <= c -> 0 < o + c -> 0 <= c / (o + c) * 20 /\ c / (o + c) * 20 <= 20.
Proof.
  intros Ho Hc Htotal. split.
  - apply Qmult_le_0_compat; [|discriminate].
    apply Qle_shift_div_l; [exact Htotal|]. now rewrite Qmult_0_l.
  - assert (H : c / (o + c) <= 1).
    { apply Qle_shift_div_r; [exact Htotal|]. rewrite Qmult_1_l.
      rewrite <- (Qplus_0_l c) at 1. now apply Qplus_le_l. }
    apply Qle_trans with (1 * 20); [|discriminate].
    apply Qmult_le_compat_r; [exact H|discriminate].
Qed.

Lemma responseTimeScore_bounds t :
  4 <= responseTimeScore t /\ responseTimeScore t <= 20.
Proof. unfold responseTimeScore. destruct t; split_buckets; split; discriminate. Qed.

Lemma busFactorScore_bounds r : 4 <= busFactorScore r /\ busFactorScore r <= 20.
Proof. unfold busFactorScore. split_buckets; split; discriminate. Qed.

Lemma releaseActivityScore_bounds l :
  4 <= releaseActivityScore l /\ releaseActivityScore l <= 20.
Proof. unfold releaseActivityScore. destruct l; split_buckets; split; discriminate. Qed.

Lemma issueResolutionScore_bounds o c :
  0 <= o -> 0 <= c ->
  0 <= issueResolutionScore o c /\ issueResolutionScore o c <= 20.
Proof.
  intros Ho Hc. unfold issueResolutionScore.
  destruct (JS.gtb (o + c) 0) eqn:Htotal; [|split; discriminate].
  apply gtb_gt in Htotal.
  destruct (ratio_between Ho Hc Htotal) as [Hlo Hhi].
  exact (@Math_round_between 0%Z 20%Z _ Hlo Hhi).
Qed.

Lemma commitActivityScore_bounds n :
  0 <= n -> 0 <= commitActivityScore n /\ commitActivityScore n <= 20.
Proof.
  intros Hn. unfold commitActivityScore. split_buckets; try (split; discriminate).
  thresholds.
  apply (@Math_round_between 0%Z 20%Z).
  - apply Qmult_le_0_compat; [|discriminate].
    apply Qle_shift_div_l; [reflexivity|]. now rewrite Qmult_0_l.
  - apply Qle_trans with (1 * 8); [|discriminate].
    apply Qmult_le_compat_r; [|discriminate].
    apply Qle_shift_div_r; [reflexivity|]. rewrite Qmult_1_l. now apply Qlt_le_weak.
Qed.

(** X20. With counts that are not negative, the clamp at the end of
    [calculateHealthScore] never acts: the score is the sum of the five
    parts, which lie in 4..20, 0..20, 0..20, 4..20 and 4..20, so that no
    repository scores below 12. *)
Theorem calculateHealthScore_at_least_12 (metrics : MetricsData.t) :
  0 <= MetricsData.openIssuesCount metrics ->
  0 <= MetricsData.closedIssuesCount metrics ->
  0 <= MetricsData.totalCommitsLast90Days metrics ->
  calculateHealthScore metrics = rawHealthScore metrics
  /\ 12 <= calculateHealthScore metrics
  /\ calculateHealthScore metrics <= 100.
Proof.
  intros Hopen Hclosed Hcommits.
  pose proof (rawHealthScore_sum metrics) as Hsum.
  destruct (responseTimeScore_bounds (MetricsData.medianIssueResponseTime metrics))
    as [Hr1 Hr2].
  destruct (issueResolutionScore_bounds Hopen Hclosed) as [Hi1 Hi2].
  destruct (commitActivityScore_bounds Hcommits) as [Hc1 Hc2].
  destruct (busFactorScore_bounds (MetricsData.topContributorRatio metrics))
    as [Hb1 Hb2].
  destruct (releaseActivityScore_bounds (MetricsData.latestRelease metrics))
    as [Hl1 Hl2].
  assert (Hlo : 12 <= rawHealthScore metrics).
  { rewrite Hsum.
    change 12 with (4 + 0 + 0 + 4 + 4). repeat apply Qplus_le_compat; assumption. }
  assert (Hhi : rawHealthScore metrics <= 100).
  { rewrite Hsum.
    change 100 with (20 + 20 + 20 + 20 + 20). repeat apply Qplus_le_compat; assumption. }
  assert (Heq : calculateHealthScore metrics = rawHealthScore metrics).
  { unfold calculateHealthScore, JS.Math_min, JS.Math_max.
    assert (H0 : 0 <= rawHealthScore metrics)
      by (apply Qle_trans with 12; [discriminate|exact Hlo]).
    unfold Qmax, Qmin, GenericMinMax.gmax, GenericMinMax.gmin.
    destruct (0 ?= rawHealthScore metrics) eqn:Hcmp0.
    - apply Qeq_alt in Hcmp0. rewrite <- Hcmp0 in Hlo.
      exfalso. unfold Qle in Hlo. simpl in Hlo. lia.
    - destruct (100 ?= rawHealthScore metrics) eqn:Hcmp; try reflexivity.
      + apply Qeq_alt in Hcmp. destruct (rawHealthScore_integer metrics) as [z Hz].
        rewrite Hz in *. unfold Qeq in Hcmp. simpl in Hcmp.
        assert (z = 100%Z) as -> by lia. reflexivity.
      + apply Qlt_alt in Hcmp. exfalso. exact (Qlt_not_le _ _ Hcmp Hhi).
    - apply Qgt_alt in Hcmp0. exfalso. exact (Qlt_not_le _ _ Hcmp0 H0). }
  rewrite Heq. now repeat split.
Qed.

Lemma cross_ratio (o c c' : Q) :
  0 <= o -> 0 < o + c -> c <= c' -> c / (o + c) <= c' / (o + c').
Proof.
  intros Ho Htotal Hcc'.
  assert (Htotal' : 0 < o + c').
  { apply Qlt_le_trans with (o + c); [exact Htotal|]. now apply Qplus_le_r. }
  apply Qle_shift_div_r; [exact Htotal|].
  assert (H : c' / (o + c') * (o + c) == (c' * (o + c)) / (o + c')).
  { field. intros Hz. rewrite Hz in Htotal'. now apply Qlt_irrefl in Htotal'. }
  rewrite H. apply Qle_shift_div_l; [exact Htotal'|].
  assert (H1 : c * (o + c') == c * o + c * c') by ring.
  assert (H2 : c' * (o + c) == c' * o + c * c') by ring.
  rewrite H1, H2. apply Qplus_le_l. now apply Qmult_le_compat_r.
Qed.

(** X21. Each part of the health score moves the right way: a shorter
    median response time, more closed issues beside the same open ones,
    more commits, a smaller share of the top contributor and a younger
    latest release never lower their part of the score, and a release
    never scores below no release. *)
Theorem healthScore_parts_monotone :
  (forall a b, a <= b -> responseTimeScore (Some b) <= responseTimeScore (Some a))
  /\ (forall o c c', 0 <= o -> 0 <= c -> c <= c' ->
        issueResolutionScore o c <= issueResolutionScore o c')
  /\ (forall a b, a <= b -> commitActivityScore a <= commitActivityScore b)
  /\ (forall a b, a <= b -> busFactorScore b <= busFactorScore a)
  /\ (forall latest latest',
        ReleaseStats.daysAgo latest <= ReleaseStats.daysAgo latest' ->
        releaseActivityScore (Some latest') <= releaseActivityScore (Some latest))
  /\ (forall latest, releaseActivityScore None <= releaseActivityScore (Some latest)).
Proof.
  split; [|split; [|split; [|split; [|split]]]].
  - intros a b Hab. unfold responseTimeScore. split_buckets; thresholds;
      try discriminate; exfalso;
      match goal with
      | H1 : b < ?k, H2 : ?k <= a |- _ =>
          exact (Qlt_not_le _ _ H1 (Qle_trans _ _ _ H2 Hab))
      end.
  - intros o c c' Ho Hc Hcc'. unfold issueResolutionScore.
    destruct (JS.gtb (o + c) 0) eqn:Htotal.
    + apply gtb_gt in Htotal.
      assert (Htotal' : 0 < o + c').
      { apply Qlt_le_trans with (o + c); [exact Htotal|]. now apply Qplus_le_r. }
      apply gtb_gt in Htotal'. rewrite Htotal'.
      apply Math_round_le. apply Qmult_le_compat_r; [|discriminate].
      apply gtb_gt in Htotal'. now apply cross_ratio.
    + destruct (JS.gtb (o + c') 0) eqn:Htotal'; [|apply Qle_refl].
      apply gtb_le in Htotal. apply gtb_gt in Htotal'.
      assert (Ho0 : o == 0).
      { apply Qle_antisym; [|exact Ho].
        apply Qle_trans with (o + c); [|exact Htotal].
        rewrite <- (Qplus_0_r o) at 1. now apply Qplus_le_r. }
      assert (Hratio : c' / (o + c') * 20 == 20).
      { rewrite Ho0, Qplus_0_l. field. intros Hz.
        rewrite Ho0, Qplus_0_l, Hz in Htotal'. now apply Qlt_irrefl in Htotal'. }
      rewrite (Math_round_proper Hratio). discriminate.
  - intros a b Hab. unfold commitActivityScore.
    assert (Hsmall : forall x, x < 10 -> JS.Math_round (x / 10 * 8) <= 8).
    { intros x Hx. apply Qle_trans with (JS.Math_round 8); [|discriminate].
      apply Math_round_le.
      apply Qle_trans with (1 * 8); [|discriminate].
      apply Qmult_le_compat_r; [|discriminate].
      apply Qle_shift_div_r; [reflexivity|]. rewrite Qmult_1_l.
      now apply Qlt_le_weak. }
    split_buckets; thresholds; try discriminate;
      try (exfalso;
           match goal with
           | H1 : b < ?k, H2 : ?k <= a |- _ =>
               exact (Qlt_not_le _ _ H1 (Qle_trans _ _ _ H2 Hab))
           end);
      try (apply Qle_trans with 8; [now apply Hsmall|discriminate]).
    apply Math_round_le. apply Qmult_le_compat_r; [|discriminate].
    apply Qmult_le_compat_r; [exact Hab|discriminate].
  - intros a b Hab. unfold busFactorScore. split_buckets; thresholds;
      try discriminate; exfalso;
      match goal with
      | H1 : b < ?k, H2 : ?k <= a |- _ =>
          exact (Qlt_not_le _ _ H1 (Qle_trans _ _ _ H2 Hab))
      end.
  - intros latest latest' Hdays. unfold releaseActivityScore.
    split_buckets; try discriminate; exfalso;
      repeat match goal with
             | H : JS.leb _ _ = true |- _ => apply leb_le in H
             | H : JS.leb _ _ = false |- _ => apply leb_gt in H
             end;
      match goal with
      | H1 : ?k < ReleaseStats.daysAgo latest, H2 : ReleaseStats.daysAgo latest' <= ?k |- _ =>
          exact (Qlt_not_le _ _ H1 (Qle_trans _ _ _ Hdays H2))
      end.
  - intros latest. unfold releaseActivityScore. split_buckets; discriminate.
Qed.
End ScoreParts.

(* ===================================================================== *)
(** * The response times *)
(* ===================================================================== *)

Section ResponseTimes.
Import Eff GitHub Logic Metrics Props.
Context {E : Type}.
Variable getTime : string -> Z.
Variable commentsOf : Q -> Reply (list GitHubIssueComment).

Lemma fetchIssueComments_served (reply : Reply (list GitHubIssueComment)) :
  fetchIssueComments (E:=E) reply = ([], Returned (commentsServed reply)).
Proof.
  unfold fetchIssueComments, commentsServed.
  destruct reply as [response|error]; [|reflexivity].
  simpl. destruct (ok response); simpl; [reflexivity|].
  now destruct ((status response =? 504)%Z || (500 <=? status response)%Z).
Qed.

Lemma bind_returned {A B} (a : A) (k : A -> M E B) :
  bind ([], Returned a) k = k a.
Proof. unfold bind. now destruct (k a). Qed.

Lemma calculateIssueResponseTime_run (issue : GitHubIssue) :
  calculateIssueResponseTime (E:=E) getTime commentsOf issue
  = ([], Returned (responseTime getTime commentsOf issue)).
Proof.
  unfold calculateIssueResponseTime, responseTime.
  rewrite fetchIssueComments_served.
  destruct (commentsServed (commentsOf (number issue))) as [|c cs]; [reflexivity|].
  rewrite bind_returned.
  replace (Qeq_bool (JS.length (c :: cs)) 0) with false.
  2:{ symmetry. apply not_true_is_false. intros H. apply Qeq_bool_iff in H.
      change 0 with (inject_Z (Z.of_nat 0)) in H. apply length_nat in H.
      discriminate H. }
  fold byUser. now destruct (List.find byUser (c :: cs)).
Qed.

(** X22. [calculateIssueResponseTime] never throws and reports nothing.  It
    measures the hours from the creation of the issue to the first served
    comment whose author has the type 'User', whoever that author is, and
    answers null when no such comment is served: when the request fails,
    when there is no comment, or when every comment is by a bot. *)
Theorem calculateIssueResponseTime_first_user_comment (issue : GitHubIssue) :
  calculateIssueResponseTime (E:=E) getTime commentsOf issue
  = ([], Returned (responseTime getTime commentsOf issue))
  /\ (forall hours, responseTime getTime commentsOf issue = Some hours ->
        exists earlier first later,
          commentsServed (commentsOf (number issue)) = earlier ++ first :: later
          /\ Forall (fun comment => byUser comment = false) earlier
          /\ byUser first = true
          /\ hours * 3600000
             == inject_Z (getTime (comment_created_at first)
                          - getTime (created_at issue)))
  /\ (responseTime getTime commentsOf issue = None <->
      Forall (fun comment => byUser comment = false)
             (commentsServed (commentsOf (number issue)))).
Proof.
  split; [|split].
  - apply calculateIssueResponseTime_run.
  - intros hours Hhours. unfold responseTime in Hhours.
    induction (commentsServed (commentsOf (number issue))) as [|c cs IH];
      [discriminate|].
    simpl in Hhours. destruct (byUser c) eqn:Hc.
    + exists [], c, cs. split; [reflexivity|]. split; [constructor|].
      split; [exact Hc|]. simpl in Hhours. injection Hhours as <-.
      unfold hoursUntil. field.
    + destruct (IH Hhours) as (earlier & first & later & -> & Hearlier & Hfirst & Hh).
      exists (c :: earlier), first, later. split; [reflexivity|].
      split; [now constructor|]. now split.
  - unfold responseTime.
    induction (commentsServed (commentsOf (number issue))) as [|c cs IH].
    + simpl. split; [constructor|reflexivity].
    + simpl. destruct (byUser c) eqn:Hc.
      * simpl. split; [discriminate|]. intros H. apply Forall_inv in H. congruence.
      * rewrite IH. split; [now constructor|apply Forall_inv_tail].
Qed.

Lemma collectResponseTimes_run (closedIssues : list GitHubIssue) (responseTimes : list Q) :
  collectResponseTimes (E:=E) getTime commentsOf closedIssues responseTimes
  = ([], Returned (responseTimes
                   ++ present (map (responseTime getTime commentsOf) closedIssues))).
Proof.
  revert responseTimes.
  induction closedIssues as [|issue rest IH]; intros responseTimes; simpl.
  - now rewrite app_nil_r.
  - rewrite calculateIssueResponseTime_run, bind_returned, IH.
    destruct (responseTime getTime commentsOf issue); [|reflexivity].
    now rewrite <- app_assoc.
Qed.

Lemma stronglySorted_app {A} (R : A -> A -> Prop) (front back : list A) :
  StronglySorted R (front ++ back) ->
  forall x y, In x front -> In y back -> R x y.
Proof.
  induction front as [|a front IH]; intros Hsorted x y Hx Hy; [contradiction|].
  simpl in Hsorted. apply StronglySorted_inv in Hsorted as [Hrest Ha].
  destruct Hx as [<-|Hx].
  - rewrite List.Forall_forall in Ha. apply Ha, in_or_app. now right.
  - now apply IH.
Qed.

(** X23. [calculateMedianIssueResponseTime] never throws and reports
    nothing.  It samples at most five issues: closed issues with at least
    one comment, and the ones created last, since every issue left out was
    created no later than every issue sampled.  Its answer is the median
    of the response times that the sampled issues have, so that it reads
    the comments of no other issue. *)
Theorem calculateMedianIssueResponseTime_sample (issues : list GitHubIssue) :
  exists sample rest : list GitHubIssue,
    Permutation (sample ++ rest) (List.filter eligible issues)
    /\ (List.length sample <= 5)%nat
    /\ (rest <> [] -> List.length sample = 5%nat)
    /\ (forall sampled left, In sampled sample -> In left rest ->
          (getTime (created_at left) <= getTime (created_at sampled))%Z)
    /\ calculateMedianIssueResponseTime (E:=E) getTime commentsOf issues
       = ([], Returned (calculateMedian
                          (present (map (responseTime getTime commentsOf) sample)))).
Proof.
  set (newestFirst := fun a b : GitHubIssue =>
         (getTime (created_at b) <=? getTime (created_at a))%Z).
  set (sorted := JS.sort newestFirst (List.filter eligible issues)).
  exists (firstn 5 sorted), (skipn 5 sorted).
  split; [|split; [|split; [|split]]].
  - rewrite firstn_skipn. symmetry. apply sort_permutation.
  - rewrite length_firstn. lia.
  - intros Hrest. rewrite length_firstn.
    destruct (Nat.le_gt_cases 5 (List.length sorted)) as [Hlen|Hlen]; [lia|].
    exfalso. apply Hrest. apply skipn_all2. lia.
  - intros sampled left Hs Hl.
    apply (@stronglySorted_app _
             (fun a b => (getTime (created_at b) <= getTime (created_at a))%Z)
             (firstn 5 sorted) (skipn 5 sorted)); [|exact Hs|exact Hl].
    rewrite firstn_skipn. apply Sorted_StronglySorted.
    + intros a b c Hab Hbc. lia.
    + apply sort_sorted.
      * intros a b Hle. unfold newestFirst in Hle. lia.
      * intros a b Hle. unfold newestFirst in Hle. lia.
  - unfold calculateMedianIssueResponseTime.
    change (firstn 5 (JS.sort _ (List.filter _ issues))) with (firstn 5 sorted).
    destruct (firstn 5 sorted) as [|issue others] eqn:Hsample; [reflexivity|].
    replace (Qeq_bool (JS.length (issue :: others)) 0) with false.
    2:{ symmetry. apply not_true_is_false. intros H. apply Qeq_bool_iff in H.
        change 0 with (inject_Z (Z.of_nat 0)) in H. apply length_nat in H.
        discriminate H. }
    rewrite collectResponseTimes_run, bind_returned. reflexivity.
Qed.
End ResponseTimes.

(* ===================================================================== *)
(** * The record of a run *)
(* ===================================================================== *)

Section Assembled.
Import Eff GitHub Logic Metrics Props.
Variable getTime : string -> Z.
Variable w : World.
Variables owner repo : string.

(** A step of the shape [try { ... } catch { return fallback }] returns. *)
Lemma returns_with_fallback {E A} (m : M E A) (fallback : A) (P : A -> Prop) :
  (forall a, outcome m = Returned a -> P a) ->
  (forall error, outcome m = Thrown error -> P fallback) ->
  returns (try_catch m (fun _ => ret fallback)) P.
Proof.
  intros Hreturned Hthrown. apply returns_try_catch; [exact Hreturned|].
  intros error Herror. unfold returns. simpl. now apply Hthrown with error.
Qed.

Lemma fetchStarGrowth_returns {E} now reply :
  exists growth, outcome (fetchStarGrowth (E:=E) getTime now reply) = Returned growth.
Proof.
  unfold fetchStarGrowth. rewrite outcome_try_catch.
  destruct (outcome _) as [growth|error]; simpl; eauto.
Qed.

Lemma fetchPRStats_returns {E} mergedReply closedReply :
  exists stats, outcome (fetchPRStats (E:=E) mergedReply closedReply) = Returned stats.
Proof.
  unfold fetchPRStats. rewrite outcome_try_catch.
  destruct (outcome _) as [stats|error]; simpl; eauto.
Qed.

Lemma fetchCodeFrequency_returns {E} polls :
  exists stats, outcome (fetchCodeFrequency (E:=E) polls) = Returned stats.
Proof.
  unfold fetchCodeFrequency. rewrite outcome_try_catch.
  destruct (outcome _) as [stats|error]; simpl; eauto.
Qed.

Lemma analyzeRepository_assembles repository :
  outcome (fetchRepository (E:=AnalysisStatus) (repositoryReply w) owner repo)
    = Returned repository ->
  returns (analyzeRepository getTime w owner repo) (assembled getTime w repository).
Proof.
  intros Hrepo. unfold analyzeRepository.
  eapply returns_bind with (Q := fun _ => True); [exact I|intros _ _].
  eapply returns_bind with (Q := fun r => r = repository).
  { apply returns_try_catch.
    - intros r Hr. rewrite !outcome_bind in Hr. simpl in Hr. rewrite Hrepo in Hr.
      simpl in Hr. congruence.
    - intros error Herr. rewrite !outcome_bind in Herr. simpl in Herr.
      rewrite Hrepo in Herr. discriminate Herr. }
  intros ? ->.
  eapply returns_bind with (Q := fun issues => issues = issuesFetched w).
  { unfold returns. rewrite optional_fetch_outcome.
    rewrite fetchIssues_outcome by reflexivity. reflexivity. }
  intros ? ->.
  eapply returns_bind
    with (Q := fun counts =>
                 counts = match closedSearch w with
                          | Returned response =>
                              (open_issues_count repository,
                               if ok response then json response else 0)
                          | Thrown _ =>
                              (JS.length (openAmong (issuesFetched w)),
                               JS.length (closedAmong (issuesFetched w)))
                          end).
  { unfold returns. rewrite outcome_try_catch, !outcome_bind. simpl.
    destruct (closedSearch w) as [response|error]; simpl; [|reflexivity].
    now destruct (ok response). }
  intros [openIssuesCount closedIssuesCount] Hcounts.
  eapply returns_bind with (Q := fun commits => commits = commitsFetched w).
  { unfold returns. rewrite optional_fetch_outcome.
    rewrite fetchCommits_outcome by reflexivity. reflexivity. }
  intros ? ->.
  eapply returns_bind with (Q := fun releases => releases = releasesFetched w).
  { unfold returns. rewrite optional_fetch_outcome.
    rewrite fetchReleases_outcome by reflexivity. reflexivity. }
  intros ? ->.
  eapply returns_bind with (Q := fun _ => True).
  { destruct (JS.gtb (JS.length (issuesFetched w)) 0); [|exact I].
    apply returns_try_catch; [trivial|]. intros. exact I. }
  intros median _. cbv zeta.
  eapply returns_bind with (Q := fun _ => True).
  { apply returns_try_catch; [trivial|]. intros. exact I. }
  intros [languages openPullRequests] _.
  destruct (fetchStarGrowth_returns (E:=AnalysisStatus)
              (starGrowthNow w) (stargazersReply w)) as [growth Hgrowth].
  destruct (fetchPRStats_returns (E:=AnalysisStatus)
              (mergedPRsReply w) (unmergedPRsReply w)) as [prStats HprStats].
  destruct (fetchCodeFrequency_returns (E:=AnalysisStatus)
              (codeFrequencyPolls w)) as [codeFreq HcodeFreq].
  unfold assembled.
  destruct (fetchStarGrowth getTime (starGrowthNow w) (stargazersReply w))
    as [es1 o1].
  destruct (fetchPRStats (mergedPRsReply w) (unmergedPRsReply w)) as [es2 o2].
  destruct (fetchCodeFrequency (codeFrequencyPolls w)) as [es3 o3].
  simpl in Hgrowth, HprStats, HcodeFreq. subst o1 o2 o3.
  unfold returns. simpl.
  destruct growth, codeFreq. simpl.
  repeat match goal with |- _ /\ _ => split end; try reflexivity.
  - exact Hcounts.
  - now exists prStats.
Qed.
End Assembled.

Section Record.
Import Eff GitHub Logic Metrics Props.
Variable getTime : string -> Z.
Variable w : World.
Variables owner repo : string.

Lemma analyzeRepository_returns_assembled repository :
  outcome (fetchRepository (E:=AnalysisStatus) (repositoryReply w) owner repo)
    = Returned repository ->
  exists metrics,
    outcome (analyzeRepository getTime w owner repo) = Returned metrics
    /\ assembled getTime w repository metrics.
Proof.
  intros Hrepo.
  pose proof (analyzeRepository_assembles getTime w owner repo Hrepo) as Hrun.
  unfold returns in Hrun.
  destruct (outcome (analyzeRepository getTime w owner repo)) as [metrics|error];
    [|contradiction].
  now exists metrics.
Qed.

Lemma open_or_closed (issues : list GitHubIssue) :
  JS.length (openAmong issues) + JS.length (closedAmong issues) == JS.length issues.
Proof.
  unfold JS.length, openAmong, closedAmong.
  rewrite <- inject_Z_plus, <- Nat2Z.inj_add. apply inject_Z_injective. f_equal.
  induction issues as [|issue issues IH]; simpl; [reflexivity|].
  destruct (state issue); simpl; lia.
Qed.

(** X24. The issue counts of the record.  When the search for closed
    issues is answered, the open count is the one of the repository and
    the closed count is the total of the search, or 0 when the answer is
    not ok.  Only when the search fails on the network are both counted
    among the fetched issues, and then they add up to the number of issues
    fetched. *)
Theorem analyzeRepository_issue_counts repository :
  outcome (fetchRepository (E:=AnalysisStatus) (repositoryReply w) owner repo)
    = Returned repository ->
  exists metrics,
    outcome (analyzeRepository getTime w owner repo) = Returned metrics
    /\ let d := RepositoryMetrics.data metrics in
       (forall response, closedSearch w = Returned response ->
          MetricsData.openIssuesCount d = open_issues_count repository
          /\ (ok response = true -> MetricsData.closedIssuesCount d = json response)
          /\ (ok response = false -> MetricsData.closedIssuesCount d = 0))
       /\ (networkError (closedSearch w) ->
           MetricsData.openIssuesCount d = JS.length (openAmong (issuesFetched w))
           /\ MetricsData.closedIssuesCount d
              = JS.length (closedAmong (issuesFetched w))
           /\ MetricsData.openIssuesCount d + MetricsData.closedIssuesCount d
              == JS.length (issuesFetched w)).
Proof.
  intros Hrepo.
  destruct (analyzeRepository_returns_assembled Hrepo) as (metrics & Hrun & Hrecord).
  exists metrics. split; [exact Hrun|]. cbv zeta.
  destruct Hrecord as (_ & Hcounts & _).
  destruct (closedSearch w) as [response|error]; simpl.
  - split; [|contradiction]. intros ? [= <-].
    injection Hcounts as Hopen Hclosed. split; [exact Hopen|].
    split; intros Hok; now rewrite Hok in Hclosed.
  - split; [discriminate|]. intros _.
    injection Hcounts as Hopen Hclosed. split; [exact Hopen|]. split; [exact Hclosed|].
    rewrite Hopen, Hclosed. apply open_or_closed.
Qed.

Lemma commitsFetched_length :
  Forall wellSized (commitPages w) -> (List.length (commitsFetched w) <= 1000)%nat.
Proof.
  intros Hpages. unfold commitsFetched, fetched, fetchCommits.
  rewrite (fetchCommits_from_callback quiet) by reflexivity.
  unfold outcome at 1. simpl snd.
  destruct (outcome (fetchCommits_from (commitPages w) record [])) as [commits|error]
    eqn:Hrun; [|simpl; lia].
  destruct (fetchCommits_from_returns _ _ Hrun) as (more & -> & _ & Hbound).
  apply Hbound; [exact Hpages|]. exists 0%nat. simpl. lia.
Qed.

(** X25. The figures of a returned record keep to their ranges: the ratio
    of the top contributor lies between 0 and 100 and is 0 exactly when
    there are no commits, of which there are at most 1000 when no page has
    more than 100 items; the releases of the last 90 days are at most the
    releases counted; the total of the code changes is the additions plus
    the deletions, which are not negative; and the stars per month are the
    recent star growth. *)
Theorem analyzeRepository_record_ranges repository :
  outcome (fetchRepository (E:=AnalysisStatus) (repositoryReply w) owner repo)
    = Returned repository ->
  exists metrics,
    outcome (analyzeRepository getTime w owner repo) = Returned metrics
    /\ let d := RepositoryMetrics.data metrics in
       0 <= MetricsData.topContributorRatio d
       /\ MetricsData.topContributorRatio d <= 100
       /\ (MetricsData.topContributorRatio d == 0 <->
           MetricsData.totalCommitsLast90Days d == 0)
       /\ 0 <= MetricsData.totalCommitsLast90Days d
       /\ (Forall wellSized (commitPages w) ->
           MetricsData.totalCommitsLast90Days d <= 1000)
       /\ 0 <= MetricsData.releasesLast90Days d
       /\ MetricsData.releasesLast90Days d <= MetricsData.totalReleases d
       /\ MetricsData.totalCodeChanges d
          = MetricsData.codeAdditions d + MetricsData.codeDeletions d
       /\ 0 <= MetricsData.codeDeletions d
       /\ MetricsData.starsPerMonth d = MetricsData.recentStarGrowth d.
Proof.
  intros Hrepo.
  destruct (analyzeRepository_returns_assembled Hrepo) as (metrics & Hrun & Hrecord).
  exists metrics. split; [exact Hrun|]. cbv zeta.
  destruct Hrecord
    as (_ & _ & Hcommits & Hratio & Htotal & Hrecent & _ & Hgrowth & _ & Hcode).
  rewrite Hcommits, Hratio, Htotal, Hrecent.
  pose proof (calculateTopContributorRatio_bounds (commitsFetched w)) as [Hr0 Hr100].
  pose proof (calculateReleaseStats_counts getTime (releaseStatsNow w)
                (releasesFetched w)) as (Hrel0 & Hrel & _).
  split; [exact Hr0|]. split; [exact Hr100|]. split.
  { destruct (commitsFetched w) as [|c cs] eqn:Hfetched; [split; reflexivity|].
    destruct (@topContributorRatio_attained (c :: cs) ltac:(discriminate))
      as (top & Htally & Hshare & _).
    pose proof (share_positive top (c :: cs) Htally) as Hpos.
    rewrite <- Hshare in Hpos.
    split; intros Hzero.
    - rewrite Hzero in Hpos. now apply Qlt_irrefl in Hpos.
    - change 0 with (inject_Z (Z.of_nat 0)) in Hzero.
      apply length_nat in Hzero. discriminate Hzero. }
  split; [apply length_nonneg|]. split.
  { intros Hpages. unfold JS.length. change 1000 with (inject_Z 1000).
    rewrite <- Zle_Qle. pose proof (commitsFetched_length Hpages). lia. }
  split; [exact Hrel0|]. split; [exact Hrel|].
  destruct (fetchCodeFrequency_figures (E:=AnalysisStatus) (codeFrequencyPolls w))
    as (stats & Hfreq & Hsum & Hdel).
  rewrite Hfreq in Hcode. simpl in Hcode. injection Hcode as <-.
  simpl in Hsum, Hdel. split; [exact Hsum|]. split; [exact Hdel|].
  symmetry in Hgrowth. apply fetchStarGrowth_same in Hgrowth. exact Hgrowth.
Qed.

(** X26. The fallbacks of the analytics step are never used: none of
    [fetchStarGrowth], [fetchPRStats] and [fetchCodeFrequency] throws, so
    the star growth, the merge rate and the code changes of a returned
    record are always the results of these three calls. *)
Theorem analyzeRepository_analytics repository :
  outcome (fetchRepository (E:=AnalysisStatus) (repositoryReply w) owner repo)
    = Returned repository ->
  exists metrics growth prStats codeFreq,
    outcome (analyzeRepository getTime w owner repo) = Returned metrics
    /\ outcome (fetchStarGrowth (E:=AnalysisStatus) getTime
                  (starGrowthNow w) (stargazersReply w)) = Returned growth
    /\ outcome (fetchPRStats (E:=AnalysisStatus)
                  (mergedPRsReply w) (unmergedPRsReply w)) = Returned prStats
    /\ outcome (fetchCodeFrequency (E:=AnalysisStatus) (codeFrequencyPolls w))
       = Returned codeFreq
    /\ let d := RepositoryMetrics.data metrics in
       MetricsData.starsPerMonth d = starsPerMonth growth
       /\ MetricsData.recentStarGrowth d = recentGrowth growth
       /\ MetricsData.prMergeRate d = mergeRate prStats
       /\ MetricsData.codeAdditions d = additions codeFreq
       /\ MetricsData.codeDeletions d = deletions codeFreq
       /\ MetricsData.totalCodeChanges d = totalChanges codeFreq.
Proof.
  intros Hrepo.
  destruct (analyzeRepository_returns_assembled Hrepo) as (metrics & Hrun & Hrecord).
  destruct Hrecord as (_ & _ & _ & _ & _ & _ & _ & Hgrowth & Hpr & Hcode).
  destruct Hpr as (prStats & HprStats & Hrate).
  eexists metrics, _, prStats, _.
  split; [exact Hrun|]. split; [symmetry; exact Hgrowth|].
  split; [exact HprStats|]. split; [symmetry; exact Hcode|].
  simpl. now repeat split.
Qed.
End Record.

(* ===================================================================== *)
(** * The request options *)
(* ===================================================================== *)

Section RequestOptions.
Import Client Props.
Local Open Scope string_scope.

Lemma or_else_usable (a b token : option string) :
  or_else a b = token ->
  usable token ->
  (usable a /\ token = a) \/ (~ usable a /\ token = b).
Proof.
  unfold or_else, usable. intros <- (t & Ht & Hne).
  destruct a as [x|].
  - destruct (String.eqb x EmptyString) eqn:Hx.
    + apply String.eqb_eq in Hx. subst x. right. split; [|reflexivity].
      intros (t' & [= <-] & Hne'). congruence.
    + apply String.eqb_neq in Hx. left. split; [|reflexivity]. eauto.
  - right. split; [|reflexivity]. intros (t' & Hsome & _). discriminate.
Qed.

Lemma getGitHubToken_usable (env : Env) (t : string) :
  getGitHubToken env = Some t -> t <> EmptyString ->
  window env = true
  /\ (NEXT_PUBLIC_GITHUB_TOKEN env = Some t
      \/ (~ usable (NEXT_PUBLIC_GITHUB_TOKEN env) /\ github_token env = Some t)).
Proof.
  unfold getGitHubToken. intros Htoken Hne.
  destruct (window env); simpl in Htoken; [|discriminate].
  split; [reflexivity|].
  assert (Husable : usable (Some t)) by (exists t; eauto).
  destruct (@or_else_usable _ _ _ Htoken Husable) as [[_ Ha]|[Hna Hb]]; eauto.
Qed.

(** X27. The headers that [getHeaders] builds, and that [getFetchOptions]
    hands on.  [Accept] is the GitHub media type and there is no header
    besides [Accept] and [Authorization].  [Authorization] is there
    exactly when the code runs in a browser and a token that is not empty
    is found, and it is then [Bearer] followed by that token: the token of
    the build when there is one, the stored one otherwise. *)
Theorem getHeaders_authorization (env : Env) :
  getHeaders env !! "Accept" = Some "application/vnd.github.v3+json"
  /\ (forall key, key <> "Accept" -> key <> "Authorization" ->
        getHeaders env !! key = None)
  /\ (forall value,
        getHeaders env !! "Authorization" = Some value <->
        window env = true
        /\ exists token,
             value = "Bearer " ++ token
             /\ token <> EmptyString
             /\ (NEXT_PUBLIC_GITHUB_TOKEN env = Some token
                 \/ (~ usable (NEXT_PUBLIC_GITHUB_TOKEN env)
                     /\ github_token env = Some token)))
  /\ headers (getFetchOptions env) = getHeaders env.
Proof.
  unfold getHeaders.
  destruct (getGitHubToken env) as [token|] eqn:Htoken.
  - destruct (String.eqb token EmptyString) eqn:Hempty.
    + apply String.eqb_eq in Hempty. subst token.
      split; [reflexivity|]. split.
      { intros key Hk _. now apply lookup_singleton_ne. }
      split; [|unfold getFetchOptions, getHeaders; simpl; now rewrite Htoken].
      intros value. split.
      * rewrite lookup_singleton_ne by discriminate. discriminate.
      * intros (Hwindow & t & -> & Hne & Hsource). exfalso.
        unfold getGitHubToken in Htoken. rewrite Hwindow in Htoken. simpl in Htoken.
        unfold or_else in Htoken.
        destruct Hsource as [Hnext|[Hnone Hstored]].
        -- rewrite Hnext in Htoken. apply String.eqb_neq in Hne.
           rewrite Hne in Htoken. injection Htoken as ->. now apply String.eqb_neq in Hne.
        -- destruct (NEXT_PUBLIC_GITHUB_TOKEN env) as [x|].
           ++ destruct (String.eqb x EmptyString) eqn:Hx.
              ** rewrite Hstored in Htoken. congruence.
              ** apply String.eqb_neq in Hx. apply Hnone. exists x. eauto.
           ++ rewrite Hstored in Htoken. congruence.
    + apply String.eqb_neq in Hempty.
      split; [now rewrite lookup_insert_ne by discriminate|]. split.
      { intros key Hk Hk'. rewrite lookup_insert_ne by congruence.
        now apply lookup_singleton_ne. }
      split;
        [|unfold getFetchOptions, getHeaders; simpl; rewrite Htoken;
          apply String.eqb_neq in Hempty; now rewrite Hempty].
      intros value. rewrite lookup_insert_eq.
      destruct (getGitHubToken_usable env Htoken Hempty) as [Hwindow Hsource].
      split.
      * intros [= <-]. split; [exact Hwindow|]. exists token. tauto.
      * intros (_ & t & -> & Hne & Hsource'). f_equal. f_equal.
        unfold getGitHubToken in Htoken. rewrite Hwindow in Htoken. simpl in Htoken.
        unfold or_else in Htoken.
        destruct Hsource' as [Hnext|[Hnone Hstored]].
        -- rewrite Hnext in Htoken. apply String.eqb_neq in Hne.
           rewrite Hne in Htoken. congruence.
        -- destruct (NEXT_PUBLIC_GITHUB_TOKEN env) as [x|].
           ++ destruct (String.eqb x EmptyString) eqn:Hx.
              ** congruence.
              ** apply String.eqb_neq in Hx. exfalso. apply Hnone. exists x. eauto.
           ++ congruence.
  - split; [reflexivity|]. split.
    { intros key Hk _. now apply lookup_singleton_ne. }
    split; [|unfold getFetchOptions, getHeaders; simpl; now rewrite Htoken].
    intros value. split.
    + rewrite lookup_singleton_ne by discriminate. discriminate.
    + intros (Hwindow & t & -> & Hne & Hsource). exfalso.
      unfold getGitHubToken in Htoken. rewrite Hwindow in Htoken. simpl in Htoken.
      unfold or_else in Htoken.
      destruct Hsource as [Hnext|[Hnone Hstored]].
      * rewrite Hnext in Htoken. destruct (String.eqb t EmptyString) eqn:Ht.
        -- apply String.eqb_eq in Ht. congruence.
        -- discriminate.
      * destruct (NEXT_PUBLIC_GITHUB_TOKEN env) as [x|].
        -- destruct (String.eqb x EmptyString); congruence.
        -- congruence.
Qed.

(** X28. A token saved through the form reaches the headers: after
    [handleSaveToken] with a token that is not empty, [getHeaders] in a
    browser without a token of the build gives [Bearer] followed by that
    token; with an empty field nothing is saved and the state stays as it
    is. *)
Theorem handleSaveToken_sent (st : Page.State) (env : Env) :
  (Page.githubToken st = EmptyString -> Page.handleSaveToken st = st)
  /\ (Page.githubToken st <> EmptyString ->
      window env = true ->
      ~ usable (NEXT_PUBLIC_GITHUB_TOKEN env) ->
      github_token env = Page.stored_github_token (Page.handleSaveToken st) ->
      getHeaders env !! "Authorization" = Some ("Bearer " ++ Page.githubToken st)
      /\ Page.showTokenInput (Page.handleSaveToken st) = false).
Proof.
  unfold Page.handleSaveToken. split.
  - intros ->. reflexivity.
  - intros Hne Hwindow Hbuild Hstored.
    apply String.eqb_neq in Hne. rewrite Hne in *. simpl in Hstored.
    split; [|reflexivity].
    assert (Htoken : getGitHubToken env = Some (Page.githubToken st)).
    { unfold getGitHubToken, or_else. rewrite Hwindow. simpl.
      destruct (NEXT_PUBLIC_GITHUB_TOKEN env) as [x|]; [|exact Hstored].
      destruct (String.eqb x EmptyString) eqn:Hx; [exact Hstored|].
      apply String.eqb_neq in Hx. exfalso. apply Hbuild. exists x. eauto. }
    unfold getHeaders. rewrite Htoken, Hne. apply lookup_insert_eq.
Qed.
End RequestOptions.

(* ===================================================================== *)
(** * The analysis form *)
(* ===================================================================== *)

Section AnalysisForm.
Import Eff Metrics Page Props.
Local Open Scope string_scope.

Lemma plus_spec (class : Ascii.ascii -> bool) (next : string -> bool) (s : string) :
  plus class next s = true <->
  exists front rest,
    s = front ++ rest /\ front <> EmptyString
    /\ every class front = true /\ next rest = true.
Proof.
  induction s as [|c s IH]; simpl.
  - split; [discriminate|].
    intros (front & rest & Hs & Hne & _). destruct front; [congruence|discriminate].
  - rewrite andb_true_iff, orb_true_iff, IH. split.
    + intros [Hc [Hnext|(front & rest & -> & Hne & Hfront & Hnext)]].
      * exists (String c EmptyString), s. simpl. rewrite Hc.
        repeat split; [discriminate|exact Hnext].
      * exists (String c front), rest. simpl. rewrite Hc, Hfront.
        repeat split; [discriminate|exact Hnext].
    + intros (front & rest & Hs & Hne & Hfront & Hnext).
      destruct front as [|c' front]; [congruence|].
      simpl in Hs. injection Hs as <- ->. simpl in Hfront.
      apply andb_true_iff in Hfront as [Hc Hfront]. split; [exact Hc|].
      destruct front as [|c'' front]; [left; exact Hnext|].
      right. exists (String c'' front), rest. repeat split; [discriminate|assumption..].
Qed.

Lemma atEnd_spec (s : string) : atEnd s = true <-> s = EmptyString.
Proof. destruct s; simpl; split; congruence. Qed.

Lemma literal_spec (c : Ascii.ascii) (next : string -> bool) (s : string) :
  literal c next s = true <-> exists rest, s = String c rest /\ next rest = true.
Proof.
  destruct s as [|c' rest]; simpl.
  - split; [discriminate|]. intros (? & ? & _). discriminate.
  - rewrite andb_true_iff, Ascii.eqb_eq. split.
    + intros [-> Hnext]. eauto.
    + intros (rest' & [= -> ->] & Hnext). tauto.
Qed.

Lemma ownerChar_not_slash (c : Ascii.ascii) : ownerChar c = true -> Ascii.eqb c slash = false.
Proof.
  intros Hc. destruct (Ascii.eqb c slash) eqn:Hslash; [|reflexivity].
  apply Ascii.eqb_eq in Hslash. subst c. discriminate Hc.
Qed.

Lemma nameChar_not_slash (c : Ascii.ascii) : nameChar c = true -> Ascii.eqb c slash = false.
Proof.
  intros Hc. destruct (Ascii.eqb c slash) eqn:Hslash; [|reflexivity].
  apply Ascii.eqb_eq in Hslash. subst c. discriminate Hc.
Qed.

Lemma split_whole (class : Ascii.ascii -> bool) (s : string) :
  (forall c, class c = true -> Ascii.eqb c slash = false) ->
  every class s = true -> split s = [s].
Proof.
  intros Hclass. induction s as [|c s IH]; simpl; [reflexivity|].
  intros Hs. apply andb_true_iff in Hs as [Hc Hs].
  now rewrite (Hclass c Hc), (IH Hs).
Qed.

Lemma split_front (class : Ascii.ascii -> bool) (front rest : string) :
  (forall c, class c = true -> Ascii.eqb c slash = false) ->
  every class front = true ->
  split (front ++ String slash rest) = front :: split rest.
Proof.
  intros Hclass. induction front as [|c front IH]; simpl; [reflexivity|].
  intros Hs. apply andb_true_iff in Hs as [Hc Hs].
  now rewrite (Hclass c Hc), (IH Hs).
Qed.

Lemma append_empty (s : string) : s ++ EmptyString = s.
Proof.
  induction s as [|c s IH]; [reflexivity|].
  change (String c (s ++ EmptyString) = String c s). now rewrite IH.
Qed.

Lemma validFormat_parts (repository : string) :
  validFormat repository = true <->
  exists owner name,
    repository = owner ++ String slash name
    /\ owner <> EmptyString /\ name <> EmptyString
    /\ every ownerChar owner = true /\ every nameChar name = true.
Proof.
  unfold validFormat. rewrite plus_spec. split.
  - intros (owner & rest & -> & Howner & Hchars & Hrest).
    apply literal_spec in Hrest as (rest' & -> & Hname).
    apply plus_spec in Hname as (name & tail & -> & Hname & Hnchars & Hend).
    apply atEnd_spec in Hend. subst tail. rewrite append_empty.
    exists owner, name. tauto.
  - intros (owner & name & -> & Howner & Hname & Hochars & Hnchars).
    exists owner, (String slash name). repeat split; try assumption.
    apply literal_spec. exists name. split; [reflexivity|].
    apply plus_spec. exists name, EmptyString. rewrite append_empty.
    repeat split; assumption.
Qed.

(** X29. The form accepts a text exactly when it is an owner, a slash and a
    name, both not empty, the owner made of letters, digits, '_' and '-',
    the name of these and '.'.  For an accepted text the split at the
    slashes yields exactly the owner and the name, so that the
    destructuring of [handleAnalyze] drops nothing and binds no
    [undefined]; an empty part, a second slash or another character is
    rejected. *)
Theorem validFormat_owner_and_name (repository : string) :
  (validFormat repository = true <->
   exists owner name,
     repository = owner ++ "/" ++ name
     /\ owner <> EmptyString /\ name <> EmptyString
     /\ every ownerChar owner = true /\ every nameChar name = true)
  /\ (forall owner name,
        repository = owner ++ "/" ++ name ->
        every ownerChar owner = true -> every nameChar name = true ->
        split repository = [owner; name])
  /\ (validFormat repository = true ->
      exists owner name, split repository = [owner; name]
                         /\ owner <> EmptyString /\ name <> EmptyString).
Proof.
  assert (Hsplit : forall owner name,
             repository = owner ++ "/" ++ name ->
             every ownerChar owner = true -> every nameChar name = true ->
             split repository = [owner; name]).
  { intros owner name -> Howner Hname.
    change (owner ++ "/" ++ name) with (owner ++ String slash name).
    rewrite (@split_front ownerChar owner name ownerChar_not_slash Howner).
    now rewrite (@split_whole nameChar name nameChar_not_slash Hname). }
  split; [exact (validFormat_parts repository)|]. split; [exact Hsplit|].
  intros Hvalid. apply validFormat_parts in Hvalid
    as (owner & name & Hrepo & Howner & Hname & Hochars & Hnchars).
  exists owner, name. split; [now apply Hsplit|]. now split.
Qed.



End AnalysisForm.

(* ===================================================================== *)
(** * The properties above on concrete inputs *)
(* ===================================================================== *)

(** A request answered with 503 twice: the client stops at some attempt
    within its budget and ends as that attempt ended. *)
Lemma fetchWithRetry_stops_witness :
  exists k : nat,
    (k <= 3)%nat
    /\ GitHub.fetchWithRetry Samples.flaky "u" 3
       = (Props.schedule "u" k, Samples.flaky k).
Proof.
  destruct (fetchWithRetry_stops Samples.flaky "u" 3) as (k & Hk & Hrun & _).
  exists k. split; [exact Hk|exact Hrun].
Defined.

(** A request answered at once with 200. *)
Lemma fetchWithRetry_immediate_witness :
  GitHub.fetchWithRetry Samples.steady "u" 3
  = ([GitHub.Request "u" 0], Eff.Returned (GitHub.mkResponse 200 "OK" 1)).
Proof.
  apply (@fetchWithRetry_immediate _ Samples.steady "u" 3); reflexivity.
Defined.

(** A request that never gets through, with a budget of 3. *)
Lemma fetchWithRetry_network_down_witness :
  GitHub.fetchWithRetry Samples.offline "u" 3
  = (Props.schedule "u" 3, Eff.Thrown "Failed to fetch").
Proof.
  apply (@fetchWithRetry_network_down _ Samples.offline "u" 3
           (fun _ => "Failed to fetch"%string)).
  intros i. reflexivity.
Defined.

(** The pauses after the attempts 1 and 5. *)
Lemma backoff_values_witness :
  GitHub.backoff 1 == 1000 * inject_Z (2 ^ 1)
  /\ GitHub.backoff 5 == 8000
  /\ GitHub.backoff 1 <= GitHub.backoff 5.
Proof.
  destruct (backoff_values 1 5) as (Hsmall & _ & _ & _ & Hmono).
  destruct (backoff_values 5 5) as (_ & Hlarge & _).
  split; [apply Hsmall; lia|]. split; [apply Hlarge; lia|apply Hmono; lia].
Defined.

(** A short page with a pull request and two issues. *)
Lemma fetchIssues_result_witness :
  Forall (fun issue => GitHub.pull_request issue = false
                       /\ Props.served [Samples.shortPage] issue)
         [Examples.issueItem false; Examples.issueItem false]
  /\ (2 <= 599)%nat.
Proof.
  destruct (@fetchIssues_result unit Logic.quiet (fun _ _ => eq_refl)
              [Samples.shortPage] 100
              [Examples.issueItem false; Examples.issueItem false] eq_refl)
    as [Hitems Hsize].
  split; [exact Hitems|]. apply Hsize. constructor; [simpl; lia|constructor].
Defined.


(** A short page of two commits. *)
Lemma fetchCommits_result_witness :
  Forall (Props.served [Samples.commitPage])
         [Examples.commitBy "alice"; Examples.commitBy "bob"]
  /\ (2 <= 1000)%nat.
Proof.
  destruct (@fetchCommits_result unit Logic.quiet (fun _ _ => eq_refl)
              [Samples.commitPage]
              [Examples.commitBy "alice"; Examples.commitBy "bob"] eq_refl)
    as [Hitems Hsize].
  split; [exact Hitems|]. apply Hsize. constructor; [simpl; lia|constructor].
Defined.


(** A short page with a draft and a release. *)
Lemma fetchReleases_result_witness :
  Forall (fun release => GitHub.draft release = false
                         /\ Props.served [Samples.releasePage] release)
         [Examples.release "v1.0.0" false 0]
  /\ (1 < 1000 + 100)%nat.
Proof.
  destruct (@fetchReleases_result unit Logic.quiet (fun _ _ => eq_refl)
              [Samples.releasePage] 1000
              [Examples.release "v1.0.0" false 0] eq_refl)
    as [Hitems Hsize].
  split; [exact Hitems|]. apply Hsize. constructor; [simpl; lia|constructor].
Defined.

(** A refused page of releases. *)
Lemma fetchReleases_throws_only_witness :
  exists reply,
    In reply [Samples.refused (B:=GitHub.GitHubRelease)]
    /\ Props.failsPage "releases" reply "Failed to fetch releases: 403".
Proof.
  apply (@fetchReleases_throws_only unit Logic.quiet (fun _ _ => eq_refl)
           [Samples.refused] 1000).
  reflexivity.
Defined.

(** 30 merged and 10 closed pull requests. *)
Lemma fetchPRStats_total_witness :
  exists stats : GitHub.PRStats,
    GitHub.fetchPRStats (E:=unit)
      (Eff.Returned (GitHub.mkResponse 200 "OK" 30))
      (Eff.Returned (GitHub.mkResponse 200 "OK" 10))
    = ([], Eff.Returned stats)
    /\ 0 <= GitHub.mergeRate stats /\ GitHub.mergeRate stats <= 100.
Proof.
  destruct (fetchPRStats_total (E:=unit)
              (Eff.Returned (GitHub.mkResponse 200 "OK" 30))
              (Eff.Returned (GitHub.mkResponse 200 "OK" 10)))
    as (stats & Hrun & _ & _ & Hrange).
  exists stats. split; [exact Hrun|].
  apply Hrange; intros response [= <-]; simpl; discriminate.
Defined.

(** Two stargazers. *)
Lemma fetchStarGrowth_total_witness :
  exists growth : GitHub.StarGrowth,
    GitHub.fetchStarGrowth (E:=unit) Examples.epoch 0
      (Eff.Returned (GitHub.mkResponse 200 "OK"
                       ["2024-01-01T00:00:00Z"; "2024-01-02T00:00:00Z"]%string))
    = ([], Eff.Returned growth)
    /\ GitHub.recentGrowth growth <= 2.
Proof.
  destruct (fetchStarGrowth_total (E:=unit) Examples.epoch 0
              (Eff.Returned (GitHub.mkResponse 200 "OK"
                               ["2024-01-01T00:00:00Z"; "2024-01-02T00:00:00Z"]%string)))
    as (growth & Hrun & _ & _ & _ & Hle).
  exists growth. split; [exact Hrun|]. exact (Hle _ eq_refl).
Defined.

(** Statistics that are never ready. *)
Lemma fetchCodeFrequency_total_witness :
  GitHub.fetchCodeFrequency (E:=unit) Samples.computing
  = ([], Eff.Returned {| GitHub.additions := 0; GitHub.deletions := 0;
                         GitHub.totalChanges := 0 |}).
Proof.
  destruct (fetchCodeFrequency_total (E:=unit) Samples.computing) as (_ & _ & H202).
  apply H202. intros k _. eexists. split; reflexivity.
Defined.

(** A series of one week with 10 additions and 3 deletions. *)
Lemma fetchCodeFrequency_last_twelve_weeks_witness :
  exists stats : GitHub.CodeFrequency,
    GitHub.fetchCodeFrequency (E:=unit) Samples.oneWeek = ([], Eff.Returned stats)
    /\ GitHub.additions stats == 10
    /\ GitHub.deletions stats == 3.
Proof.
  destruct (@fetchCodeFrequency_last_twelve_weeks unit Samples.oneWeek
              (GitHub.mkResponse 200 "OK" (Some [(1704067200, 10, -3)]))
              [(1704067200, 10, -3)]
              eq_refl eq_refl ltac:(discriminate) eq_refl ltac:(discriminate))
    as (stats & Hrun & Hadditions & Hdeletions & _).
  exists stats. split; [exact Hrun|]. split; [exact Hadditions|exact Hdeletions].
Defined.

(** Three commits by alice and one by bob. *)
Lemma calculateTopContributorRatio_largest_share_witness :
  0 < Metrics.calculateTopContributorRatio Samples.fourCommits
  /\ Metrics.calculateTopContributorRatio Samples.fourCommits <= 100
  /\ Props.share "bob" Samples.fourCommits
     <= Metrics.calculateTopContributorRatio Samples.fourCommits.
Proof.
  destruct (calculateTopContributorRatio_largest_share Samples.fourCommits)
    as [_ Hsome].
  destruct (Hsome ltac:(discriminate)) as (Hall & _ & Hpos & Hle & _).
  split; [exact Hpos|]. split; [exact Hle|apply Hall].
Defined.

(** The values 3, 1, 2. *)
Lemma calculateMedian_halves_witness :
  exists median : Q,
    Metrics.calculateMedian [3; 1; 2] = Some median
    /\ (3 <= 2 * Props.atMost median [3; 1; 2]%Q)%nat
    /\ (3 <= 2 * Props.atLeast median [3; 1; 2]%Q)%nat.
Proof.
  destruct (@calculateMedian_halves [3; 1; 2] ltac:(discriminate))
    as (median & Hmedian & Hlow & Hhigh & _).
  exists median. split; [exact Hmedian|]. split; [exact Hlow|exact Hhigh].
Defined.

(** A prerelease listed before a release: the release is the latest. *)
Lemma calculateReleaseStats_latest_witness :
  Rollup.latestRelease
    (Metrics.calculateReleaseStats Examples.epoch 0 Examples.betaAndStable)
  = Some (Metrics.releaseStat Examples.epoch 0 (Examples.release "v1.0.0" false 0))
  /\ Rollup.releasesLast90Days
       (Metrics.calculateReleaseStats Examples.epoch 0 Examples.betaAndStable)
     <= Rollup.totalReleases
          (Metrics.calculateReleaseStats Examples.epoch 0 Examples.betaAndStable).
Proof.
  destruct (calculateReleaseStats_latest Examples.epoch 0 Examples.betaAndStable)
    as (Hlatest & _ & _ & Hrecent & _).
  split; [exact Hlatest|exact Hrecent].
Defined.

(** The metrics of the scenario. *)
Lemma calculateHealthScore_at_least_12_witness :
  12 <= Metrics.calculateHealthScore (Examples.scenario None)
  /\ Metrics.calculateHealthScore (Examples.scenario None) <= 100.
Proof.
  destruct (@calculateHealthScore_at_least_12 (Examples.scenario None))
    as (_ & Hlow & Hhigh); try (simpl; discriminate).
  split; [exact Hlow|exact Hhigh].
Defined.

(** 5 commits against 30, and a response after 30 hours against 10. *)
Lemma healthScore_parts_monotone_witness :
  Metrics.commitActivityScore 5 <= Metrics.commitActivityScore 30
  /\ Metrics.responseTimeScore (Some 30) <= Metrics.responseTimeScore (Some 10).
Proof.
  destruct healthScore_parts_monotone as (Hresponse & _ & Hcommits & _).
  split; [apply Hcommits|apply Hresponse]; discriminate.
Defined.

(** An issue answered by a bot at once and by a user after two hours. *)
Lemma calculateIssueResponseTime_first_user_comment_witness :
  exists earlier first later,
    Props.commentsServed (Samples.answered 7) = (earlier ++ first :: later)%list
    /\ Props.byUser first = true
    /\ Forall (fun comment => Props.byUser comment = false) earlier.
Proof.
  destruct (calculateIssueResponseTime_first_user_comment (E:=unit)
              Samples.clock Samples.answered (Samples.closedIssue 7))
    as (_ & Hsome & _).
  destruct (Hsome _ eq_refl) as (earlier & first & later & Hserved & Hbots & Huser & _).
  exists earlier, first, later. split; [exact Hserved|]. split; [exact Huser|exact Hbots].
Defined.

(** Six closed issues with comments: five are sampled. *)
Lemma calculateMedianIssueResponseTime_sample_witness :
  exists sample rest : list GitHub.GitHubIssue,
    (List.length sample <= 5)%nat
    /\ Metrics.calculateMedianIssueResponseTime (E:=unit) Samples.clock Samples.answered
         (map Samples.closedIssue [1; 2; 3; 4; 5; 6])
       = ([], Eff.Returned
                (Metrics.calculateMedian
                   (Props.present
                      (map (Props.responseTime Samples.clock Samples.answered) sample)))).
Proof.
  destruct (calculateMedianIssueResponseTime_sample (E:=unit)
              Samples.clock Samples.answered
              (map Samples.closedIssue [1; 2; 3; 4; 5; 6]))
    as (sample & rest & _ & Hlength & _ & _ & Hrun).
  exists sample, rest. split; [exact Hlength|exact Hrun].
Defined.

(** The scenario: the search counts 45 closed issues. *)
Lemma analyzeRepository_issue_counts_witness :
  exists metrics,
    Eff.outcome (Metrics.analyzeRepository Examples.epoch Examples.scenarioWorld
                   "octo" "pulse") = Eff.Returned metrics
    /\ MetricsData.openIssuesCount (RepositoryMetrics.data metrics) = 5
    /\ MetricsData.closedIssuesCount (RepositoryMetrics.data metrics) = 45.
Proof.
  destruct (@analyzeRepository_issue_counts Examples.epoch Examples.scenarioWorld
              "octo" "pulse" Examples.repository eq_refl)
    as (metrics & Hrun & Hanswered & _).
  exists metrics. split; [exact Hrun|].
  destruct (Hanswered _ eq_refl) as (Hopen & Hclosed & _).
  split; [exact Hopen|exact (Hclosed eq_refl)].
Defined.

(** The scenario: the figures of the record. *)
Lemma analyzeRepository_record_ranges_witness :
  exists metrics,
    Eff.outcome (Metrics.analyzeRepository Examples.epoch Examples.scenarioWorld
                   "octo" "pulse") = Eff.Returned metrics
    /\ MetricsData.topContributorRatio (RepositoryMetrics.data metrics) <= 100
    /\ MetricsData.totalCommitsLast90Days (RepositoryMetrics.data metrics) <= 1000.
Proof.
  destruct (@analyzeRepository_record_ranges Examples.epoch Examples.scenarioWorld
              "octo" "pulse" Examples.repository eq_refl)
    as (metrics & Hrun & _ & Hratio & _ & _ & Hcommits & _).
  exists metrics. split; [exact Hrun|]. split; [exact Hratio|].
  apply Hcommits. constructor; [simpl; lia|constructor].
Defined.

(** The scenario: the analytics of the record. *)
Lemma analyzeRepository_analytics_witness :
  exists metrics prStats,
    Eff.outcome (Metrics.analyzeRepository Examples.epoch Examples.scenarioWorld
                   "octo" "pulse") = Eff.Returned metrics
    /\ MetricsData.prMergeRate (RepositoryMetrics.data metrics)
       = GitHub.mergeRate prStats.
Proof.
  destruct (@analyzeRepository_analytics Examples.epoch Examples.scenarioWorld
              "octo" "pulse" Examples.repository eq_refl)
    as (metrics & growth & prStats & codeFreq & Hrun & _ & _ & _ & _ & _ & Hrate & _).
  exists metrics, prStats. split; [exact Hrun|exact Hrate].
Defined.

(** A browser with a stored token. *)
Lemma getHeaders_authorization_witness :
  Client.getHeaders Samples.browser !! "Authorization"%string
  = Some "Bearer ghp_token"%string.
Proof.
  destruct (getHeaders_authorization Samples.browser) as (_ & _ & Hauthorization & _).
  apply Hauthorization. split; [reflexivity|].
  exists "ghp_token"%string. split; [reflexivity|]. split; [discriminate|].
  right. split; [|reflexivity]. intros (token & Hsome & _). discriminate Hsome.
Defined.

(** A token typed into the form and saved. *)
Lemma handleSaveToken_sent_witness :
  Client.getHeaders Samples.browser !! "Authorization"%string
  = Some "Bearer ghp_token"%string
  /\ Page.showTokenInput (Page.handleSaveToken Samples.form) = false.
Proof.
  destruct (handleSaveToken_sent Samples.form Samples.browser) as [_ Hsaved].
  apply Hsaved.
  - discriminate.
  - reflexivity.
  - intros (token & Hsome & _). discriminate Hsome.
  - reflexivity.
Defined.

(** The text octo/pulse. *)
Lemma validFormat_owner_and_name_witness :
  Page.split "octo/pulse" = ["octo"; "pulse"]%string.
Proof.
  destruct (validFormat_owner_and_name "octo/pulse") as (_ & Hsplit & _).
  apply Hsplit; reflexivity.
Defined.

